(** * anki/latex.py: embedded LaTeX tags to image links

    A shallow embedding of [src/anki/latex.py] (Python 2) and the
    properties of its rendering / caching pipeline.

    Data model.
    - A Python 2 byte string ([str]) is a Rocq [string]: a sequence of
      8-bit characters.  File names, file contents, the checksum text and
      the entity table's replacement texts are of this type.
    - A Python 2 [unicode] object is a list of code points ([list N]).
      Card content, the model's preamble / postamble and the text between
      tag delimiters are of this type.
    - Where Python 2 mixes the two ([unicode.replace] with a [str]
      argument, [unicode + str]), the [str] is decoded with the default
      ASCII codec, which raises [UnicodeDecodeError] on a byte above 127.
    - The operating system is a [world]: the working directory, the regular
      files by absolute path, and the trace of existence tests and of
      external tool runs.
    - Effects are a state-and-exception monad over [world]; the state
      survives an exception, as the process state does in Python. *)

From Stdlib Require Import ZArith NArith Ascii String List Lia Bool DecimalString.
From stdpp Require Import base option list strings gmap.

Local Open Scope N_scope.
Local Open Scope list_scope.

(** ** Python text *)

Module Py.

(** Code points of a [unicode] object. *)
Definition unicode := list N.

(** The text of an ASCII literal as a [unicode] object ([u"..."]). *)
Fixpoint u (s : string) : unicode :=
  match s with
  | EmptyString => []
  | String c s' => N_of_ascii c :: u s'
  end.

(** Exceptions the module can raise or let through. *)
Inductive exn :=
  | AssertionError
  | UnicodeDecodeError
  | TypeError
  | IOError
  | OSError
  | Exception_.

Inductive outcome (A : Type) :=
  | Ret (a : A)
  | Raise (e : exn).
Arguments Ret {A} a.
Arguments Raise {A} e.

#[global] Instance exn_eq_dec : EqDecision exn.
Proof. solve_decision. Defined.

(** Implicit coercion of a [str] to [unicode] with the ASCII codec. *)
Fixpoint decode_ascii (s : string) : outcome unicode :=
  match s with
  | EmptyString => Ret []
  | String c s' =>
      if N_of_ascii c <? 128 then
        match decode_ascii s' with
        | Ret r => Ret (N_of_ascii c :: r)
        | Raise e => Raise e
        end
      else Raise UnicodeDecodeError
  end.

(** A value that is either a [str] or a [unicode] object. *)
Inductive text :=
  | Str (s : string)
  | Uni (t : unicode).

Definition to_unicode (v : text) : outcome unicode :=
  match v with
  | Str s => decode_ascii s
  | Uni t => Ret t
  end.

(** [unicode.encode("utf8")], one code point.  Python 2 encodes every
    code point, surrogates included. *)
Definition byte_of (n : N) : ascii := ascii_of_N (N.land n 255).

Definition utf8_char (c : N) : list ascii :=
  if c <? 128 then [byte_of c]
  else if c <? 2048 then
    [byte_of (N.lor 192 (N.shiftr c 6));
     byte_of (N.lor 128 (N.land c 63))]
  else if c <? 65536 then
    [byte_of (N.lor 224 (N.shiftr c 12));
     byte_of (N.lor 128 (N.land (N.shiftr c 6) 63));
     byte_of (N.lor 128 (N.land c 63))]
  else
    [byte_of (N.lor 240 (N.shiftr c 18));
     byte_of (N.lor 128 (N.land (N.shiftr c 12) 63));
     byte_of (N.lor 128 (N.land (N.shiftr c 6) 63));
     byte_of (N.lor 128 (N.land c 63))].

Definition encode_utf8 (t : unicode) : string :=
  string_of_list_ascii (flat_map utf8_char t).

(** [sub in s] on sequences. *)
Fixpoint starts_with {A} `{EqDecision A} (p s : list A) : bool :=
  match p, s with
  | [], _ => true
  | _ :: _, [] => false
  | a :: p', b :: s' => if decide (a = b) then starts_with p' s' else false
  end.

Fixpoint contains {A} `{EqDecision A} (p s : list A) : bool :=
  starts_with p s ||
  match s with
  | [] => false
  | _ :: s' => contains p s'
  end.

(** [bad in latex] for two [str] values. *)
Definition str_contains (p s : string) : bool :=
  contains (list_ascii_of_string p) (list_ascii_of_string s).

(** [s.replace(old, new)]: every occurrence of [old], found left to right
    without overlap, becomes [new].  [skip] counts the characters of an
    occurrence that are still to be passed over. *)
Fixpoint replace_from {A} `{EqDecision A} (old new : list A) (skip : nat)
    (s : list A) : list A :=
  match s with
  | [] => []
  | c :: s' =>
      match skip with
      | S k => replace_from old new k s'
      | O =>
          if starts_with old s
          then new ++ replace_from old new (Nat.pred (length old)) s'
          else c :: replace_from old new 0 s'
      end
  end.

Definition replace {A} `{EqDecision A} (s old new : list A) : list A :=
  match old with
  | [] => new ++ flat_map (fun c => c :: new) s
  | _ :: _ => replace_from old new 0 s
  end.

End Py.

Import Py.

(** ** Regular expressions of the module *)

(** What a match object gives: [group()] and [group(1)]. *)
Record re_match := { group0 : unicode; group1 : unicode }.

(** Lower-casing of the [re] engine when neither LOCALE nor UNICODE is
    set: ASCII letters only. *)
Definition sre_lower (c : N) : N :=
  if (65 <=? c) && (c <=? 90) then c + 32 else c.

(** A literal under IGNORECASE: the matched text and what follows it. *)
Fixpoint lit_ignorecase (p s : unicode) : option (unicode * unicode) :=
  match p with
  | [] => Some ([], s)
  | a :: p' =>
      match s with
      | [] => None
      | b :: s' =>
          if decide (sre_lower a = sre_lower b) then
            match lit_ignorecase p' s' with
            | Some (m, r) => Some (b :: m, r)
            | None => None
            end
          else None
      end
  end.

(** A pattern [OPEN(.+?)CLOSE] compiled with DOTALL and IGNORECASE,
    [OPEN] and [CLOSE] being literals. *)
Record tag_re := { re_open : unicode; re_close : unicode }.

(** The lazy tail [.*?CLOSE]: the first place where [CLOSE] matches; any
    character, newline included, may be passed over (DOTALL). *)
Fixpoint lazy_until (close s : unicode) : option (unicode * unicode) :=
  match lit_ignorecase close s with
  | Some (cl, _) => Some ([], cl)
  | None =>
      match s with
      | [] => None
      | c :: s' =>
          match lazy_until close s' with
          | Some (b, cl) => Some (c :: b, cl)
          | None => None
          end
      end
  end.

(** A match of [OPEN(.+?)CLOSE] starting at the head of [s]. *)
Definition tag_at (re : tag_re) (s : unicode) : option re_match :=
  match lit_ignorecase (re_open re) s with
  | Some (o, b :: rest) =>
      match lazy_until (re_close re) rest with
      | Some (body, cl) =>
          Some {| group0 := o ++ (b :: body) ++ cl; group1 := b :: body |}
      | None => None
      end
  | _ => None
  end.

(** [pattern.finditer(s)]: the matches from left to right, the scan
    resuming where the previous match ended.  [skip] counts the characters
    of the last match still to be passed over. *)
Fixpoint finditer_from (m_at : unicode -> option re_match) (skip : nat)
    (s : unicode) : list re_match :=
  match s with
  | [] => []
  | _ :: s' =>
      match skip with
      | S k => finditer_from m_at k s'
      | O =>
          match m_at s with
          | Some m => m :: finditer_from m_at (Nat.pred (length (group0 m))) s'
          | None => finditer_from m_at 0 s'
          end
      end
  end.

Definition finditer (m_at : unicode -> option re_match) (s : unicode)
    : list re_match :=
  finditer_from m_at 0 s.

(** The pattern matches at no place of [pre], whatever text follows. *)
Definition quiet (m_at : unicode -> option re_match) (pre : unicode) : Prop :=
  forall s i, (i < length pre)%nat -> m_at (drop i (pre ++ s)) = None.

(** [re.sub(pattern, repl, s)]: replacement by position. *)
Fixpoint re_sub_from (m_at : unicode -> option re_match) (repl : unicode)
    (skip : nat) (s : unicode) : unicode :=
  match s with
  | [] => []
  | c :: s' =>
      match skip with
      | S k => re_sub_from m_at repl k s'
      | O =>
          match m_at s with
          | Some m =>
              repl ++ re_sub_from m_at repl (Nat.pred (length (group0 m))) s'
          | None => c :: re_sub_from m_at repl 0 s'
          end
      end
  end.

Definition re_sub (m_at : unicode -> option re_match) (repl s : unicode)
    : unicode :=
  re_sub_from m_at repl 0 s.

Inductive tag_kind := standard | expression | math.

(** [regexps]: the three tag patterns. *)
Definition regexps (k : tag_kind) : tag_re :=
  match k with
  | standard => {| re_open := u "[latex]"; re_close := u "[/latex]" |}
  | expression => {| re_open := u "[$]"; re_close := u "[/$]" |}
  | math => {| re_open := u "[$$]"; re_close := u "[/$$]" |}
  end.

(** [[a-z]] under IGNORECASE. *)
Definition is_letter (c : N) : bool :=
  (97 <=? sre_lower c) && (sre_lower c <=? 122).

(** The greedy run [[a-z]+] and what follows it. *)
Fixpoint span_letters (s : unicode) : unicode * unicode :=
  match s with
  | [] => ([], [])
  | c :: s' =>
      if is_letter c
      then let '(n, r) := span_letters s' in (c :: n, r)
      else ([], s)
  end.

(** ["&([a-z]+);"] with IGNORECASE, at the head of [s].  Giving back
    letters of the greedy run cannot help: the character then met is a
    letter, not the semicolon. *)
Definition entity_at (s : unicode) : option re_match :=
  match s with
  | 38 :: s1 =>
      match span_letters s1 with
      | (c :: name, 59 :: _) =>
          Some {| group0 := 38 :: (c :: name) ++ [59]; group1 := c :: name |}
      | _ => None
      end
  | _ => None
  end.

(** A literal matched exactly. *)
Fixpoint lit (p s : unicode) : option unicode :=
  match p with
  | [] => Some s
  | a :: p' =>
      match s with
      | [] => None
      | b :: s' => if decide (a = b) then lit p' s' else None
      end
  end.

(** ["<br( /)?>"] at the head of [s]: the optional group is tried first,
    then left out. *)
Definition br_at (s : unicode) : option re_match :=
  match lit (u "<br") s with
  | Some r =>
      match lit (u " />") r with
      | Some _ => Some {| group0 := u "<br />"; group1 := u " /" |}
      | None =>
          match lit (u ">") r with
          | Some _ => Some {| group0 := u "<br>"; group1 := [] |}
          | None => None
          end
      end
  | None => None
  end.

(** ** The entity table of the Python 2 standard library *)

(** [htmlentitydefs.name2codepoint]: the 252 entities of HTML 4. *)
Definition name2codepoint : list (string * N) :=
  [("quot", 34); ("amp", 38); ("lt", 60); ("gt", 62); ("nbsp", 160);
   ("iexcl", 161); ("cent", 162); ("pound", 163); ("curren", 164);
   ("yen", 165); ("brvbar", 166); ("sect", 167); ("uml", 168); ("copy", 169);
   ("ordf", 170); ("laquo", 171); ("not", 172); ("shy", 173); ("reg", 174);
   ("macr", 175); ("deg", 176); ("plusmn", 177); ("sup2", 178);
   ("sup3", 179); ("acute", 180); ("micro", 181); ("para", 182);
   ("middot", 183); ("cedil", 184); ("sup1", 185); ("ordm", 186);
   ("raquo", 187); ("frac14", 188); ("frac12", 189); ("frac34", 190);
   ("iquest", 191); ("Agrave", 192); ("Aacute", 193); ("Acirc", 194);
   ("Atilde", 195); ("Auml", 196); ("Aring", 197); ("AElig", 198);
   ("Ccedil", 199); ("Egrave", 200); ("Eacute", 201); ("Ecirc", 202);
   ("Euml", 203); ("Igrave", 204); ("Iacute", 205); ("Icirc", 206);
   ("Iuml", 207); ("ETH", 208); ("Ntilde", 209); ("Ograve", 210);
   ("Oacute", 211); ("Ocirc", 212); ("Otilde", 213); ("Ouml", 214);
   ("times", 215); ("Oslash", 216); ("Ugrave", 217); ("Uacute", 218);
   ("Ucirc", 219); ("Uuml", 220); ("Yacute", 221); ("THORN", 222);
   ("szlig", 223); ("agrave", 224); ("aacute", 225); ("acirc", 226);
   ("atilde", 227); ("auml", 228); ("aring", 229); ("aelig", 230);
   ("ccedil", 231); ("egrave", 232); ("eacute", 233); ("ecirc", 234);
   ("euml", 235); ("igrave", 236); ("iacute", 237); ("icirc", 238);
   ("iuml", 239); ("eth", 240); ("ntilde", 241); ("ograve", 242);
   ("oacute", 243); ("ocirc", 244); ("otilde", 245); ("ouml", 246);
   ("divide", 247); ("oslash", 248); ("ugrave", 249); ("uacute", 250);
   ("ucirc", 251); ("uuml", 252); ("yacute", 253); ("thorn", 254);
   ("yuml", 255); ("OElig", 338); ("oelig", 339); ("Scaron", 352);
   ("scaron", 353); ("Yuml", 376); ("fnof", 402); ("circ", 710);
   ("tilde", 732); ("Alpha", 913); ("Beta", 914); ("Gamma", 915);
   ("Delta", 916); ("Epsilon", 917); ("Zeta", 918); ("Eta", 919);
   ("Theta", 920); ("Iota", 921); ("Kappa", 922); ("Lambda", 923);
   ("Mu", 924); ("Nu", 925); ("Xi", 926); ("Omicron", 927); ("Pi", 928);
   ("Rho", 929); ("Sigma", 931); ("Tau", 932); ("Upsilon", 933);
   ("Phi", 934); ("Chi", 935); ("Psi", 936); ("Omega", 937); ("alpha", 945);
   ("beta", 946); ("gamma", 947); ("delta", 948); ("epsilon", 949);
   ("zeta", 950); ("eta", 951); ("theta", 952); ("iota", 953);
   ("kappa", 954); ("lambda", 955); ("mu", 956); ("nu", 957); ("xi", 958);
   ("omicron", 959); ("pi", 960); ("rho", 961); ("sigmaf", 962);
   ("sigma", 963); ("tau", 964); ("upsilon", 965); ("phi", 966);
   ("chi", 967); ("psi", 968); ("omega", 969); ("thetasym", 977);
   ("upsih", 978); ("piv", 982); ("ensp", 8194); ("emsp", 8195);
   ("thinsp", 8201); ("zwnj", 8204); ("zwj", 8205); ("lrm", 8206);
   ("rlm", 8207); ("ndash", 8211); ("mdash", 8212); ("lsquo", 8216);
   ("rsquo", 8217); ("sbquo", 8218); ("ldquo", 8220); ("rdquo", 8221);
   ("bdquo", 8222); ("dagger", 8224); ("Dagger", 8225); ("bull", 8226);
   ("hellip", 8230); ("permil", 8240); ("prime", 8242); ("Prime", 8243);
   ("lsaquo", 8249); ("rsaquo", 8250); ("oline", 8254); ("frasl", 8260);
   ("euro", 8364); ("image", 8465); ("weierp", 8472); ("real", 8476);
   ("trade", 8482); ("alefsym", 8501); ("larr", 8592); ("uarr", 8593);
   ("rarr", 8594); ("darr", 8595); ("harr", 8596); ("crarr", 8629);
   ("lArr", 8656); ("uArr", 8657); ("rArr", 8658); ("dArr", 8659);
   ("hArr", 8660); ("forall", 8704); ("part", 8706); ("exist", 8707);
   ("empty", 8709); ("nabla", 8711); ("isin", 8712); ("notin", 8713);
   ("ni", 8715); ("prod", 8719); ("sum", 8721); ("minus", 8722);
   ("lowast", 8727); ("radic", 8730); ("prop", 8733); ("infin", 8734);
   ("ang", 8736); ("and", 8743); ("or", 8744); ("cap", 8745); ("cup", 8746);
   ("int", 8747); ("there4", 8756); ("sim", 8764); ("cong", 8773);
   ("asymp", 8776); ("ne", 8800); ("equiv", 8801); ("le", 8804);
   ("ge", 8805); ("sub", 8834); ("sup", 8835); ("nsub", 8836);
   ("sube", 8838); ("supe", 8839); ("oplus", 8853); ("otimes", 8855);
   ("perp", 8869); ("sdot", 8901); ("lceil", 8968); ("rceil", 8969);
   ("lfloor", 8970); ("rfloor", 8971); ("lang", 9001); ("rang", 9002);
   ("loz", 9674); ("spades", 9824); ("clubs", 9827); ("hearts", 9829);
   ("diams", 9830)].


(** ['&#%d;' % codepoint] *)
Definition char_ref (c : N) : string :=
  "&#" +:+ NilEmpty.string_of_uint (N.to_uint c) +:+ ";".

(** [htmlentitydefs.entitydefs]: the replacement text in ISO Latin-1, a
    character reference for a code point outside Latin-1. *)
Definition entitydefs : gmap string string :=
  list_to_map
    (map (fun '(name, c) =>
            (name, if c <=? 255 then String (ascii_of_N c) EmptyString
                   else char_ref c))
         name2codepoint).

(** The [str] that compares equal to a [unicode] made of ASCII letters. *)
Definition ascii_str (t : unicode) : string :=
  string_of_list_ascii (map ascii_of_N t).

(** ** The operating system *)

(** What the module asks of, or starts on, the operating system. *)
Inductive event :=
  | EvExists (path : string)
  | EvCall (argv : list string) (dir : string).

Record world := World {
  cwd : string;
  files : gmap string string;
  trace : list event
}.

Definition set_cwd (d : string) (w : world) : world :=
  World d (files w) (trace w).
Definition set_files (f : gmap string string) (w : world) : world :=
  World (cwd w) f (trace w).
Definition log_event (e : event) (w : world) : world :=
  World (cwd w) (files w) (trace w ++ [e]).

Definition is_abs (p : string) : bool :=
  match p with
  | String c _ => Ascii.eqb c "/"
  | EmptyString => false
  end.

Fixpoint ends_with_slash (p : string) : bool :=
  match p with
  | EmptyString => false
  | String c EmptyString => Ascii.eqb c "/"
  | String _ p' => ends_with_slash p'
  end.

(** [os.path.join(a, b)] of [posixpath]. *)
Definition os_path_join (a b : string) : string :=
  if is_abs b then b
  else if String.eqb a EmptyString || ends_with_slash a then a +:+ b
  else a +:+ "/" +:+ b.

(** The file a path names for the process: a relative path is taken from
    the working directory. *)
Definition abspath (w : world) (p : string) : string :=
  os_path_join (cwd w) p.

(** ** State and exceptions *)

Definition M (A : Type) : Type := world -> outcome A * world.

Definition ret {A} (a : A) : M A := fun w => (Ret a, w).

Definition bind {A B} (c : M A) (k : A -> M B) : M B :=
  fun w =>
    match c w with
    | (Ret a, w') => k a w'
    | (Raise e, w') => (Raise e, w')
    end.

Definition raise {A} (e : exn) : M A := fun w => (Raise e, w).

Definition lift {A} (o : outcome A) : M A := fun w => (o, w).

(** [try: body finally: fin] *)
Definition try_finally {A} (body : M A) (fin : M unit) : M A :=
  fun w =>
    let '(r, w1) := body w in
    match fin w1 with
    | (Ret _, w2) => (r, w2)
    | (Raise e, w2) => (Raise e, w2)
    end.

(** [try: body except: handler] with a bare [except]. *)
Definition try_except {A} (body : M A) (handler : M A) : M A :=
  fun w =>
    match body w with
    | (Ret a, w1) => (Ret a, w1)
    | (Raise _, w1) => handler w1
    end.

Declare Scope py_scope.
Delimit Scope py_scope with py.
Notation "x <- c ;; k" := (bind c (fun x => k))
  (at level 100, c at next level, right associativity) : py_scope.
Notation "c ;; k" := (bind c (fun _ => k))
  (at level 100, right associativity) : py_scope.
Local Open Scope py_scope.

(** [os.path.exists(p)] *)
Definition os_path_exists (p : string) : M bool :=
  fun w =>
    (Ret (bool_decide (is_Some (files w !! abspath w p))),
     log_event (EvExists (abspath w p)) w).

Definition os_getcwd : M string := fun w => (Ret (cwd w), w).

(** [os.chdir(d)]; the directories the module moves between exist. *)
Definition os_chdir (d : string) : M unit :=
  fun w => (Ret tt, set_cwd (abspath w d) w).

(** [open(p, "w")]: the file is created or emptied; the handle is the
    file's absolute path. *)
Definition open_w (p : string) : M string :=
  fun w => (Ret (abspath w p), set_files (<[abspath w p := EmptyString]> (files w)) w).

(** [f.write(data)] followed by [f.close()] on a handle just opened. *)
Definition write_close (handle data : string) : M unit :=
  fun w => (Ret tt, set_files (<[handle := data]> (files w)) w).

(** [open(p).read()] *)
Definition read_file (p : string) : M string :=
  fun w =>
    match files w !! abspath w p with
    | Some data => (Ret data, w)
    | None => (Raise IOError, w)
    end.

(** [shutil.copy2(src, dst)] *)
Definition shutil_copy2 (src dst : string) : M unit :=
  fun w =>
    match files w !! abspath w src with
    | Some data => (Ret tt, set_files (<[abspath w dst := data]> (files w)) w)
    | None => (Raise IOError, w)
    end.

(** ** Collaborators outside the file *)

(** How a tool run ends: with an exit status, or without having run. *)
Inductive tool_result :=
  | Exit (code : Z)
  | NotRun.

(** The parts of the repository and of the machine that [latex.py] calls
    and that are not in the file.
    - [checksum], [stripHTML]: [anki.utils].
    - [translate]: [anki.lang._], the localisation of a message.
    - [scratch]: the directory [anki.utils.tmpdir()] returns.
    - [run_tool argv dir log fs]: the external program [argv] run in the
      directory [dir] with its output sent to the file [log]; it gives the
      way the run ended and the files it leaves.  A child process cannot
      move the working directory of its parent. *)
Record collaborators := {
  checksum : string -> string;
  stripHTML : unicode -> unicode;
  translate : string -> unicode;
  scratch : string;
  run_tool : list string -> string -> string -> gmap string string
             -> tool_result * gmap string string
}.

Record deck := { media_dir : string }.

Record model := { latexPre : unicode; latexPost : unicode }.

(** ** Formatting *)

Definition dquote : string := String (ascii_of_N 34) EmptyString.

Definition map_outcome {A B} (f : A -> B) (o : outcome A) : outcome B :=
  match o with
  | Ret a => Ret (f a)
  | Raise e => Raise e
  end.

(** [fmt % arg] for one argument that is not a tuple.  The messages of the
    module use the conversion [%s] only; [%%] is a percent sign; another
    conversion is reported as an error. *)
Fixpoint pyfmt (fmt : unicode) (arg : option unicode) : outcome unicode :=
  match fmt with
  | [] =>
      match arg with
      | None => Ret []
      | Some _ => Raise TypeError
      end
  | c :: rest =>
      if decide (c = 37) then
        match rest with
        | d :: rest' =>
            if decide (d = 115) then
              match arg with
              | Some a => map_outcome (app a) (pyfmt rest' None)
              | None => Raise TypeError
              end
            else if decide (d = 37) then map_outcome (cons 37) (pyfmt rest' arg)
            else Raise TypeError
        | [] => Raise TypeError
        end
      else map_outcome (cons c) (pyfmt rest arg)
  end.

Definition str_replace (s old new : string) : string :=
  string_of_list_ascii
    (replace (list_ascii_of_string s) (list_ascii_of_string old)
       (list_ascii_of_string new)).

(** [cgi.escape(s)] *)
Definition cgi_escape (s : string) : string :=
  let s := str_replace s "&" "&amp;" in
  let s := str_replace s "<" "&lt;" in
  let s := str_replace s ">" "&gt;" in
  s.

(** HTML escaping said character by character. *)
Definition escape_char (c : ascii) : list ascii :=
  if decide (c = "&"%char) then list_ascii_of_string "&amp;"
  else if decide (c = "<"%char) then list_ascii_of_string "&lt;"
  else if decide (c = ">"%char) then list_ascii_of_string "&gt;"
  else [c].

(** ** The module *)

Definition latexCmd : list string := ["latex"; "-interaction=nonstopmode"]%string.
Definition latexDviPngCmd : list string :=
  ["dvipng"; "-D"; "200"; "-T"; "tight"]%string.

(** The tokens [_buildImg] refuses. *)
Definition bad_tokens : list string :=
  ["write18"; "\readline"; "\input"; "\include"; "\catcode";
   "\openout"; "\write"; "\loop"; "\def"; "\shipout"]%string.

(** [latex] contains one of them. *)
Definition has_bad_token (latex : string) : bool :=
  existsb (fun bad => str_contains bad latex) bad_tokens.

(** What each kind of tag hands to [_imgLink]. *)
Definition wrap_of (k : tag_kind) (body : unicode) : unicode :=
  match k with
  | standard => body
  | expression => u "$" ++ body ++ u "$"
  | math => u "\begin{displaymath}" ++ body ++ u "\end{displaymath}"
  end.

(** Truth value of an exit status, and of what [_buildImg] returns. *)
Definition truthy (c : Z) : bool := negb (c =? 0)%Z.

(** The place of a kind in the order of the three loops of [mungeQA]. *)
Definition kind_rank (k : tag_kind) : nat :=
  match k with
  | standard => 0
  | expression => 1
  | math => 2
  end.

Section Latex.

Variable E : collaborators.

(** The module-level flag [build]: if off, use existing media but don't
    create new. *)
Variable build : bool.

(** Modelled from the spec: [anki.utils.tmpdir] is not under src/; it
    gives the scratch working directory. *)
Definition tmpdir : M string := ret (scratch E).

(** Modelled from the spec: [anki.utils.namedtmp] is not under src/; it
    gives the path of the scratch file [name], confined to the scratch
    area.  The keyword [rm=False] of the call in [_errMsg] tells that a
    file left under that name is removed otherwise. *)
Definition namedtmp (name : string) (rm : bool) : M string :=
  fun w =>
    let path := os_path_join (scratch E) name in
    (Ret path,
     if rm then set_files (delete (abspath w path) (files w)) w else w).

(** Modelled from the spec: [anki.utils.call] is not under src/; the
    external tool is run in the working directory and waited for; the
    result is its exit status. *)
Definition call (argv : list string) (log : string) : M Z :=
  fun w =>
    let '(r, fs) := run_tool E argv (cwd w) log (files w) in
    let w' := log_event (EvCall argv (cwd w)) (set_files fs w) in
    match r with
    | Exit c => (Ret c, w')
    | NotRun => (Raise OSError, w')
    end.

Definition stripLatex (text : unicode) : unicode :=
  let text :=
    fold_left (fun t m => replace t (group0 m) [])
      (finditer (tag_at (regexps standard)) text) text in
  let text :=
    fold_left (fun t m => replace t (group0 m) [])
      (finditer (tag_at (regexps expression)) text) text in
  let text :=
    fold_left (fun t m => replace t (group0 m) [])
      (finditer (tag_at (regexps math)) text) text in
  text.

(** The loop of [_latexFromHtml]: the matches come from the text as it
    was when the loop started; each replacement acts on the current text. *)
Fixpoint convert_entities (ms : list re_match) (latex : unicode)
    : outcome unicode :=
  match ms with
  | [] => Ret latex
  | m :: ms' =>
      match entitydefs !! ascii_str (group1 m) with
      | Some r =>
          match decode_ascii r with
          | Ret r' => convert_entities ms' (replace latex (group0 m) r')
          | Raise e => Raise e
          end
      | None => convert_entities ms' latex
      end
  end.

Definition _latexFromHtml (d : deck) (latex : unicode) : outcome unicode :=
  match convert_entities (finditer entity_at latex) latex with
  | Ret latex =>
      let latex := re_sub br_at [10] latex in
      let latex := stripHTML E latex in
      Ret latex
  | Raise e => Raise e
  end.

Definition _errMsg (type : string) : M unicode :=
  arg <- lift (decode_ascii type) ;;
  msg <- lift (pyfmt (translate E "Error executing %s.") (Some arg)) ;;
  let msg := msg ++ u "<br>" in
  try_except
    (path <- namedtmp "latex_log.txt" false ;;
     log <- read_file path ;;
     if String.eqb log EmptyString then raise Exception_
     else
       tail <- lift (decode_ascii
                 ("<small><pre>" +:+ cgi_escape log +:+ "</pre></small>")) ;;
       ret (msg ++ tail))
    (ret (msg ++ translate E "Have you installed latex and dvipng?")).

(** [for bad in (...): assert bad not in latex] *)
Fixpoint assert_absent (bads : list string) (latex : string) : M unit :=
  match bads with
  | [] => ret tt
  | bad :: rest =>
      if str_contains bad latex then raise AssertionError
      else assert_absent rest latex
  end.

(** The bytes [_buildImg] checks and writes: header, source, footer. *)
Definition wrapped (m : model) (latex : unicode) : string :=
  encode_utf8 (latexPre m ++ [10] ++ latex ++ [10] ++ latexPost m).

Definition _buildImg (d : deck) (latex : unicode) (fname : string)
    (m : model) : M (option unicode) :=
  let latex := wrapped m latex in
  assert_absent bad_tokens latex ;;
  logname <- namedtmp "latex_log.txt" true ;;
  log <- open_w logname ;;
  texname <- namedtmp "tmp.tex" true ;;
  texfile <- open_w texname ;;
  write_close texfile latex ;;
  let mdir := media_dir d in
  oldcwd <- os_getcwd ;;
  png <- namedtmp "tmp.png" true ;;
  try_finally
    (dir <- tmpdir ;;
     os_chdir dir ;;
     c <- call (latexCmd ++ ["tmp.tex"%string]) log ;;
     if truthy c then
       msg <- _errMsg "latex" ;; ret (Some msg)
     else
       c' <- call (latexDviPngCmd ++ ["tmp.dvi"; "-o"; "tmp.png"]%string) log ;;
       if truthy c' then
         msg <- _errMsg "dvipng" ;; ret (Some msg)
       else
         shutil_copy2 png (os_path_join mdir fname) ;;
         ret None)
    (os_chdir oldcwd).

(** ["latex-%s.png" % checksum(txt.encode("utf8"))] *)
Definition img_fname (txt : unicode) : string :=
  "latex-" +:+ checksum E (encode_utf8 txt) +:+ ".png".

(** ['<img src="%s">' % fname] *)
Definition img_link (fname : string) : string :=
  "<img src=" +:+ dquote +:+ fname +:+ dquote +:+ ">".

Definition _imgLink (d : deck) (latex : unicode) (m : model) : M text :=
  txt <- lift (_latexFromHtml d latex) ;;
  let fname := img_fname txt in
  let link := img_link fname in
  hit <- os_path_exists fname ;;
  if hit then ret (Str link)
  else if negb build then ret (Uni (u "[latex]" ++ latex ++ u "[/latex]"))
  else
    err <- _buildImg d txt fname m ;;
    match err with
    | Some (c :: msg) => ret (Uni (c :: msg))
    | _ => ret (Str link)
    end.

(** One [for match in ...finditer(html)] loop of [mungeQA]: [ms] are the
    matches found in the content as the loop started; every step replaces
    all occurrences of the matched span in the current content. *)
Fixpoint munge_matches (k : tag_kind) (d : deck) (m : model)
    (ms : list re_match) (html : unicode) : M unicode :=
  match ms with
  | [] => ret html
  | mt :: ms' =>
      r <- _imgLink d (wrap_of k (group1 mt)) m ;;
      r' <- lift (to_unicode r) ;;
      munge_matches k d m ms' (replace html (group0 mt) r')
  end.

Definition munge_kind (k : tag_kind) (d : deck) (m : model)
    (html : unicode) : M unicode :=
  munge_matches k d m (finditer (tag_at (regexps k)) html) html.

Definition mungeQA {T F D : Type} (html : unicode) (type : T) (fields : F)
    (m : model) (data : D) (d : deck) : M unicode :=
  html <- munge_kind standard d m html ;;
  html <- munge_kind expression d m html ;;
  munge_kind math d m html.

End Latex.

(** ** What the error report contains *)

(** The second half of the report, as the spec words it: the captured log,
    HTML-escaped, in a preformatted block when it can be read and is not
    empty; otherwise the hint that the tools may be missing.  A log that is
    not ASCII cannot be joined to the [unicode] message and gives the hint
    too. *)
Definition log_report (E : collaborators) (log : option string) : unicode :=
  let hint := translate E "Have you installed latex and dvipng?" in
  match log with
  | Some l =>
      if String.eqb l EmptyString then hint
      else
        match decode_ascii
                ("<small><pre>" +:+ cgi_escape l +:+ "</pre></small>") with
        | Ret block => block
        | Raise _ => hint
        end
  | None => hint
  end.

(** The whole report for the stage [type], given what the log file holds. *)
Definition error_report (E : collaborators) (type : string)
    (log : option string) : outcome unicode :=
  match decode_ascii type with
  | Ret arg =>
      match pyfmt (translate E "Error executing %s.") (Some arg) with
      | Ret msg => Ret ((msg ++ u "<br>") ++ log_report E log)
      | Raise e => Raise e
      end
  | Raise e => Raise e
  end.

(** ** The scratch files of a render job *)

(** The files as [_buildImg] hands them to the typesetter, [fs] being the
    files before the job and [latex] the bytes of the wrapped source: what
    an earlier job left under the names of the log, of the source and of
    the image is gone, the log is there and empty, and [tmp.tex] holds the
    source. *)
Definition job_files (E : collaborators) (latex : string)
    (fs : gmap string string) : gmap string string :=
  delete (os_path_join (scratch E) "tmp.png")
    (<[os_path_join (scratch E) "tmp.tex" := latex]>
       (<[os_path_join (scratch E) "latex_log.txt" := EmptyString]> fs)).

(** ** Collaborators for the worked examples *)

(** Modelled from the spec: [anki.utils.stripHTML] is not under src/;
    "strip any remaining markup tags, yielding text only": every span from
    a [<] to the next [>] is removed. *)
Fixpoint until_gt (s : unicode) : option unicode :=
  match s with
  | [] => None
  | c :: s' =>
      if decide (c = 62) then Some []
      else match until_gt s' with
           | Some b => Some (c :: b)
           | None => None
           end
  end.

Definition markup_at (s : unicode) : option re_match :=
  match s with
  | 60 :: s' =>
      match until_gt s' with
      | Some b => Some {| group0 := 60 :: b ++ [62]; group1 := [] |}
      | None => None
      end
  | _ => None
  end.

Definition strip_markup (s : unicode) : unicode := re_sub markup_at [] s.

(** A content hash for the examples: the bytes written in hexadecimal, so
    that different contents have different hashes. *)
Definition hex_digit (n : N) : ascii :=
  ascii_of_N (if n <? 10 then 48 + n else 87 + n).

Fixpoint hexdump (s : string) : string :=
  match s with
  | EmptyString => EmptyString
  | String c s' =>
      String (hex_digit (N_of_ascii c / 16))
        (String (hex_digit (N_of_ascii c mod 16)) (hexdump s'))
  end.

(** External tools for the examples: [latex] ends with [code1] and
    [dvipng] with [code2]; each leaves [out] in the log; a tool that ends
    with status 0 leaves its product in the directory it ran in. *)
Definition scripted_tools (code1 code2 : Z) (out : string)
    (argv : list string) (dir log : string) (fs : gmap string string)
    : tool_result * gmap string string :=
  match argv with
  | prog :: _ =>
      if String.eqb prog "latex" then
        (Exit code1,
         <[log := out]>
           (if (code1 =? 0)%Z then <[os_path_join dir "tmp.dvi" := "dvi"%string]> fs
            else fs))
      else if String.eqb prog "dvipng" then
        (Exit code2,
         <[log := out]>
           (if (code2 =? 0)%Z then <[os_path_join dir "tmp.png" := "png"%string]> fs
            else fs))
      else (NotRun, fs)
  | [] => (NotRun, fs)
  end.

(** The untranslated messages, hexadecimal hashes, markup stripping as the
    spec words it, and a scratch directory. *)
Definition demo (code1 code2 : Z) (out : string) : collaborators :=
  {| checksum := hexdump;
     stripHTML := strip_markup;
     translate := u;
     scratch := "/tmp/anki_temp";
     run_tool := scripted_tools code1 code2 out |}.

(** The tools succeed. *)
Definition working : collaborators := demo 0 0 "This is pdfTeX".

(** The typesetter fails. *)
Definition typeset_fails : collaborators :=
  demo 1 0 "! Undefined control sequence.".

(** External tools that fail on one source and not on another: [latex]
    ends with status 1 when the source in [tmp.tex] holds [\oops] or is
    missing, with status 0 otherwise; [dvipng] ends with status 0. *)
Definition choosy_tools (argv : list string) (dir log : string)
    (fs : gmap string string) : tool_result * gmap string string :=
  match argv with
  | prog :: _ =>
      if String.eqb prog "latex" then
        match fs !! os_path_join dir "tmp.tex" with
        | Some src =>
            if str_contains "\oops" src
            then (Exit 1, <[log := "! Undefined control sequence."%string]> fs)
            else (Exit 0,
                  <[log := "This is pdfTeX"%string]>
                    (<[os_path_join dir "tmp.dvi" := "dvi"%string]> fs))
        | None => (Exit 1, <[log := "! No file tmp.tex."%string]> fs)
        end
      else if String.eqb prog "dvipng" then
        (Exit 0,
         <[log := "This is dvipng"%string]>
           (<[os_path_join dir "tmp.png" := "png"%string]> fs))
      else (NotRun, fs)
  | [] => (NotRun, fs)
  end.

Definition choosy : collaborators :=
  {| checksum := hexdump;
     stripHTML := strip_markup;
     translate := u;
     scratch := "/tmp/anki_temp";
     run_tool := choosy_tools |}.

Definition demo_deck : deck := {| media_dir := "/home/u/deck.media" |}.
Definition plain_model : model := {| latexPre := []; latexPost := [] |}.

(** A world with no file, the working directory being the media folder. *)
Definition cold : world := World "/home/u/deck.media" ∅ [].

(** A model with a header and a footer. *)
Definition article_model : model :=
  {| latexPre := u "\documentclass{article}\begin{document}";
     latexPost := u "\end{document}" |}.

(** The media folder already holds the image of [x^2]. *)
Definition cached : world :=
  World "/home/u/deck.media"
    {[ "/home/u/deck.media/latex-785e32.png"%string := "png"%string ]} [].

(** The media folder already holds an image under the name of
    [\input{x}]. *)
Definition warm : world :=
  World "/home/u/deck.media"
    {[ "/home/u/deck.media/latex-5c696e7075747b787d.png"%string
       := "png"%string ]} [].

(** The image of [x^2] is in the media folder, the process works in
    another directory. *)
Definition elsewhere : world :=
  World "/home/u"
    {[ "/home/u/deck.media/latex-785e32.png"%string := "png"%string ]} [].

Definition nl : string := String (ascii_of_N 10) EmptyString.

(** [w'] comes from [w] by existence tests alone: same working directory,
    same files, and a trace that only gained existence tests. *)
Definition only_lookups (w w' : world) : Prop :=
  cwd w' = cwd w /\ files w' = files w /\
  exists evs, trace w' = trace w ++ evs /\
              Forall (fun e => exists p, e = EvExists p) evs.

Example finditer_ex1 :
  map group1 (finditer (tag_at (regexps standard)) (u "a[latex]x^2[/LATEX]b[Latex][/latex]c[/latex]"))
  = [u "x^2"; u "[/latex]c"].
Proof. reflexivity. Qed.

Example entitydefs_ex1 : entitydefs !! "sup2" = Some (String (ascii_of_N 178) EmptyString).
Proof. vm_compute. reflexivity. Qed.
Example entitydefs_ex2 : entitydefs !! "alpha" = Some "&#945;".
Proof. vm_compute. reflexivity. Qed.
Example entitydefs_ex3 : size entitydefs = 252%nat.
Proof. vm_compute. reflexivity. Qed.

(** ** Sequences: prefix test, membership, replacement *)

Section Sequences.

Context {A : Type} `{EqDecision A}.

Lemma starts_with_app (p r : list A) : starts_with p (p ++ r) = true.
Proof.
  induction p as [|a p IH]; simpl; [done|].
  by rewrite decide_True.
Qed.

Lemma starts_with_inv (p s : list A) :
  starts_with p s = true -> exists r, s = p ++ r.
Proof.
  revert s. induction p as [|a p IH]; intros s Hs.
  - by exists s.
  - destruct s as [|b s]; simpl in Hs; [done|].
    destruct (decide (a = b)) as [->|]; [|done].
    destruct (IH _ Hs) as [r ->]. by exists r.
Qed.

Lemma starts_with_spec (p s : list A) :
  starts_with p s = true <-> exists r, s = p ++ r.
Proof.
  split; [apply starts_with_inv|].
  intros [r ->]. apply starts_with_app.
Qed.

Lemma contains_spec (p s : list A) :
  contains p s = true <-> exists a b, s = a ++ p ++ b.
Proof.
  induction s as [|c s IH]; simpl.
  - rewrite orb_false_r, starts_with_spec. split.
    + intros [r Hr]. by exists [], r.
    + intros (a & b & Hab). symmetry in Hab.
      apply app_eq_nil in Hab as [-> Hab].
      apply app_eq_nil in Hab as [-> ->]. by exists [].
  - rewrite orb_true_iff, starts_with_spec, IH. split.
    + intros [[r Hr]|(a & b & ->)].
      * by exists [], r.
      * by exists (c :: a), b.
    + intros (a & b & Hab). destruct a as [|c' a]; simpl in Hab.
      * left. by exists b.
      * right. injection Hab as -> ->. by exists a, b.
Qed.

Lemma contains_false_starts (p s : list A) (k : nat) :
  contains p s = false -> starts_with p (drop k s) = false.
Proof.
  revert k. induction s as [|c s IH]; intros k Hc; simpl in Hc;
    apply orb_false_iff in Hc as [Hs Hc].
  - by rewrite drop_nil.
  - destruct k as [|k]; [done|]. simpl. by apply IH.
Qed.

Lemma replace_from_skip (old new : list A) (k : nat) (s : list A) :
  replace_from old new k s = replace_from old new 0 (drop k s).
Proof.
  revert k. induction s as [|c s IH]; intros k.
  - by rewrite drop_nil.
  - destruct k as [|k]; [done|]. simpl. apply IH.
Qed.

Lemma replace_from_absent (old new s : list A) :
  contains old s = false -> replace_from old new 0 s = s.
Proof.
  induction s as [|c s IH]; intros Hc; [done|].
  simpl in Hc. apply orb_false_iff in Hc as [Hs Hc].
  cbn [replace_from]. rewrite Hs. f_equal. by apply IH.
Qed.

Lemma replace_from_first (old new p r : list A) :
  old <> [] ->
  (forall k, (k < length p)%nat ->
     starts_with old (drop k (p ++ old ++ r)) = false) ->
  replace_from old new 0 (p ++ old ++ r)
  = p ++ new ++ replace_from old new 0 r.
Proof.
  intros Hold. induction p as [|c p IH]; intros Hfirst.
  - destruct old as [|a old]; [done|].
    change ([] ++ (a :: old) ++ r) with (a :: (old ++ r)).
    cbn [replace_from].
    pose proof (starts_with_app (a :: old) r) as Hp.
    change ((a :: old) ++ r) with (a :: old ++ r) in Hp. rewrite Hp.
    rewrite replace_from_skip. simpl. by rewrite drop_app_length.
  - change ((c :: p) ++ old ++ r) with (c :: (p ++ old ++ r)).
    cbn [replace_from].
    pose proof (Hfirst 0%nat ltac:(simpl; lia)) as H0.
    rewrite drop_0 in H0.
    change ((c :: p) ++ old ++ r) with (c :: (p ++ old ++ r)) in H0.
    rewrite H0. simpl. f_equal. apply IH.
    intros k Hk. apply (Hfirst (S k)). simpl. lia.
Qed.



Lemma replace_absent (s old new : list A) :
  old <> [] -> contains old s = false -> replace s old new = s.
Proof.
  intros Hold Hc. destruct old; [done|]. by apply replace_from_absent.
Qed.

Lemma replace_first (p r old new : list A) :
  old <> [] ->
  (forall k, (k < length p)%nat ->
     starts_with old (drop k (p ++ old ++ r)) = false) ->
  replace (p ++ old ++ r) old new = p ++ new ++ replace r old new.
Proof.
  intros Hold Hfirst. destruct old as [|a old]; [done|].
  by apply replace_from_first.
Qed.

(** Replacing a single character is a character-wise substitution. *)
Lemma replace_char (a : A) (new s : list A) :
  replace s [a] new
  = flat_map (fun c => if decide (c = a) then new else [c]) s.
Proof.
  unfold replace. induction s as [|c s IH]; [done|].
  cbn [replace_from starts_with flat_map length Nat.pred].
  destruct (decide (a = c)) as [->|Hne].
  - rewrite decide_True by done. by rewrite IH.
  - rewrite decide_False by congruence. simpl. by rewrite IH.
Qed.

End Sequences.

Lemma list_ascii_of_string_app (a b : string) :
  list_ascii_of_string (a +:+ b)
  = list_ascii_of_string a ++ list_ascii_of_string b.
Proof. induction a as [|c a IH]; simpl; [done|]. by rewrite IH. Qed.

Lemma string_of_list_ascii_app (a b : list ascii) :
  string_of_list_ascii (a ++ b)
  = string_of_list_ascii a +:+ string_of_list_ascii b.
Proof. induction a as [|c a IH]; simpl; [done|]. by rewrite IH. Qed.

(** [bad in latex] holds exactly when [latex] is some text, [bad], and
    some more text. *)
Lemma str_contains_spec (p s : string) :
  str_contains p s = true <-> exists a b, s = a +:+ p +:+ b.
Proof.
  unfold str_contains. rewrite contains_spec. split.
  - intros (a & b & Hab).
    exists (string_of_list_ascii a), (string_of_list_ascii b).
    rewrite <- (string_of_list_ascii_of_string s), Hab.
    rewrite !string_of_list_ascii_app.
    by rewrite string_of_list_ascii_of_string.
  - intros (a & b & ->).
    exists (list_ascii_of_string a), (list_ascii_of_string b).
    by rewrite !list_ascii_of_string_app.
Qed.

(** [cgi.escape], three replacements one after the other, escapes each
    character on its own: the ampersands are done first, and the texts put
    in for [<] and [>] hold neither of the two. *)
Lemma cgi_escape_chars (s : string) :
  list_ascii_of_string (cgi_escape s)
  = flat_map escape_char (list_ascii_of_string s).
Proof.
  unfold cgi_escape, str_replace.
  rewrite !list_ascii_of_string_of_list_ascii.
  change (list_ascii_of_string "&") with ["&"%char].
  change (list_ascii_of_string "<") with ["<"%char].
  change (list_ascii_of_string ">") with [">"%char].
  rewrite !replace_char.
  induction (list_ascii_of_string s) as [|c l IH]; [done|].
  cbn [flat_map]. rewrite !flat_map_app, IH. f_equal.
  unfold escape_char.
  destruct (decide (c = "&"%char)) as [->|H1]; [done|].
  cbn [flat_map]. rewrite app_nil_r.
  destruct (decide (c = "<"%char)) as [->|H2]; [done|].
  cbn [flat_map]. rewrite app_nil_r.
  by destruct (decide (c = ">"%char)).
Qed.

(** No [<] and no [>] is left in an escaped text. *)
Lemma cgi_escape_no_markup (s : string) (c : ascii) :
  In c (list_ascii_of_string (cgi_escape s)) ->
  c <> "<"%char /\ c <> ">"%char.
Proof.
  rewrite cgi_escape_chars, in_flat_map. intros (x & _ & Hc).
  unfold escape_char in Hc.
  repeat (destruct (decide _) in Hc);
    cbn in Hc; intuition (subst; congruence).
Qed.

(** ** Running the module *)

Arguments os_path_join : simpl never.
Arguments wrapped : simpl never.
Arguments str_contains : simpl never.
Arguments cgi_escape : simpl never.
Arguments decode_ascii : simpl never.
Arguments pyfmt : simpl never.

Section Running.

Variable E : collaborators.
Variable build : bool.

Lemma assert_absent_run (bads : list string) (latex : string) (w : world) :
  assert_absent bads latex w
  = if existsb (fun bad => str_contains bad latex) bads
    then (Raise AssertionError, w) else (Ret tt, w).
Proof.
  induction bads as [|bad bads IH]; simpl; [done|].
  destruct (str_contains bad latex); [done|]. apply IH.
Qed.

(** [_errMsg] reads the log and leaves the world as it is. *)
Lemma _errMsg_run (type : string) (w : world) :
  _errMsg E type w
  = (error_report E type
       (files w !! abspath w (os_path_join (scratch E) "latex_log.txt")), w).
Proof.
  unfold _errMsg, error_report, bind, lift.
  destruct (decode_ascii type) as [arg|e]; [|done].
  destruct (pyfmt _ _) as [msg|e]; [|done].
  unfold try_except, bind, namedtmp, read_file, log_report, raise, ret. simpl.
  destruct (files w !! _) as [l|]; [|done].
  destruct (String.eqb l EmptyString); [done|].
  unfold lift. by destruct (decode_ascii _).
Qed.

Lemma os_path_join_abs (a b : string) :
  is_abs b = true -> os_path_join a b = b.
Proof. unfold os_path_join. by intros ->. Qed.

Lemma is_abs_join (a b : string) :
  is_abs a = true -> is_abs (os_path_join a b) = true.
Proof.
  intros Ha. unfold os_path_join.
  destruct (is_abs b) eqn:Hb; [done|].
  destruct a as [|c a]; [done|].
  by destruct (String.eqb _ _ || _).
Qed.

Ltac run_os :=
  cbv beta iota zeta delta
    [namedtmp open_w write_close os_getcwd os_chdir tmpdir ret raise lift
     os_path_exists shutil_copy2 read_file
     abspath set_files set_cwd log_event cwd files trace fst snd].

Lemma _buildImg_cwd (d : deck) (latex : unicode) (fname : string)
    (m : model) (w : world) :
  is_abs (cwd w) = true ->
  cwd (_buildImg E d latex fname m w).2 = cwd w.
Proof.
  destruct w as [cw fs0 tr]. simpl. intros Habs.
  unfold _buildImg, bind. rewrite assert_absent_run.
  destruct (existsb _ _); [done|].
  unfold try_finally, bind, call. run_os.
  destruct (run_tool E _ _ _ _) as [[c|] fs]; [|by apply os_path_join_abs].
  destruct (truthy c).
  { rewrite _errMsg_run.
    destruct (error_report _ _ _); by apply os_path_join_abs. }
  destruct (run_tool E _ _ _ _) as [[c'|] fs']; [|by apply os_path_join_abs].
  destruct (truthy c').
  { rewrite _errMsg_run.
    destruct (error_report _ _ _); by apply os_path_join_abs. }
  destruct (fs' !! _); by apply os_path_join_abs.
Qed.

(** The tools run in the scratch directory: what [_buildImg] adds to the
    trace are tool runs there, and nothing else. *)
Lemma _buildImg_trace (d : deck) (latex : unicode) (fname : string)
    (m : model) (w : world) :
  exists evs,
    trace (_buildImg E d latex fname m w).2 = trace w ++ evs /\
    Forall (fun e => exists argv,
              e = EvCall argv (os_path_join (cwd w) (scratch E))) evs.
Proof.
  destruct w as [cw fs0 tr]. simpl.
  unfold _buildImg, bind. rewrite assert_absent_run.
  destruct (existsb _ _).
  { exists []. simpl. by rewrite app_nil_r. }
  unfold try_finally, bind, call. run_os.
  destruct (run_tool E _ _ _ _) as [[c|] fs].
  2:{ eexists [_]. split; [done|]. repeat constructor. by eexists. }
  destruct (truthy c).
  { rewrite _errMsg_run.
    destruct (error_report _ _ _); (eexists [_]; split; [done|]);
      repeat constructor; by eexists. }
  destruct (run_tool E _ _ _ _) as [[c'|] fs'].
  2:{ eexists [_; _]. split; [by rewrite <- app_assoc|].
      repeat constructor; by eexists. }
  destruct (truthy c').
  { rewrite _errMsg_run.
    destruct (error_report _ _ _);
      (eexists [_; _]; split; [by rewrite <- app_assoc|]);
      repeat constructor; by eexists. }
  destruct (fs' !! _);
    (eexists [_; _]; split; [by rewrite <- app_assoc|]);
    repeat constructor; by eexists.
Qed.

Lemma decode_ascii_raise (s : string) (e : exn) :
  decode_ascii s = Raise e -> e = UnicodeDecodeError.
Proof.
  induction s as [|c s IH]; unfold decode_ascii; fold decode_ascii; [done|].
  destruct (N_of_ascii c <? 128); [|congruence].
  destruct (decode_ascii s); [done|]. intros [= <-]. by apply IH.
Qed.

Lemma pyfmt_raise_aux (n : nat) :
  forall (fmt : unicode) (arg : option unicode) (e : exn),
    (length fmt <= n)%nat -> pyfmt fmt arg = Raise e -> e = TypeError.
Proof.
  induction n as [|n IH]; intros fmt arg e Hn.
  - destruct fmt; [|simpl in Hn; lia].
    unfold pyfmt. destruct arg; congruence.
  - destruct fmt as [|c rest].
    { unfold pyfmt. destruct arg; congruence. }
    unfold pyfmt; fold pyfmt. simpl in Hn.
    destruct (decide (c = 37)).
    + destruct rest as [|c' rest']; [congruence|]. simpl in Hn.
      destruct (decide (c' = 115)).
      * destruct arg; [|congruence].
        destruct (pyfmt rest' None) eqn:Hr; simpl; [done|].
        intros [= <-]. apply (IH rest' None); [lia|done].
      * destruct (decide (c' = 37)); [|congruence].
        destruct (pyfmt rest' arg) eqn:Hr; simpl; [done|].
        intros [= <-]. apply (IH rest' arg); [lia|done].
    + destruct (pyfmt rest arg) eqn:Hr; simpl; [done|].
      intros [= <-]. apply (IH rest arg); [lia|done].
Qed.

Lemma error_report_raise (type : string) (log : option string) (e : exn) :
  error_report E type log = Raise e -> e <> AssertionError.
Proof.
  unfold error_report.
  destruct (decode_ascii type) eqn:Hd.
  - destruct (pyfmt _ _) eqn:Hp; [done|].
    intros [= <-]. by rewrite (pyfmt_raise_aux _ _ _ _ (le_n _) Hp).
  - intros [= <-]. by rewrite (decode_ascii_raise _ _ Hd).
Qed.

(** Given the normalized text, [_imgLink] is the existence test followed
    by one of its three branches. *)
Lemma _imgLink_run (d : deck) (latex txt : unicode) (m : model) (w : world) :
  _latexFromHtml E d latex = Ret txt ->
  _imgLink E build d latex m w
  = let fname := img_fname E txt in
    let w1 := log_event (EvExists (os_path_join (cwd w) fname)) w in
    if bool_decide (is_Some (files w !! os_path_join (cwd w) fname))
    then (Ret (Str (img_link fname)), w1)
    else if negb build
    then (Ret (Uni (u "[latex]" ++ latex ++ u "[/latex]")), w1)
    else
      match _buildImg E d txt fname m w1 with
      | (Ret (Some (c :: msg)), w2) => (Ret (Uni (c :: msg)), w2)
      | (Ret _, w2) => (Ret (Str (img_link fname)), w2)
      | (Raise e, w2) => (Raise e, w2)
      end.
Proof.
  intros Htxt. unfold _imgLink, bind, lift. rewrite Htxt.
  unfold os_path_exists, abspath. simpl.
  destruct (bool_decide _); [done|].
  destruct (negb build); [done|].
  destruct (_buildImg _ _ _ _ _ _) as [[[[|c msg]|]|e] w2]; done.
Qed.

Lemma _imgLink_cwd (d : deck) (latex : unicode) (m : model) (w : world) :
  is_abs (cwd w) = true ->
  cwd (_imgLink E build d latex m w).2 = cwd w.
Proof.
  intros Habs.
  destruct (_latexFromHtml E d latex) as [txt|e] eqn:Htxt.
  2:{ unfold _imgLink, bind, lift. by rewrite Htxt. }
  rewrite (_imgLink_run _ _ _ _ _ Htxt). simpl.
  destruct (bool_decide _); [done|].
  destruct (negb build); [done|].
  pose proof (_buildImg_cwd d txt (img_fname E txt) m
                (log_event (EvExists (os_path_join (cwd w) (img_fname E txt))) w)
                Habs) as Hb.
  destruct (_buildImg _ _ _ _ _ _) as [[[[|c msg]|]|e] w2]; exact Hb.
Qed.

Lemma munge_matches_cwd (k : tag_kind) (d : deck) (m : model)
    (ms : list re_match) (html : unicode) (w : world) :
  is_abs (cwd w) = true ->
  cwd (munge_matches E build k d m ms html w).2 = cwd w.
Proof.
  revert html w. induction ms as [|mt ms IH]; intros html w Habs; [done|].
  simpl. unfold bind.
  pose proof (_imgLink_cwd d (wrap_of k (group1 mt)) m w Habs) as Hl.
  destruct (_imgLink _ _ _ _ _ _) as [[r|e] w1]; [|exact Hl].
  simpl in Hl. unfold lift.
  destruct (to_unicode r) as [r'|e]; [|exact Hl].
  rewrite IH; [exact Hl|]. by rewrite Hl.
Qed.

Lemma mungeQA_cwd {T F D : Type} (html : unicode) (type : T) (fields : F)
    (m : model) (data : D) (d : deck) (w : world) :
  is_abs (cwd w) = true ->
  cwd (mungeQA E build html type fields m data d w).2 = cwd w.
Proof.
  intros Habs. unfold mungeQA, munge_kind, bind.
  pose proof (munge_matches_cwd standard d m
                (finditer (tag_at (regexps standard)) html) html w Habs) as H1.
  destruct (munge_matches _ _ standard _ _ _ _ _) as [[h1|e] w1]; [|exact H1].
  simpl in H1.
  assert (is_abs (cwd w1) = true) as Habs1 by by rewrite H1.
  pose proof (munge_matches_cwd expression d m
                (finditer (tag_at (regexps expression)) h1) h1 w1 Habs1) as H2.
  destruct (munge_matches _ _ expression _ _ _ _ _) as [[h2|e] w2];
    [|by rewrite <- H1].
  simpl in H2.
  rewrite munge_matches_cwd; [by rewrite <- H1|]. by rewrite H2.
Qed.

(** C7. On every exit path of a render job the working directory is put
    back: whatever the external tools do (exit status 0, a failure of the
    typesetter, a failure of the rasterizer, a tool that cannot be run, a
    copy that fails, a message that cannot be formatted), the working
    directory after [_buildImg] is the one before it, the tools having run
    in the scratch directory in between; and so it is after [_imgLink] and
    after [mungeQA]. *)
Theorem C7_working_directory_restored (d : deck) (m : model) (w : world) :
  is_abs (cwd w) = true ->
  (forall latex fname,
     cwd (_buildImg E d latex fname m w).2 = cwd w /\
     exists evs,
       trace (_buildImg E d latex fname m w).2 = trace w ++ evs /\
       Forall (fun e => exists argv,
                 e = EvCall argv (os_path_join (cwd w) (scratch E))) evs) /\
  (forall latex, cwd (_imgLink E build d latex m w).2 = cwd w) /\
  (forall html, cwd (mungeQA E build html tt tt m tt d w).2 = cwd w).
Proof.
  intros Habs. repeat split.
  - by apply _buildImg_cwd.
  - apply _buildImg_trace.
  - intros latex. by apply _imgLink_cwd.
  - intros html. by apply mungeQA_cwd.
Qed.

(** ** The deny-list *)

Lemma has_bad_token_spec (latex : string) :
  has_bad_token latex = true
  <-> exists bad, In bad bad_tokens /\ exists a b, latex = a +:+ bad +:+ b.
Proof.
  unfold has_bad_token. rewrite existsb_exists.
  split; intros (bad & Hin & Hc); exists bad; split; try done;
    by apply str_contains_spec.
Qed.

Lemma _buildImg_bad (d : deck) (latex : unicode) (fname : string)
    (m : model) (w : world) :
  has_bad_token (wrapped m latex) = true ->
  _buildImg E d latex fname m w = (Raise AssertionError, w).
Proof.
  intros Hbad. unfold _buildImg, bind. rewrite assert_absent_run.
  unfold has_bad_token in Hbad. by rewrite Hbad.
Qed.

Lemma _buildImg_clean (d : deck) (latex : unicode) (fname : string)
    (m : model) (w : world) :
  has_bad_token (wrapped m latex) = false ->
  (_buildImg E d latex fname m w).1 <> Raise AssertionError.
Proof.
  intros Hclean. destruct w as [cw fs0 tr].
  unfold _buildImg, bind. rewrite assert_absent_run.
  unfold has_bad_token in Hclean. rewrite Hclean.
  unfold try_finally, bind, call. run_os.
  destruct (run_tool E _ _ _ _) as [[c|] fs]; [|done].
  destruct (truthy c).
  { rewrite _errMsg_run.
    destruct (error_report _ _ _) eqn:Hr; [done|]. simpl.
    intros [= ->]. by apply error_report_raise in Hr. }
  destruct (run_tool E _ _ _ _) as [[c'|] fs']; [|done].
  destruct (truthy c').
  { rewrite _errMsg_run.
    destruct (error_report _ _ _) eqn:Hr; [done|]. simpl.
    intros [= ->]. by apply error_report_raise in Hr. }
  by destruct (fs' !! _).
Qed.

(** An exception of [_imgLink] ends the loop over the matches and the
    whole of [mungeQA]. *)
Lemma munge_matches_raise (k : tag_kind) (d : deck) (m : model)
    (mt : re_match) (ms : list re_match) (html : unicode) (w w' : world)
    (e : exn) :
  _imgLink E build d (wrap_of k (group1 mt)) m w = (Raise e, w') ->
  munge_matches E build k d m (mt :: ms) html w = (Raise e, w').
Proof. intros H. simpl. unfold bind. by rewrite H. Qed.

Lemma mungeQA_raise_first {T F D : Type} (html : unicode) (type : T)
    (fields : F) (m : model) (data : D) (d : deck) (mt : re_match)
    (ms : list re_match) (w w' : world) (e : exn) :
  finditer (tag_at (regexps standard)) html = mt :: ms ->
  _imgLink E build d (group1 mt) m w = (Raise e, w') ->
  mungeQA E build html type fields m data d w = (Raise e, w').
Proof.
  intros Hfind Hl. unfold mungeQA, munge_kind, bind. rewrite Hfind.
  by rewrite (munge_matches_raise standard d m mt ms html w w' e Hl).
Qed.

(** C2. A wrapped source (header, source, footer, encoded) that contains
    one of the ten tokens makes [_buildImg] fail with an assertion error
    before any file is written and before any tool is run: the world is
    untouched.  A wrapped source with none of them never fails that way.
    The failure is not turned into a fragment: [_imgLink] raises it, the
    loop over the matches raises it, and [mungeQA] raises it. *)
Theorem C2_deny_list_is_fatal (d : deck) (m : model) (w : world) :
  (forall latex fname bad a b,
     In bad bad_tokens -> wrapped m latex = a +:+ bad +:+ b ->
     _buildImg E d latex fname m w = (Raise AssertionError, w)) /\
  (forall latex fname,
     (forall bad a b,
        In bad bad_tokens -> wrapped m latex <> a +:+ bad +:+ b) ->
     (_buildImg E d latex fname m w).1 <> Raise AssertionError) /\
  (forall latex txt bad a b,
     build = true ->
     _latexFromHtml E d latex = Ret txt ->
     files w !! os_path_join (cwd w) (img_fname E txt) = None ->
     In bad bad_tokens -> wrapped m txt = a +:+ bad +:+ b ->
     let w1 := log_event
                 (EvExists (os_path_join (cwd w) (img_fname E txt))) w in
     _imgLink E build d latex m w = (Raise AssertionError, w1) /\
     (forall k mt ms html,
        wrap_of k (group1 mt) = latex ->
        munge_matches E build k d m (mt :: ms) html w
        = (Raise AssertionError, w1)) /\
     (forall html mt ms,
        finditer (tag_at (regexps standard)) html = mt :: ms ->
        group1 mt = latex ->
        mungeQA E build html tt tt m tt d w = (Raise AssertionError, w1))).
Proof.
  split; [|split].
  - intros latex fname bad a b Hin Hw. apply _buildImg_bad.
    apply has_bad_token_spec. exists bad. split; [done|]. by exists a, b.
  - intros latex fname Hclean. apply _buildImg_clean.
    destruct (has_bad_token (wrapped m latex)) eqn:Hb; [|done].
    apply has_bad_token_spec in Hb as (bad & Hin & a & b & Hw).
    by destruct (Hclean bad a b Hin).
  - intros latex txt bad a b Hbuild Htxt Hmiss Hin Hw w1.
    assert (_imgLink E build d latex m w = (Raise AssertionError, w1)) as Hl.
    { rewrite (_imgLink_run _ _ _ _ _ Htxt). simpl. rewrite Hmiss.
      rewrite bool_decide_false by (by intros [? ?]).
      rewrite Hbuild. simpl. rewrite _buildImg_bad; [done|].
      apply has_bad_token_spec. exists bad. split; [done|]. by exists a, b. }
    split; [done|]. split.
    + intros k mt ms html <-. by apply munge_matches_raise.
    + intros html mt ms Hfind <-. by eapply mungeQA_raise_first.
Qed.

(** ** The cache *)

(** C3 (amended). The deny-list is consulted after the cache lookup and
    only on a miss with building on.  When a file of the tag's name exists,
    [_imgLink] gives the image link without looking at the tokens, so also
    for a wrapped source that contains one; on a miss with [build] on, a
    wrapped source that contains a token is refused, the existence test
    having been made first. *)
Theorem C3_deny_list_after_cache_lookup (d : deck) (m : model) (w : world)
    (latex txt : unicode) :
  _latexFromHtml E d latex = Ret txt ->
  let fname := img_fname E txt in
  let w1 := log_event (EvExists (os_path_join (cwd w) fname)) w in
  (is_Some (files w !! os_path_join (cwd w) fname) ->
   _imgLink E build d latex m w = (Ret (Str (img_link fname)), w1)) /\
  (files w !! os_path_join (cwd w) fname = None ->
   build = true ->
   has_bad_token (wrapped m txt) = true ->
   _imgLink E build d latex m w = (Raise AssertionError, w1)).
Proof.
  intros Htxt fname w1. split.
  - intros Hhit. rewrite (_imgLink_run _ _ _ _ _ Htxt). simpl.
    by rewrite bool_decide_true.
  - intros Hmiss Hbuild Hbad. unfold fname in Hmiss.
    rewrite (_imgLink_run _ _ _ _ _ Htxt). simpl. rewrite Hmiss.
    rewrite bool_decide_false by (by intros [? ?]).
    rewrite Hbuild. simpl. by rewrite _buildImg_bad.
Qed.


(** C5 (amended). The existence test is made on the file name as a
    relative path, that is in the working directory of the process: it is
    a hit exactly when a file of that name exists there.  When the working
    directory is the deck's media directory, this is the file of that name
    in the media directory. *)
Theorem C5_hit_test_in_working_directory (d : deck) (m : model) (w : world)
    (latex txt : unicode) :
  _latexFromHtml E d latex = Ret txt ->
  let fname := img_fname E txt in
  let w1 := log_event (EvExists (os_path_join (cwd w) fname)) w in
  (is_Some (files w !! os_path_join (cwd w) fname) ->
   _imgLink E build d latex m w = (Ret (Str (img_link fname)), w1)) /\
  (files w !! os_path_join (cwd w) fname = None ->
   _imgLink E build d latex m w
   = if negb build
     then (Ret (Uni (u "[latex]" ++ latex ++ u "[/latex]")), w1)
     else match _buildImg E d txt fname m w1 with
          | (Ret (Some (c :: msg)), w2) => (Ret (Uni (c :: msg)), w2)
          | (Ret _, w2) => (Ret (Str (img_link fname)), w2)
          | (Raise e, w2) => (Raise e, w2)
          end) /\
  (cwd w = media_dir d ->
   (is_Some (files w !! os_path_join (media_dir d) fname) ->
    _imgLink E build d latex m w = (Ret (Str (img_link fname)), w1)) /\
   (files w !! os_path_join (media_dir d) fname = None ->
    build = false ->
    _imgLink E build d latex m w
    = (Ret (Uni (u "[latex]" ++ latex ++ u "[/latex]")), w1))).
Proof.
  intros Htxt fname w1.
  assert (is_Some (files w !! os_path_join (cwd w) fname) ->
          _imgLink E build d latex m w = (Ret (Str (img_link fname)), w1))
    as Hhit.
  { intros Hhit. rewrite (_imgLink_run _ _ _ _ _ Htxt). simpl.
    by rewrite bool_decide_true. }
  assert (files w !! os_path_join (cwd w) fname = None ->
          _imgLink E build d latex m w
          = if negb build
            then (Ret (Uni (u "[latex]" ++ latex ++ u "[/latex]")), w1)
            else match _buildImg E d txt fname m w1 with
                 | (Ret (Some (c :: msg)), w2) => (Ret (Uni (c :: msg)), w2)
                 | (Ret _, w2) => (Ret (Str (img_link fname)), w2)
                 | (Raise e, w2) => (Raise e, w2)
                 end) as Hmiss.
  { intros Hmiss. rewrite (_imgLink_run _ _ _ _ _ Htxt). simpl.
    unfold fname in Hmiss. rewrite Hmiss.
    by rewrite bool_decide_false by (by intros [? ?]). }
  split; [done|]. split; [done|].
  intros Hcwd. rewrite <- Hcwd. split; [done|].
  intros Hnone Hbuild. rewrite (Hmiss Hnone). by rewrite Hbuild.
Qed.

(** C1 (amended). The file name is ["latex-"], the checksum of the
    normalized source encoded in UTF-8, and [".png"]; the model's header
    and footer are not part of the hashed bytes.  Equal bytes give equal
    names, for any two models; this is the name [_imgLink] tests, and the
    name in the link it gives on a hit. *)
Theorem C1_file_name_of_normalized_source (d : deck) (m : model) (w : world)
    (latex txt : unicode) :
  _latexFromHtml E d latex = Ret txt ->
  img_fname E txt = "latex-" +:+ checksum E (encode_utf8 txt) +:+ ".png" /\
  (forall d' latex' txt',
     _latexFromHtml E d' latex' = Ret txt' ->
     encode_utf8 txt = encode_utf8 txt' ->
     img_fname E txt = img_fname E txt') /\
  (exists evs,
     trace (_imgLink E build d latex m w).2
     = trace w ++ EvExists (os_path_join (cwd w) (img_fname E txt)) :: evs) /\
  (is_Some (files w !! os_path_join (cwd w) (img_fname E txt)) ->
   (_imgLink E build d latex m w).1
   = Ret (Str ("<img src=" +:+ dquote +:+ img_fname E txt +:+ dquote +:+ ">"))).
Proof.
  intros Htxt. split; [done|]. split; [|split].
  - intros d' latex' txt' _ Henc. unfold img_fname. by rewrite Henc.
  - rewrite (_imgLink_run _ _ _ _ _ Htxt). simpl.
    destruct (bool_decide _); [by exists []|].
    destruct (negb build); [by exists []|].
    destruct (_buildImg_trace d txt (img_fname E txt) m
                (log_event
                   (EvExists (os_path_join (cwd w) (img_fname E txt))) w))
      as (evs & Htr & _).
    exists evs. simpl in Htr. rewrite <- app_assoc in Htr.
    by destruct (_buildImg _ _ _ _ _ _) as [[[[|c msg]|]|e] w2].
  - intros Hhit. rewrite (_imgLink_run _ _ _ _ _ Htxt). simpl.
    by rewrite bool_decide_true.
Qed.

(** ** A failure of a tool *)

Lemma truthy_nonzero (c : Z) : c <> 0%Z -> truthy c = true.
Proof. intros Hc. unfold truthy. by apply negb_true_iff, Z.eqb_neq. Qed.

Lemma scratch_path (cw name : string) :
  is_abs (scratch E) = true ->
  os_path_join cw (os_path_join (scratch E) name)
  = os_path_join (scratch E) name.
Proof. intros Hs. apply os_path_join_abs. by apply is_abs_join. Qed.

(** The files [_buildImg] prepares, step by step, are [job_files]. *)
Lemma job_files_run (latex : string) (fs : gmap string string) :
  delete (os_path_join (scratch E) "tmp.png")
    (<[os_path_join (scratch E) "tmp.tex" := latex]>
       (<[os_path_join (scratch E) "tmp.tex" := EmptyString]>
          (delete (os_path_join (scratch E) "tmp.tex")
             (<[os_path_join (scratch E) "latex_log.txt" := EmptyString]>
                (delete (os_path_join (scratch E) "latex_log.txt") fs)))))
  = job_files E latex fs.
Proof.
  unfold job_files.
  by rewrite insert_insert_eq, !insert_delete_eq.
Qed.

(** The run of [_buildImg] when the typesetter ends with a status other
    than 0: the report of the stage [latex], the files as the typesetter
    left them, one tool run. *)
Lemma _buildImg_latex_exit (d : deck) (txt : unicode) (fname : string)
    (m : model) (w : world) (c : Z) (fs1 : gmap string string) :
  is_abs (cwd w) = true ->
  is_abs (scratch E) = true ->
  has_bad_token (wrapped m txt) = false ->
  run_tool E (latexCmd ++ ["tmp.tex"%string]) (scratch E)
    (os_path_join (scratch E) "latex_log.txt")
    (job_files E (wrapped m txt) (files w)) = (Exit c, fs1) ->
  c <> 0%Z ->
  _buildImg E d txt fname m w
  = (map_outcome Some
       (error_report E "latex"
          (fs1 !! os_path_join (scratch E) "latex_log.txt")),
     World (cwd w) fs1
       (trace w ++ [EvCall (latexCmd ++ ["tmp.tex"%string]) (scratch E)])).
Proof.
  destruct w as [cw fs0 tr]. cbn [cwd trace files].
  intros Habs Hscratch Hclean Hrun Hc.
  unfold _buildImg, bind. rewrite assert_absent_run.
  unfold has_bad_token in Hclean. rewrite Hclean.
  unfold try_finally, bind, call. run_os.
  rewrite !(scratch_path cw) by done.
  rewrite (os_path_join_abs cw (scratch E) Hscratch).
  rewrite job_files_run, Hrun.
  rewrite (truthy_nonzero c Hc). rewrite _errMsg_run. unfold abspath.
  cbn [cwd files].
  rewrite (scratch_path (scratch E)) by done.
  destruct (error_report _ _ _); cbn [map_outcome trace];
    by rewrite (os_path_join_abs (scratch E) cw Habs).
Qed.

(** The run of [_buildImg] when the typesetter ends with status 0 and
    the rasterizer does not: the report of the stage [dvipng], the files as
    the rasterizer left them, two tool runs. *)
Lemma _buildImg_dvipng_exit (d : deck) (txt : unicode) (fname : string)
    (m : model) (w : world) (c : Z) (fs1 fs2 : gmap string string) :
  is_abs (cwd w) = true ->
  is_abs (scratch E) = true ->
  has_bad_token (wrapped m txt) = false ->
  run_tool E (latexCmd ++ ["tmp.tex"%string]) (scratch E)
    (os_path_join (scratch E) "latex_log.txt")
    (job_files E (wrapped m txt) (files w)) = (Exit 0, fs1) ->
  run_tool E (latexDviPngCmd ++ ["tmp.dvi"; "-o"; "tmp.png"]%string)
    (scratch E) (os_path_join (scratch E) "latex_log.txt") fs1
  = (Exit c, fs2) ->
  c <> 0%Z ->
  _buildImg E d txt fname m w
  = (map_outcome Some
       (error_report E "dvipng"
          (fs2 !! os_path_join (scratch E) "latex_log.txt")),
     World (cwd w) fs2
       (trace w ++
        [EvCall (latexCmd ++ ["tmp.tex"%string]) (scratch E);
         EvCall (latexDviPngCmd ++ ["tmp.dvi"; "-o"; "tmp.png"]%string)
           (scratch E)])).
Proof.
  destruct w as [cw fs0 tr]. cbn [cwd trace files].
  intros Habs Hscratch Hclean Hrun1 Hrun2 Hc.
  unfold _buildImg, bind. rewrite assert_absent_run.
  unfold has_bad_token in Hclean. rewrite Hclean.
  unfold try_finally, bind, call. run_os.
  rewrite !(scratch_path cw) by done.
  rewrite (os_path_join_abs cw (scratch E) Hscratch).
  rewrite job_files_run, Hrun1.
  change (truthy 0) with false. cbv beta iota.
  rewrite Hrun2.
  rewrite (truthy_nonzero c Hc). rewrite _errMsg_run. unfold abspath.
  cbn [cwd files].
  rewrite (scratch_path (scratch E)) by done.
  destruct (error_report _ _ _); cbn [map_outcome trace];
    rewrite (os_path_join_abs (scratch E) cw Habs);
    by rewrite <- app_assoc.
Qed.

(** ** Entities *)

(** The loop of [_latexFromHtml] leaves the text as it is when none of
    the names it meets is in the table. *)
Lemma convert_entities_unknown (ms : list re_match) (latex : unicode) :
  Forall (fun mt => entitydefs !! ascii_str (group1 mt) = None) ms ->
  convert_entities ms latex = Ret latex.
Proof.
  induction 1 as [|mt ms Hmt _ IH]; cbn [convert_entities]; [done|].
  by rewrite Hmt.
Qed.

(** C8 (the code departs from the claim). Three entities of the table
    that normalization does not turn into their character, whatever the
    markup stripper is.  [&eacute;]: the replacement text is the Latin-1
    byte 233, which cannot be joined to the [unicode] text, and
    [_latexFromHtml] raises before the stripper is reached.  [&sup2;]: the
    pattern takes letters only, finds no match, and the reference reaches
    the stripper unchanged.  [&alpha;]: the replacement text of the table
    is the character reference [&#945;], not the character.  The stripper
    of the examples leaves the last two as they are. *)
Theorem C8_recognized_entities_not_converted (d : deck) :
  entitydefs !! "eacute"%string = Some (String (ascii_of_N 233) EmptyString) /\
  _latexFromHtml E d (u "&eacute;") = Raise UnicodeDecodeError /\
  entitydefs !! "sup2"%string = Some (String (ascii_of_N 178) EmptyString) /\
  finditer entity_at (u "&sup2;") = [] /\
  _latexFromHtml E d (u "&sup2;") = Ret (stripHTML E (u "&sup2;")) /\
  entitydefs !! "alpha"%string = Some "&#945;"%string /\
  _latexFromHtml E d (u "&alpha;") = Ret (stripHTML E (u "&#945;")) /\
  strip_markup (u "&sup2;") = u "&sup2;" /\
  strip_markup (u "&#945;") = u "&#945;".
Proof.
  split; [by vm_compute|]. split; [by vm_compute|].
  split; [by vm_compute|]. split; [done|]. split; [done|].
  split; [by vm_compute|]. split; [by vm_compute|]. split; done.
Qed.

(** ** The scan *)

Lemma lit_ignorecase_inv (p s mt r : unicode) :
  lit_ignorecase p s = Some (mt, r) ->
  s = mt ++ r /\ length mt = length p /\ map sre_lower mt = map sre_lower p.
Proof.
  revert s mt r. induction p as [|a p IH]; intros s mt r Hm; simpl in Hm.
  - by injection Hm as <- <-.
  - destruct s as [|b s]; [done|].
    destruct (decide (sre_lower a = sre_lower b)) as [Hab|]; [|done].
    destruct (lit_ignorecase p s) as [[mt' r']|] eqn:Hps; [|done].
    injection Hm as <- <-.
    destruct (IH _ _ _ Hps) as (-> & Hlen & Hlow).
    simpl. by rewrite Hlen, Hlow, Hab.
Qed.

Lemma lazy_until_inv (close s body cl : unicode) :
  lazy_until close s = Some (body, cl) ->
  exists r, s = body ++ cl ++ r /\ length cl = length close /\
            map sre_lower cl = map sre_lower close.
Proof.
  revert body cl. induction s as [|c s IH]; intros body cl Hm; simpl in Hm.
  - destruct (lit_ignorecase close []) as [[cl' r']|] eqn:Hc; [|done].
    injection Hm as <- <-.
    destruct (lit_ignorecase_inv _ _ _ _ Hc) as (Hs & Hlen & Hlow).
    by exists r'.
  - destruct (lit_ignorecase close (c :: s)) as [[cl' r']|] eqn:Hc.
    + injection Hm as <- <-.
      destruct (lit_ignorecase_inv _ _ _ _ Hc) as (Hs & Hlen & Hlow).
      by exists r'.
    + destruct (lazy_until close s) as [[b' cl']|] eqn:Hl; [|done].
      injection Hm as <- <-.
      destruct (IH _ _ eq_refl) as (r & -> & Hlen & Hlow). by exists r.
Qed.

(** The shape of a tag match: an opener and a closer that are the
    delimiters up to letter case, around a body of at least one
    character, at the head of the scanned text. *)
Lemma tag_at_inv (re : tag_re) (s : unicode) (mt : re_match) :
  tag_at re s = Some mt ->
  exists o cl r,
    s = group0 mt ++ r /\
    group0 mt = o ++ group1 mt ++ cl /\
    group1 mt <> [] /\
    length o = length (re_open re) /\
    length cl = length (re_close re) /\
    map sre_lower o = map sre_lower (re_open re) /\
    map sre_lower cl = map sre_lower (re_close re).
Proof.
  unfold tag_at. intros Hm.
  destruct (lit_ignorecase (re_open re) s) as [[o rest]|] eqn:Ho; [|done].
  destruct rest as [|b rest]; [done|].
  destruct (lazy_until (re_close re) rest) as [[body cl]|] eqn:Hc; [|done].
  injection Hm as <-. simpl.
  destruct (lit_ignorecase_inv _ _ _ _ Ho) as (-> & Hlen & Hlow).
  destruct (lazy_until_inv _ _ _ _ Hc) as (r & -> & Hlen' & Hlow').
  exists o, cl, r. repeat split; try done.
  rewrite <- (app_assoc o). simpl. by rewrite <- app_assoc.
Qed.

Lemma finditer_from_Forall (m_at : unicode -> option re_match)
    (P : re_match -> Prop) :
  (forall s mt, m_at s = Some mt -> P mt) ->
  forall s k, Forall P (finditer_from m_at k s).
Proof.
  intros HP. induction s as [|c s IH]; intros k; simpl; [done|].
  destruct k as [|k]; [|apply IH].
  destruct (m_at (c :: s)) as [mt|] eqn:Hm; [|apply IH].
  constructor; [by eapply HP|apply IH].
Qed.

Lemma finditer_from_short (m_at : unicode -> option re_match) (n : nat) :
  (forall s, (length s <= n)%nat -> m_at s = None) ->
  forall s k, (length s <= n)%nat -> finditer_from m_at k s = [].
Proof.
  intros Hnone. induction s as [|c s IH]; intros k Hn; simpl; [done|].
  simpl in Hn. destruct k as [|k]; [|apply IH; lia].
  rewrite Hnone by (simpl; lia). apply IH. lia.
Qed.

Lemma tag_at_short (re : tag_re) (s : unicode) :
  (length s <= length (re_open re) + length (re_close re))%nat ->
  tag_at re s = None.
Proof.
  intros Hlen. destruct (tag_at re s) as [mt|] eqn:Hm; [|done].
  destruct (tag_at_inv _ _ _ Hm) as (o & cl & r & Hs & Hg & Hne & Ho & Hc & _).
  rewrite Hs, Hg, !length_app in Hlen.
  destruct (group1 mt); [done|]. simpl in Hlen. lia.
Qed.

(** ** Contents without a tag *)

(** C10. A match of any of the three patterns has a body of at least one
    character, so a content no longer than the two delimiters has no
    match; the contents [[latex][/latex]], [[$][/$]] and [[$$][/$$]] come
    back unchanged, and the world with them: no existence test, no file
    written, no tool run. *)
Theorem C10_empty_body_is_not_a_tag (d : deck) (m : model) (w : world) :
  (forall k html,
     Forall (fun mt => group1 mt <> [])
       (finditer (tag_at (regexps k)) html)) /\
  (forall k html,
     (length html
      <= length (re_open (regexps k)) + length (re_close (regexps k)))%nat ->
     finditer (tag_at (regexps k)) html = []) /\
  mungeQA E build (u "[latex][/latex]") tt tt m tt d w
  = (Ret (u "[latex][/latex]"), w) /\
  mungeQA E build (u "[$][/$]") tt tt m tt d w = (Ret (u "[$][/$]"), w) /\
  mungeQA E build (u "[$$][/$$]") tt tt m tt d w = (Ret (u "[$$][/$$]"), w).
Proof.
  split; [|split].
  - intros k html. apply finditer_from_Forall. intros s mt Hm.
    by destruct (tag_at_inv _ _ _ Hm) as (o & cl & r & _ & _ & Hne & _).
  - intros k html Hlen.
    apply (finditer_from_short _
             (length (re_open (regexps k)) + length (re_close (regexps k))));
      [|done].
    intros s. apply tag_at_short.
  - repeat split; reflexivity.
Qed.

End Running.

(** ** Worked runs *)

(** The four ways out of a render job, the working directory put back in
    each. *)
Example render_success :
  let r := _buildImg working demo_deck (u "x^2") "latex-785e32.png"
             plain_model cold in
  r.1 = Ret None /\ cwd r.2 = "/home/u/deck.media"%string /\
  files r.2 !! "/home/u/deck.media/latex-785e32.png"%string = Some "png"%string.
Proof. by vm_compute. Qed.

Example render_typeset_failure :
  let r := _buildImg (demo 1 0 "! Missing $ inserted.") demo_deck (u "x^2")
             "latex-785e32.png" plain_model cold in
  r.1 = Ret (Some (u "Error executing latex.<br><small><pre>! Missing $ inserted.</pre></small>")) /\
  cwd r.2 = "/home/u/deck.media"%string /\
  files r.2 !! "/home/u/deck.media/latex-785e32.png"%string = None.
Proof. by vm_compute. Qed.

Example render_rasterize_failure :
  let r := _buildImg (demo 0 2 "dvipng: no font") demo_deck (u "x^2")
             "latex-785e32.png" plain_model cold in
  r.1 = Ret (Some (u "Error executing dvipng.<br><small><pre>dvipng: no font</pre></small>")) /\
  cwd r.2 = "/home/u/deck.media"%string.
Proof. by vm_compute. Qed.

Example render_unexpected_error :
  let E := {| checksum := hexdump; stripHTML := strip_markup; translate := u;
              scratch := "/tmp/anki_temp";
              run_tool := fun _ _ _ fs => (Exit 0, fs) |} in
  let r := _buildImg E demo_deck (u "x^2") "latex-785e32.png"
             plain_model cold in
  r.1 = Raise IOError /\ cwd r.2 = "/home/u/deck.media"%string /\
  trace r.2
  = [EvCall ["latex"; "-interaction=nonstopmode"; "tmp.tex"]%string
       "/tmp/anki_temp";
     EvCall ["dvipng"; "-D"; "200"; "-T"; "tight"; "tmp.dvi"; "-o";
             "tmp.png"]%string "/tmp/anki_temp"].
Proof. by vm_compute. Qed.

(** The order of the passes shows when a raw tag holds an inline one: the
    raw tag is taken whole. *)
Example raw_tag_first :
  (mungeQA working true (u "[latex][$]x[/$][/latex] [$]x[/$]")
     tt tt plain_model tt demo_deck cold).1
  = Ret (u "<img src=" ++ [34] ++ u "latex-5b245d785b2f245d.png" ++ [34]
         ++ u "> <img src=" ++ [34] ++ u "latex-247824.png" ++ [34] ++ u ">").
Proof. by vm_compute. Qed.

(** Two tags with the same text are replaced together by the first step. *)
Example same_tag_twice :
  (mungeQA working true (u "[$]x[/$] and [$]x[/$]")
     tt tt plain_model tt demo_deck cold).1
  = Ret (u "<img src=" ++ [34] ++ u "latex-247824.png" ++ [34]
         ++ u "> and <img src=" ++ [34] ++ u "latex-247824.png" ++ [34]
         ++ u ">").
Proof. by vm_compute. Qed.

(** The passes follow the kinds, not the places of the tags: the raw tag,
    last in the content, is looked up first. *)
Example kinds_in_priority_order :
  trace (mungeQA working false (u "[$$]c[/$$][$]b[/$][latex]a[/latex]")
           tt tt plain_model tt demo_deck cold).2
  = [EvExists (os_path_join "/home/u/deck.media"
                 (img_fname working (u "a")));
     EvExists (os_path_join "/home/u/deck.media"
                 (img_fname working (u "$b$")));
     EvExists (os_path_join "/home/u/deck.media"
                 (img_fname working
                    (u "\begin{displaymath}c\end{displaymath}")))].
Proof. by vm_compute. Qed.

(** With [build] off and nothing cached, a raw tag in lower case stays. *)
Example build_off_raw_tag_stays :
  mungeQA working false (u "a [latex]x^2[/latex] b") tt tt plain_model tt
    demo_deck cold
  = (Ret (u "a [latex]x^2[/latex] b"),
     log_event (EvExists "/home/u/deck.media/latex-785e32.png") cold).
Proof. by vm_compute. Qed.

(** The message of [_errMsg] and its formatting. *)
Example pyfmt_message :
  pyfmt (u "Error executing %s.") (Some (u "latex"))
  = Ret (u "Error executing latex.").
Proof. by vm_compute. Qed.

Example pyfmt_percent :
  pyfmt (u "100%% of %s") (Some (u "latex")) = Ret (u "100% of latex").
Proof. by vm_compute. Qed.

Example pyfmt_no_conversion :
  pyfmt (u "Error.") (Some (u "latex")) = Raise TypeError.
Proof. by vm_compute. Qed.

Example cgi_escape_ex :
  cgi_escape "a<b & c>d" = "a&lt;b &amp; c&gt;d"%string.
Proof. by vm_compute. Qed.

(** Entities: the four ASCII ones are converted; an unknown name is
    kept; an entity outside Latin-1 becomes a character reference; a
    Latin-1 entity above 127 cannot be joined to the [unicode] text. *)
Example entity_ascii_converted :
  _latexFromHtml working demo_deck (u "a &gt; b &amp;&amp; c &lt; d")
  = Ret (u "a > b && c < d").
Proof. by vm_compute. Qed.

Example entity_unknown_kept :
  _latexFromHtml working demo_deck (u "&foo; &AMP;")
  = Ret (u "&foo; &AMP;").
Proof. by vm_compute. Qed.

Example entity_beyond_latin1 :
  _latexFromHtml working demo_deck (u "&alpha;") = Ret (u "&#945;").
Proof. by vm_compute. Qed.

Example entity_latin1_raises :
  _latexFromHtml working demo_deck (u "&eacute;")
  = Raise UnicodeDecodeError.
Proof. by vm_compute. Qed.

Example line_breaks_and_markup :
  _latexFromHtml working demo_deck (u "a<br>b<br />c<b>d</b>")
  = Ret (u "a" ++ [10] ++ u "b" ++ [10] ++ u "cd").
Proof. by vm_compute. Qed.

(** ** The claims at concrete inputs *)

Lemma C1_witness :
  _latexFromHtml working demo_deck (u "x^2") = Ret (u "x^2") /\
  img_fname working (u "x^2") = "latex-785e32.png"%string.
Proof.
  split; [reflexivity|].
  destruct (C1_file_name_of_normalized_source working true demo_deck
              article_model cold (u "x^2") (u "x^2") eq_refl) as [H _].
  rewrite H. reflexivity.
Defined.

(** C1, as the claim words it, fails: with a header and a footer in the
    model, the name that is tested is the hash of the source alone, not
    the hash of header, source and footer. *)
Lemma C1_counterexample :
  trace (_imgLink working false demo_deck (u "x^2") article_model
           cold).2
  = [EvExists "/home/u/deck.media/latex-785e32.png"] /\
  img_fname working (u "x^2")
  <> ("latex-" +:+ checksum working (wrapped article_model (u "x^2"))
      +:+ ".png")%string.
Proof. split; [by vm_compute|]. vm_compute. discriminate. Qed.

Lemma C2_witness :
  In "\input"%string bad_tokens /\
  wrapped plain_model (u "\input{x}") = (nl +:+ "\input" +:+ "{x}" +:+ nl)%string /\
  _buildImg working demo_deck (u "\input{x}") "f.png" plain_model cold
  = (Raise AssertionError, cold) /\
  (_buildImg working demo_deck (u "x^2") "f.png" plain_model cold).1
  <> Raise AssertionError /\
  mungeQA working true (u "[latex]\input{x}[/latex]") tt tt
    plain_model tt demo_deck cold
  = (Raise AssertionError,
     log_event
       (EvExists "/home/u/deck.media/latex-5c696e7075747b787d.png") cold).
Proof.
  assert (In "\input"%string bad_tokens) as Hin by (simpl; tauto).
  assert (wrapped plain_model (u "\input{x}")
          = (nl +:+ "\input" +:+ "{x}" +:+ nl)%string) as Hw by reflexivity.
  destruct (C2_deny_list_is_fatal working true demo_deck plain_model
              cold) as (Hbad & Hclean & Hup).
  split; [exact Hin|]. split; [exact Hw|]. split; [|split].
  - exact (Hbad (u "\input{x}") "f.png"%string "\input"%string nl
             ("{x}" +:+ nl)%string Hin Hw).
  - apply Hclean. intros bad a b Hbadin Heq.
    assert (has_bad_token (wrapped plain_model (u "x^2")) = true) as Habs.
    { apply has_bad_token_spec. exists bad. split; [done|]. by exists a, b. }
    vm_compute in Habs. discriminate.
  - destruct (Hup (u "\input{x}") (u "\input{x}") "\input"%string nl
                ("{x}" +:+ nl)%string eq_refl eq_refl eq_refl Hin Hw)
      as (_ & _ & Hm).
    exact (Hm (u "[latex]\input{x}[/latex]")
             {| group0 := u "[latex]\input{x}[/latex]";
                group1 := u "\input{x}" |} [] eq_refl eq_refl).
Defined.

Lemma C3_witness :
  is_Some (files warm !! "/home/u/deck.media/latex-5c696e7075747b787d.png"%string) /\
  has_bad_token (wrapped plain_model (u "\input{x}")) = true /\
  _imgLink working true demo_deck (u "\input{x}") plain_model warm
  = (Ret (Str (img_link "latex-5c696e7075747b787d.png")),
     log_event
       (EvExists "/home/u/deck.media/latex-5c696e7075747b787d.png") warm) /\
  _imgLink working true demo_deck (u "\input{x}") plain_model cold
  = (Raise AssertionError,
     log_event
       (EvExists "/home/u/deck.media/latex-5c696e7075747b787d.png") cold).
Proof.
  assert (is_Some (files warm
            !! "/home/u/deck.media/latex-5c696e7075747b787d.png"%string))
    as Hhit by (by eexists).
  split; [exact Hhit|]. split; [reflexivity|]. split.
  - exact (proj1 (C3_deny_list_after_cache_lookup working true
                    demo_deck plain_model warm (u "\input{x}")
                    (u "\input{x}") eq_refl) Hhit).
  - exact (proj2 (C3_deny_list_after_cache_lookup working true
                    demo_deck plain_model cold (u "\input{x}")
                    (u "\input{x}") eq_refl) eq_refl eq_refl eq_refl).
Defined.

(** C3, as the claim words it, fails: a tag whose wrapped source holds
    [\input] is given its image link when the image is already there. *)
Lemma C3_counterexample :
  str_contains "\input" (wrapped plain_model (u "\input{x}")) = true /\
  (_imgLink working true demo_deck (u "\input{x}") plain_model warm).1
  = Ret (Str ("<img src=" +:+ dquote +:+ "latex-5c696e7075747b787d.png"
              +:+ dquote +:+ ">")).
Proof. split; by vm_compute. Qed.



Lemma C5_witness :
  cwd cached = media_dir demo_deck /\
  is_Some (files cached
             !! os_path_join (media_dir demo_deck)
                  (img_fname working (u "x^2"))) /\
  _imgLink working true demo_deck (u "x^2") plain_model cached
  = (Ret (Str (img_link "latex-785e32.png")),
     log_event (EvExists "/home/u/deck.media/latex-785e32.png") cached) /\
  _imgLink working false demo_deck (u "x^2") plain_model cold
  = (Ret (Uni (u "[latex]x^2[/latex]")),
     log_event (EvExists "/home/u/deck.media/latex-785e32.png") cold).
Proof.
  assert (is_Some (files cached
                     !! os_path_join (media_dir demo_deck)
                          (img_fname working (u "x^2")))) as Hhit
    by (by eexists).
  split; [reflexivity|]. split; [exact Hhit|]. split.
  - destruct (C5_hit_test_in_working_directory working true demo_deck
                plain_model cached (u "x^2") (u "x^2") eq_refl)
      as (_ & _ & Hmedia).
    exact (proj1 (Hmedia eq_refl) Hhit).
  - destruct (C5_hit_test_in_working_directory working false demo_deck
                plain_model cold (u "x^2") (u "x^2") eq_refl)
      as (_ & _ & Hmedia).
    exact (proj2 (Hmedia eq_refl) eq_refl eq_refl).
Defined.

(** C5, as the claim words it, fails: the image is in the media folder,
    the process works in another directory, and the test, made on
    [/home/u/latex-785e32.png], finds nothing. *)
Lemma C5_counterexample :
  is_Some (files elsewhere
             !! os_path_join (media_dir demo_deck) "latex-785e32.png") /\
  _imgLink working false demo_deck (u "x^2") plain_model elsewhere
  = (Ret (Uni (u "[latex]x^2[/latex]")),
     log_event (EvExists "/home/u/latex-785e32.png") elsewhere).
Proof. split; [by eexists|]. by vm_compute. Qed.


Lemma C7_witness :
  is_abs (cwd cold) = true /\
  cwd (_buildImg working demo_deck (u "x^2") "latex-785e32.png"
         plain_model cold).2 = cwd cold /\
  cwd (mungeQA (demo 1 0 "oops") true (u "[latex]x^2[/latex]") tt tt
         plain_model tt demo_deck cold).2 = cwd cold.
Proof.
  destruct (C7_working_directory_restored working true demo_deck
              plain_model cold eq_refl) as (Hb & _ & _).
  destruct (C7_working_directory_restored (demo 1 0 "oops") true demo_deck
              plain_model cold eq_refl) as (_ & _ & Hm).
  split; [reflexivity|]. split.
  - exact (proj1 (Hb (u "x^2") "latex-785e32.png"%string)).
  - exact (Hm (u "[latex]x^2[/latex]")).
Defined.

Lemma C10_witness :
  (length (u "[LATEX][/LaTeX]")
   <= length (re_open (regexps standard))
      + length (re_close (regexps standard)))%nat /\
  finditer (tag_at (regexps standard)) (u "[LATEX][/LaTeX]") = [].
Proof.
  destruct (C10_empty_body_is_not_a_tag working true demo_deck
              plain_model cold) as (_ & Hshort & _).
  assert (length (u "[LATEX][/LaTeX]")
          <= length (re_open (regexps standard))
             + length (re_close (regexps standard)))%nat as Hlen
    by (simpl; lia).
  split; [exact Hlen|]. exact (Hshort standard (u "[LATEX][/LaTeX]") Hlen).
Defined.

(** * Further properties of the module *)

(** ** The scan of the three patterns *)

Lemma sre_lower_bracket (x : N) : sre_lower x = 91 -> x = 91.
Proof.
  unfold sre_lower.
  destruct ((65 <=? x) && (x <=? 90)) eqn:Hx; [|done].
  apply andb_true_iff in Hx as [H1 H2].
  apply N.leb_le in H1, H2. lia.
Qed.

Lemma lit_ignorecase_complete (p o r : unicode) :
  map sre_lower o = map sre_lower p ->
  lit_ignorecase p (o ++ r) = Some (o, r).
Proof.
  revert o. induction p as [|a p IH]; intros [|b o] Hlow; try done.
  simpl in Hlow. injection Hlow as Hab Hlow. simpl.
  rewrite decide_True by done. by rewrite (IH o Hlow).
Qed.

Lemma lit_ignorecase_app (p s r mt t : unicode) :
  lit_ignorecase p s = Some (mt, t) ->
  lit_ignorecase p (s ++ r) = Some (mt, t ++ r).
Proof.
  intros Hm. destruct (lit_ignorecase_inv _ _ _ _ Hm) as (-> & _ & Hlow).
  rewrite <- app_assoc. by apply lit_ignorecase_complete.
Qed.

Lemma lit_ignorecase_app_None (p s r : unicode) :
  lit_ignorecase p (s ++ r) = None -> lit_ignorecase p s = None.
Proof.
  intros Hn. destruct (lit_ignorecase p s) as [[mt t]|] eqn:Hm; [|done].
  by rewrite (lit_ignorecase_app _ _ r _ _ Hm) in Hn.
Qed.

(** The lazy tail stops at the first place where the closer matches. *)
Lemma lazy_until_first (close s body cl : unicode) :
  lazy_until close s = Some (body, cl) ->
  forall i, (i < length body)%nat -> lit_ignorecase close (drop i s) = None.
Proof.
  revert body cl. induction s as [|c s IH]; intros body cl Hm i Hi.
  - simpl in Hm.
    destruct (lit_ignorecase close []) as [[? ?]|]; [|done].
    injection Hm as <- <-. simpl in Hi. lia.
  - simpl in Hm.
    destruct (lit_ignorecase close (c :: s)) as [[cl' r']|] eqn:Hc.
    { injection Hm as <- <-. simpl in Hi. lia. }
    destruct (lazy_until close s) as [[b' cl']|] eqn:Hl; [|done].
    injection Hm as <- <-.
    destruct i as [|i]; [done|].
    simpl. apply (IH _ _ eq_refl). simpl in Hi. lia.
Qed.

Lemma lazy_until_complete (close body c r : unicode) :
  map sre_lower c = map sre_lower close ->
  (forall i, (i < length body)%nat ->
     lit_ignorecase close (drop i (body ++ c ++ r)) = None) ->
  lazy_until close (body ++ c ++ r) = Some (body, c).
Proof.
  intros Hc. induction body as [|b body IH]; intros Hnone.
  - simpl. destruct (c ++ r) eqn:Hcr.
    + simpl. rewrite <- Hcr. by rewrite (lit_ignorecase_complete close c r Hc).
    + simpl. rewrite <- Hcr. by rewrite (lit_ignorecase_complete close c r Hc).
  - change ((b :: body) ++ c ++ r) with (b :: (body ++ c ++ r)).
    cbn [lazy_until].
    pose proof (Hnone 0%nat ltac:(simpl; lia)) as H0.
    rewrite drop_0 in H0.
    change ((b :: body) ++ c ++ r) with (b :: (body ++ c ++ r)) in H0.
    rewrite H0. rewrite IH; [done|].
    intros i Hi. apply (Hnone (S i)). simpl. lia.
Qed.

Lemma regexps_lower (k : tag_kind) :
  map sre_lower (re_open (regexps k)) = re_open (regexps k) /\
  map sre_lower (re_close (regexps k)) = re_close (regexps k).
Proof. by destruct k. Qed.

(** X1. What a match of one of the three patterns is made of: the
    opening delimiter and the closing delimiter of the kind, in any letter
    case, around a body of at least one character; and the closer is the
    first one after the body's first character (the body is the shortest
    possible). *)
Theorem tag_match_shape (k : tag_kind) (html : unicode) :
  Forall (fun mt => exists o c,
            group0 mt = o ++ group1 mt ++ c /\
            map sre_lower o = re_open (regexps k) /\
            map sre_lower c = re_close (regexps k) /\
            group1 mt <> [] /\
            forall i, (1 <= i < length (group1 mt))%nat ->
              lit_ignorecase (re_close (regexps k))
                (drop i (group1 mt ++ c)) = None)
    (finditer (tag_at (regexps k)) html).
Proof.
  apply finditer_from_Forall. intros s mt Hm.
  destruct (regexps_lower k) as [Hlo Hlc].
  unfold tag_at in Hm.
  destruct (lit_ignorecase (re_open (regexps k)) s) as [[o rest]|] eqn:Ho;
    [|done].
  destruct rest as [|b rest]; [done|].
  destruct (lazy_until (re_close (regexps k)) rest) as [[body cl]|] eqn:Hc;
    [|done].
  injection Hm as <-. cbn [group0 group1].
  destruct (lit_ignorecase_inv _ _ _ _ Ho) as (_ & _ & Hlow).
  destruct (lazy_until_inv _ _ _ _ Hc) as (r & Hrest & _ & Hlow').
  exists o, cl. split; [done|]. split; [by rewrite Hlow|].
  split; [by rewrite Hlow'|]. split; [done|].
  intros i [Hi1 Hi2]. destruct i as [|i]; [lia|]. simpl. simpl in Hi2.
  apply (lit_ignorecase_app_None _ _ r).
  pose proof (lazy_until_first _ _ _ _ Hc i ltac:(lia)) as Hf.
  rewrite Hrest in Hf.
  rewrite (app_assoc body cl r), drop_app_le in Hf; [done|].
  rewrite length_app. lia.
Qed.

Lemma finditer_from_skip (m_at : unicode -> option re_match) (k : nat)
    (s : unicode) :
  finditer_from m_at k s = finditer_from m_at 0 (drop k s).
Proof.
  revert k. induction s as [|c s IH]; intros k.
  - by rewrite drop_nil.
  - destruct k as [|k]; [done|]. simpl. apply IH.
Qed.

(** One step of the scan at a place where the pattern matches: the match,
    then the scan of what follows the matched span. *)
Lemma finditer_match (m_at : unicode -> option re_match) (s r : unicode)
    (mt : re_match) :
  m_at s = Some mt -> s = group0 mt ++ r -> group0 mt <> [] ->
  finditer m_at s = mt :: finditer m_at r.
Proof.
  intros Hm Hs Hne. unfold finditer.
  destruct s as [|c s']. { by destruct (group0 mt). }
  cbn [finditer_from]. rewrite Hm. f_equal.
  rewrite finditer_from_skip. f_equal.
  destruct (group0 mt) as [|g0 g]; [done|].
  simpl in Hs. injection Hs as -> ->. simpl. by rewrite drop_app_length.
Qed.

Lemma finditer_no_match (m_at : unicode -> option re_match) (c : N)
    (s : unicode) :
  m_at (c :: s) = None -> finditer m_at (c :: s) = finditer m_at s.
Proof. intros Hm. unfold finditer. cbn [finditer_from]. by rewrite Hm. Qed.

Lemma tag_at_prefix (re : tag_re) (s : unicode) (mt : re_match) :
  tag_at re s = Some mt -> exists r, s = group0 mt ++ r /\ group0 mt <> [].
Proof.
  intros Hm.
  destruct (tag_at_inv _ _ _ Hm) as (o & cl & r & Hs & Hg & Hne & _).
  exists r. split; [done|]. rewrite Hg.
  destruct o; [|done]. by destruct (group1 mt).
Qed.

Lemma finditer_partition_aux (re : tag_re) (n : nat) :
  forall s, (length s <= n)%nat ->
    exists gaps tail,
      length gaps = length (finditer (tag_at re) s) /\
      s = concat (zip_with (fun g mt => g ++ group0 mt) gaps
                    (finditer (tag_at re) s)) ++ tail.
Proof.
  induction n as [|n IH]; intros s Hn.
  - destruct s; [|simpl in Hn; lia]. by exists [], [].
  - destruct s as [|c s]; [by exists [], []|].
    destruct (tag_at re (c :: s)) as [mt|] eqn:Hm.
    + destruct (tag_at_prefix _ _ _ Hm) as (r & Hs & Hne).
      rewrite (finditer_match _ _ r _ Hm Hs Hne).
      destruct (IH r) as (gaps & tail & Hlen & Hr).
      { assert (length (c :: s) = length (group0 mt ++ r)) as Hl
          by by rewrite Hs.
        rewrite length_app in Hl. simpl in Hl, Hn.
        destruct (group0 mt); [done|]. simpl in Hl. lia. }
      exists ([] :: gaps), tail. split; [simpl; by rewrite Hlen|].
      simpl. rewrite <- app_assoc, <- Hr. exact Hs.
    + rewrite (finditer_no_match _ _ _ Hm).
      destruct (IH s) as (gaps & tail & Hlen & Hs).
      { simpl in Hn. lia. }
      destruct (finditer (tag_at re) s) as [|mt ms] eqn:Hf.
      * exists [], (c :: s). by split.
      * destruct gaps as [|g gaps]; [done|].
        exists ((c :: g) :: gaps), tail. split; [done|].
        simpl. simpl in Hs. by rewrite <- Hs.
Qed.

(** X2. The matches of a pattern are disjoint pieces of the content, in
    the order of the content: the content is a gap, the first matched
    span, a gap, the second matched span, and so on, then a tail. *)
Theorem finditer_partition (k : tag_kind) (html : unicode) :
  exists gaps tail,
    length gaps = length (finditer (tag_at (regexps k)) html) /\
    html = concat (zip_with (fun g mt => g ++ group0 mt) gaps
                     (finditer (tag_at (regexps k)) html)) ++ tail.
Proof. by apply (finditer_partition_aux _ (length html)). Qed.

Lemma tag_at_plain_head (k : tag_kind) (x : N) (s : unicode) :
  x <> 91 -> tag_at (regexps k) (x :: s) = None.
Proof.
  intros Hx. unfold tag_at.
  assert (exists p, re_open (regexps k) = 91 :: p) as [p ->]
    by (destruct k; by eexists).
  cbn [lit_ignorecase].
  destruct (decide (sre_lower 91 = sre_lower x)) as [Heq|]; [|done].
  destruct Hx. apply sre_lower_bracket. by rewrite <- Heq.
Qed.

(** Text in which the first character of the pattern does not occur is
    passed over by the scan. *)
Lemma finditer_skip (m_at : unicode -> option re_match) (c0 : N)
    (p s : unicode) :
  (forall x t, x <> c0 -> m_at (x :: t) = None) ->
  c0 ∉ p ->
  finditer m_at (p ++ s) = finditer m_at s.
Proof.
  intros Hhead. induction p as [|c p IH]; intros Hp; [done|].
  apply not_elem_of_cons in Hp as [Hc Hp].
  change ((c :: p) ++ s) with (c :: (p ++ s)).
  rewrite finditer_no_match by (apply Hhead; congruence).
  by apply IH.
Qed.

Lemma finditer_skip_plain (k : tag_kind) (p s : unicode) :
  91 ∉ p ->
  finditer (tag_at (regexps k)) (p ++ s) = finditer (tag_at (regexps k)) s.
Proof. apply finditer_skip. apply tag_at_plain_head. Qed.

Lemma finditer_plain (k : tag_kind) (p : unicode) :
  91 ∉ p -> finditer (tag_at (regexps k)) p = [].
Proof.
  intros Hp. rewrite <- (app_nil_r p). by rewrite finditer_skip_plain.
Qed.

Lemma tag_at_complete (k : tag_kind) (o body c r : unicode) :
  map sre_lower o = re_open (regexps k) ->
  map sre_lower c = re_close (regexps k) ->
  body <> [] ->
  (forall i, (1 <= i < length body)%nat ->
     lit_ignorecase (re_close (regexps k)) (drop i (body ++ c ++ r)) = None) ->
  tag_at (regexps k) (o ++ body ++ c ++ r)
  = Some {| group0 := o ++ body ++ c; group1 := body |}.
Proof.
  intros Ho Hc Hne Hfirst. destruct (regexps_lower k) as [Hlo Hlc].
  unfold tag_at.
  rewrite (lit_ignorecase_complete _ o (body ++ c ++ r))
    by by rewrite Ho, Hlo.
  destruct body as [|b body]; [done|].
  change ((b :: body) ++ c ++ r) with (b :: (body ++ c ++ r)).
  cbv beta iota.
  rewrite (lazy_until_complete _ body c r); [done|by rewrite Hc, Hlc|].
  intros i Hi. apply (Hfirst (S i)). simpl. lia.
Qed.

(** A well-formed tag after plain text is the next match. *)
Lemma finditer_tag_found (k : tag_kind) (p o body c r : unicode) :
  91 ∉ p ->
  map sre_lower o = re_open (regexps k) ->
  map sre_lower c = re_close (regexps k) ->
  body <> [] ->
  (forall i, (1 <= i < length body)%nat ->
     lit_ignorecase (re_close (regexps k)) (drop i (body ++ c ++ r)) = None) ->
  finditer (tag_at (regexps k)) (p ++ o ++ body ++ c ++ r)
  = {| group0 := o ++ body ++ c; group1 := body |}
    :: finditer (tag_at (regexps k)) r.
Proof.
  intros Hp Ho Hc Hne Hfirst. rewrite finditer_skip_plain by done.
  apply finditer_match.
  - by apply tag_at_complete.
  - cbn [group0]. by rewrite <- !app_assoc.
  - cbn [group0]. destruct o; [|done]. by destruct body.
Qed.

(** X3. A well-formed tag is found: after text without an opening
    bracket, a delimiter pair of the kind in any letter case, around a
    non-empty body in which no closer starts after the first character, is
    the next match, with the body as its group; the scan goes on after the
    closer. *)
Theorem finditer_finds_tag (k : tag_kind) (p o body c r : unicode) :
  91 ∉ p ->
  map sre_lower o = re_open (regexps k) ->
  map sre_lower c = re_close (regexps k) ->
  body <> [] ->
  (forall i, (1 <= i < length body)%nat ->
     lit_ignorecase (re_close (regexps k)) (drop i (body ++ c ++ r)) = None) ->
  finditer (tag_at (regexps k)) (p ++ o ++ body ++ c ++ r)
  = {| group0 := o ++ body ++ c; group1 := body |}
    :: finditer (tag_at (regexps k)) r.
Proof. apply finditer_tag_found. Qed.

Lemma delimiter_brackets (o t : unicode) :
  map sre_lower o = 91 :: t -> 91 ∉ t ->
  exists ot, o = 91 :: ot /\ 91 ∉ ot.
Proof.
  destruct o as [|o0 ot]; [done|]. simpl. intros [= H0 Ht] Hnt.
  exists ot. split; [by rewrite (sre_lower_bracket _ H0)|].
  intros Hin. apply Hnt. rewrite <- Ht.
  apply list_elem_of_fmap. by exists 91.
Qed.

Lemma open_brackets (k : tag_kind) (o : unicode) :
  map sre_lower o = re_open (regexps k) ->
  exists ot, o = 91 :: ot /\ 91 ∉ ot.
Proof.
  intros Ho. destruct k; simpl in Ho;
    (eapply delimiter_brackets; [exact Ho|]);
    rewrite list_elem_of_In; simpl; intuition discriminate.
Qed.

Lemma close_brackets (k : tag_kind) (c : unicode) :
  map sre_lower c = re_close (regexps k) ->
  exists ct, c = 91 :: ct /\ 91 ∉ ct.
Proof.
  intros Hc. destruct k; simpl in Hc;
    (eapply delimiter_brackets; [exact Hc|]);
    rewrite list_elem_of_In; simpl; intuition discriminate.
Qed.

(** The opener of one kind is not the opener of another. *)
Lemma tag_at_other_open (k' k : tag_kind) (o rest : unicode) :
  k' <> k ->
  map sre_lower o = re_open (regexps k) ->
  tag_at (regexps k') (o ++ rest) = None.
Proof.
  intros Hne Ho. unfold tag_at.
  destruct (lit_ignorecase (re_open (regexps k')) (o ++ rest))
    as [[o' rest']|] eqn:Hm; [|done].
  exfalso.
  destruct (lit_ignorecase_inv _ _ _ _ Hm) as (Hs & Hlen & Hlow).
  destruct (regexps_lower k') as [Hlo' _]. rewrite Hlo' in Hlow.
  assert (map sre_lower (o ++ rest) = map sre_lower (o' ++ rest')) as Hmap
    by by rewrite Hs.
  rewrite !map_app, Ho, Hlow in Hmap.
  destruct k', k; try done; simpl in Hmap; by injection Hmap.
Qed.

(** A closer is the opener of no kind. *)
Lemma tag_at_close (k' k : tag_kind) (c rest : unicode) :
  map sre_lower c = re_close (regexps k) ->
  tag_at (regexps k') (c ++ rest) = None.
Proof.
  intros Hc. unfold tag_at.
  destruct (lit_ignorecase (re_open (regexps k')) (c ++ rest))
    as [[o' rest']|] eqn:Hm; [|done].
  exfalso.
  destruct (lit_ignorecase_inv _ _ _ _ Hm) as (Hs & Hlen & Hlow).
  destruct (regexps_lower k') as [Hlo' _]. rewrite Hlo' in Hlow.
  assert (map sre_lower (c ++ rest) = map sre_lower (o' ++ rest')) as Hmap
    by by rewrite Hs.
  rewrite !map_app, Hc, Hlow in Hmap.
  destruct k', k; simpl in Hmap; by injection Hmap.
Qed.

(** The scan for one kind passes over a tag of another kind. *)
Lemma finditer_skip_other_tag (k' k : tag_kind) (p o body c s : unicode) :
  k' <> k ->
  91 ∉ p -> 91 ∉ body ->
  map sre_lower o = re_open (regexps k) ->
  map sre_lower c = re_close (regexps k) ->
  finditer (tag_at (regexps k')) (p ++ o ++ body ++ c ++ s)
  = finditer (tag_at (regexps k')) s.
Proof.
  intros Hne Hp Hb Ho Hc.
  rewrite finditer_skip_plain by done.
  pose proof (tag_at_other_open k' k o (body ++ c ++ s) Hne Ho) as Hopen.
  pose proof (tag_at_close k' k c s Hc) as Hclose.
  destruct (open_brackets k o Ho) as (ot & -> & Hot).
  destruct (close_brackets k c Hc) as (ct & -> & Hct).
  change ((91 :: ot) ++ body ++ (91 :: ct) ++ s)
    with (91 :: (ot ++ body ++ (91 :: ct) ++ s)).
  rewrite finditer_no_match by exact Hopen.
  rewrite finditer_skip_plain by done.
  rewrite finditer_skip_plain by done.
  change ((91 :: ct) ++ s) with (91 :: (ct ++ s)).
  rewrite finditer_no_match by exact Hclose.
  by rewrite finditer_skip_plain.
Qed.

(** A tag of one kind, in text without other brackets, holds no match of
    another kind. *)
Lemma finditer_other_kind (k' k : tag_kind) (p o body c r : unicode) :
  k' <> k ->
  91 ∉ p -> 91 ∉ body -> 91 ∉ r ->
  map sre_lower o = re_open (regexps k) ->
  map sre_lower c = re_close (regexps k) ->
  finditer (tag_at (regexps k')) (p ++ o ++ body ++ c ++ r) = [].
Proof.
  intros Hne Hp Hb Hr Ho Hc.
  rewrite (finditer_skip_other_tag k' k) by done.
  by apply finditer_plain.
Qed.

Lemma lit_ignorecase_plain_head (k : tag_kind) (x : N) (s : unicode) :
  x <> 91 -> lit_ignorecase (re_close (regexps k)) (x :: s) = None.
Proof.
  intros Hx.
  assert (exists p, re_close (regexps k) = 91 :: p) as [p ->]
    by (destruct k; by eexists).
  cbn [lit_ignorecase].
  destruct (decide (sre_lower 91 = sre_lower x)) as [Heq|]; [|done].
  destruct Hx. apply sre_lower_bracket. by rewrite <- Heq.
Qed.

Lemma no_closer_in_plain (k : tag_kind) (body rest : unicode) (i : nat) :
  91 ∉ body -> (i < length body)%nat ->
  lit_ignorecase (re_close (regexps k)) (drop i (body ++ rest)) = None.
Proof.
  revert i. induction body as [|b body IH]; intros i Hb Hi.
  { simpl in Hi. lia. }
  apply not_elem_of_cons in Hb as [Hb0 Hb].
  destruct i as [|i].
  - apply lit_ignorecase_plain_head. congruence.
  - simpl. apply IH; [done|]. simpl in Hi. lia.
Qed.

(** ** Replacement of a span that starts with a bracket *)

Section Headed.

Context {A : Type} `{EqDecision A}.

Lemma starts_with_other_head (a x : A) (t s : list A) :
  x <> a -> starts_with (a :: t) (x :: s) = false.
Proof. intros Hx. simpl. by rewrite decide_False by congruence. Qed.

Lemma contains_headed (a : A) (t r : list A) :
  a ∉ r -> contains (a :: t) r = false.
Proof.
  induction r as [|x r IH]; intros Hr; [done|].
  apply not_elem_of_cons in Hr as [Hx Hr].
  cbn [contains]. rewrite starts_with_other_head by congruence.
  by apply IH.
Qed.

(** A span whose first character occurs neither before nor after it is
    replaced where it stands. *)
Lemma replace_headed (a : A) (p t r new : list A) :
  a ∉ p -> a ∉ r ->
  replace (p ++ (a :: t) ++ r) (a :: t) new = p ++ new ++ r.
Proof.
  intros Hp Hr. rewrite replace_first; [|done|].
  - by rewrite (replace_absent r) by (done || by apply contains_headed).
  - clear Hr. induction p as [|x p IH]; intros i Hi.
    { simpl in Hi. lia. }
    apply not_elem_of_cons in Hp as [Hx Hp].
    destruct i as [|i].
    + apply starts_with_other_head. congruence.
    + simpl. apply IH; [done|]. simpl in Hi. lia.
Qed.

End Headed.

Lemma replace_tag (p t r new : unicode) :
  91 ∉ p -> 91 ∉ r ->
  replace (p ++ (91 :: t) ++ r) (91 :: t) new = p ++ new ++ r.
Proof. apply replace_headed. Qed.

Lemma span_bracket (k : tag_kind) (o body c : unicode) :
  map sre_lower o = re_open (regexps k) ->
  exists t, o ++ body ++ c = 91 :: t.
Proof.
  intros Ho. destruct (open_brackets k o Ho) as (ot & -> & _). by eexists.
Qed.

(** *** Text the scan passes over *)

Lemma quiet_app (m_at : unicode -> option re_match) (pre1 pre2 : unicode) :
  quiet m_at pre1 -> quiet m_at pre2 -> quiet m_at (pre1 ++ pre2).
Proof.
  intros H1 H2 s i Hi. rewrite <- app_assoc.
  destruct (decide (i < length pre1)%nat) as [Hlt|Hge]; [by apply H1|].
  rewrite drop_app_ge by lia. apply H2. rewrite length_app in Hi. lia.
Qed.

Lemma quiet_plain (k : tag_kind) (p : unicode) :
  91 ∉ p -> quiet (tag_at (regexps k)) p.
Proof.
  induction p as [|x p IH]; intros Hp s i Hi; [simpl in Hi; lia|].
  apply not_elem_of_cons in Hp as [Hx Hp].
  destruct i as [|i].
  - apply tag_at_plain_head. congruence.
  - simpl. apply IH; [done|]. simpl in Hi. lia.
Qed.

Lemma quiet_open (k' k : tag_kind) (o : unicode) :
  k' <> k ->
  map sre_lower o = re_open (regexps k) ->
  quiet (tag_at (regexps k')) o.
Proof.
  intros Hne Ho s i Hi. destruct i as [|i].
  - by apply (tag_at_other_open k' k).
  - destruct (open_brackets k o Ho) as (ot & -> & Hot).
    simpl. apply quiet_plain; [done|]. simpl in Hi. lia.
Qed.

Lemma quiet_close (k' k : tag_kind) (c : unicode) :
  map sre_lower c = re_close (regexps k) ->
  quiet (tag_at (regexps k')) c.
Proof.
  intros Hc s i Hi. destruct i as [|i].
  - by apply (tag_at_close k' k).
  - destruct (close_brackets k c Hc) as (ct & -> & Hct).
    simpl. apply quiet_plain; [done|]. simpl in Hi. lia.
Qed.

Lemma quiet_other_tag (k' k : tag_kind) (o body c : unicode) :
  k' <> k -> 91 ∉ body ->
  map sre_lower o = re_open (regexps k) ->
  map sre_lower c = re_close (regexps k) ->
  quiet (tag_at (regexps k')) (o ++ body ++ c).
Proof.
  intros Hne Hb Ho Hc.
  apply quiet_app; [by apply (quiet_open k' k)|].
  apply quiet_app; [by apply quiet_plain|by apply (quiet_close k' k)].
Qed.

Lemma finditer_quiet (m_at : unicode -> option re_match) (pre s : unicode) :
  quiet m_at pre -> finditer m_at (pre ++ s) = finditer m_at s.
Proof.
  induction pre as [|x pre IH]; intros Hq; [done|].
  change ((x :: pre) ++ s) with (x :: (pre ++ s)).
  rewrite finditer_no_match by (apply (Hq s 0%nat); simpl; lia).
  apply IH. intros s' i Hi. apply (Hq s' (S i)). simpl. lia.
Qed.

(** *** A span that is a tag is found wherever it stands *)

Lemma lazy_until_here (close s cl r : unicode) :
  lit_ignorecase close s = Some (cl, r) -> lazy_until close s = Some ([], cl).
Proof. intros Hm. destruct s; simpl; by rewrite Hm. Qed.

Lemma lazy_until_some (close body c rest : unicode) :
  map sre_lower c = map sre_lower close ->
  is_Some (lazy_until close (body ++ c ++ rest)).
Proof.
  intros Hc. induction body as [|b body IH].
  - eexists. eapply lazy_until_here.
    exact (lit_ignorecase_complete close c rest Hc).
  - change ((b :: body) ++ c ++ rest) with (b :: (body ++ c ++ rest)).
    cbn [lazy_until].
    destruct (lit_ignorecase close (b :: body ++ c ++ rest)) as [[cl r]|];
      [by eexists|].
    destruct IH as [[b' cl'] ->]. by eexists.
Qed.

Lemma tag_at_some (k : tag_kind) (o body c rest : unicode) :
  map sre_lower o = re_open (regexps k) ->
  map sre_lower c = re_close (regexps k) ->
  body <> [] ->
  is_Some (tag_at (regexps k) (o ++ body ++ c ++ rest)).
Proof.
  intros Ho Hc Hne. destruct (regexps_lower k) as [Hlo Hlc].
  unfold tag_at.
  rewrite (lit_ignorecase_complete _ o (body ++ c ++ rest))
    by by rewrite Ho, Hlo.
  destruct body as [|b body]; [done|].
  change ((b :: body) ++ c ++ rest) with (b :: (body ++ c ++ rest)).
  cbv beta iota.
  destruct (lazy_until_some (re_close (regexps k)) body c rest)
    as [[b' cl'] ->]; [by rewrite Hc, Hlc|]. by eexists.
Qed.

(** A content without a match of the pattern holds no span that is a tag
    of the kind. *)
Lemma finditer_nil_inv (m_at : unicode -> option re_match) (s : unicode) :
  finditer m_at s = [] ->
  forall i, (i < length s)%nat -> m_at (drop i s) = None.
Proof.
  induction s as [|x s IH]; intros Hf i Hi; [simpl in Hi; lia|].
  unfold finditer in Hf. cbn [finditer_from] in Hf.
  destruct (m_at (x :: s)) as [mt|] eqn:Hm; [done|].
  destruct i as [|i]; [done|].
  simpl. apply IH; [done|]. simpl in Hi. lia.
Qed.

Lemma span_starts_nowhere (k : tag_kind) (o body c s : unicode) :
  map sre_lower o = re_open (regexps k) ->
  map sre_lower c = re_close (regexps k) ->
  body <> [] ->
  tag_at (regexps k) s = None ->
  starts_with (o ++ body ++ c) s = false.
Proof.
  intros Ho Hc Hne Hnone.
  destruct (starts_with (o ++ body ++ c) s) eqn:Hs; [|done].
  apply starts_with_inv in Hs as [rest ->].
  rewrite <- !app_assoc in Hnone.
  destruct (tag_at_some k o body c rest Ho Hc Hne) as [mt Hmt].
  congruence.
Qed.

Lemma span_absent (k : tag_kind) (o body c s : unicode) :
  map sre_lower o = re_open (regexps k) ->
  map sre_lower c = re_close (regexps k) ->
  body <> [] ->
  finditer (tag_at (regexps k)) s = [] ->
  contains (o ++ body ++ c) s = false.
Proof.
  intros Ho Hc Hne Hf.
  destruct (contains (o ++ body ++ c) s) eqn:Hcon; [|done].
  apply contains_spec in Hcon as (a & b & ->).
  pose proof (finditer_nil_inv _ _ Hf (length a)) as Hnone.
  rewrite drop_app_length in Hnone.
  rewrite <- !app_assoc in Hnone.
  destruct (tag_at_some k o body c b Ho Hc Hne) as [mt Hmt].
  rewrite Hnone in Hmt; [done|].
  rewrite !length_app. destruct o; [|simpl; lia].
  destruct body; [done|simpl; lia].
Qed.

Lemma replace_quiet (k : tag_kind) (pre o body c s new : unicode) :
  quiet (tag_at (regexps k)) pre ->
  map sre_lower o = re_open (regexps k) ->
  map sre_lower c = re_close (regexps k) ->
  body <> [] ->
  replace (pre ++ (o ++ body ++ c) ++ s) (o ++ body ++ c) new
  = pre ++ new ++ replace s (o ++ body ++ c) new.
Proof.
  intros Hq Ho Hc Hne. apply replace_first.
  - destruct o; [|done]. by destruct body.
  - intros i Hi. apply (span_starts_nowhere k); try done. by apply Hq.
Qed.

(** ** The rewriting of whole contents *)

Section Contents.

Variable E : collaborators.
Variable build : bool.

Lemma munge_kind_none (k : tag_kind) (d : deck) (m : model) (html : unicode)
    (w : world) :
  finditer (tag_at (regexps k)) html = [] ->
  munge_kind E build k d m html w = (Ret html, w).
Proof. intros Hf. unfold munge_kind. by rewrite Hf. Qed.

Lemma munge_kind_plain (k : tag_kind) (d : deck) (m : model) (html : unicode)
    (w : world) :
  91 ∉ html -> munge_kind E build k d m html w = (Ret html, w).
Proof. intros Hp. apply munge_kind_none. by apply finditer_plain. Qed.

(** The pass of the tag's own kind on a content with one tag. *)
Lemma munge_kind_single (k : tag_kind) (d : deck) (m : model)
    (p o body c r l : unicode) (res : text) (w w' : world) :
  91 ∉ p -> 91 ∉ body -> 91 ∉ r -> body <> [] ->
  map sre_lower o = re_open (regexps k) ->
  map sre_lower c = re_close (regexps k) ->
  _imgLink E build d (wrap_of k body) m w = (Ret res, w') ->
  to_unicode res = Ret l ->
  munge_kind E build k d m (p ++ o ++ body ++ c ++ r) w
  = (Ret (p ++ l ++ r), w').
Proof.
  intros Hp Hb Hr Hne Ho Hc Hl Hres. unfold munge_kind.
  rewrite finditer_tag_found; try done.
  2:{ intros i [_ Hi]. by apply no_closer_in_plain. }
  rewrite finditer_plain by done.
  cbn [munge_matches group0 group1]. unfold bind. rewrite Hl.
  unfold lift. rewrite Hres. unfold ret. f_equal. f_equal.
  destruct (span_bracket k o body c Ho) as (t & Ht).
  rewrite (app_assoc o), (app_assoc (o ++ body)), <- (app_assoc o).
  rewrite Ht. by apply replace_tag.
Qed.

Lemma mungeQA_single_run {T F D : Type} (type : T) (fields : F) (data : D)
    (k : tag_kind) (d : deck) (m : model)
    (p o body c r l : unicode) (res : text) (w w' : world) :
  91 ∉ p -> 91 ∉ body -> 91 ∉ r -> body <> [] ->
  map sre_lower o = re_open (regexps k) ->
  map sre_lower c = re_close (regexps k) ->
  _imgLink E build d (wrap_of k body) m w = (Ret res, w') ->
  to_unicode res = Ret l -> 91 ∉ l ->
  mungeQA E build (p ++ o ++ body ++ c ++ r) type fields m data d w
  = (Ret (p ++ l ++ r), w').
Proof.
  intros Hp Hb Hr Hne Ho Hc Hl Hres Hlp.
  assert (91 ∉ p ++ l ++ r) as Hout
    by (rewrite !not_elem_of_app; by repeat split).
  unfold mungeQA, bind. destruct k.
  - rewrite (munge_kind_single standard d m p o body c r l res w w');
      try done.
    rewrite munge_kind_plain by done. by rewrite munge_kind_plain.
  - rewrite (munge_kind_none standard)
      by (by apply (finditer_other_kind standard expression)).
    rewrite (munge_kind_single expression d m p o body c r l res w w');
      try done.
    by rewrite munge_kind_plain.
  - rewrite (munge_kind_none standard)
      by (by apply (finditer_other_kind standard math)).
    rewrite (munge_kind_none expression)
      by (by apply (finditer_other_kind expression math)).
    by rewrite (munge_kind_single math d m p o body c r l res w w').
Qed.

(** X4. A content without an opening bracket holds no tag: [mungeQA]
    gives it back as it is and leaves the world untouched (no existence
    test, no file, no tool). *)
Theorem mungeQA_plain_content (html : unicode) (m : model) (d : deck)
    (w : world) :
  91 ∉ html ->
  mungeQA E build html tt tt m tt d w = (Ret html, w).
Proof.
  intros Hp. unfold mungeQA, bind.
  by rewrite !munge_kind_plain.
Qed.

(** The pass of the tag's own kind when the tag stands after text the scan
    passes over and before text without a match. *)
Lemma munge_kind_one (k : tag_kind) (d : deck) (m : model)
    (pre o body c s l : unicode) (res : text) (w w' : world) :
  quiet (tag_at (regexps k)) pre ->
  91 ∉ body -> body <> [] ->
  map sre_lower o = re_open (regexps k) ->
  map sre_lower c = re_close (regexps k) ->
  finditer (tag_at (regexps k)) s = [] ->
  _imgLink E build d (wrap_of k body) m w = (Ret res, w') ->
  to_unicode res = Ret l ->
  munge_kind E build k d m (pre ++ (o ++ body ++ c) ++ s) w
  = (Ret (pre ++ l ++ s), w').
Proof.
  intros Hq Hb Hne Ho Hc Hs Hl Hres. unfold munge_kind.
  rewrite finditer_quiet by done.
  rewrite <- !app_assoc.
  assert (finditer (tag_at (regexps k)) (o ++ body ++ c ++ s)
          = [ {| group0 := o ++ body ++ c; group1 := body |} ]) as ->.
  { rewrite <- Hs.
    apply (finditer_tag_found k [] o body c s); try done.
    - apply not_elem_of_nil.
    - intros i [_ Hi]. by apply no_closer_in_plain. }
  cbn [munge_matches group0 group1]. unfold bind. rewrite Hl.
  unfold lift. rewrite Hres. unfold ret. f_equal. f_equal.
  rewrite (app_assoc o), (app_assoc (o ++ body)), <- (app_assoc o).
  rewrite (replace_quiet k) by done.
  rewrite (replace_absent s); [done| |by apply (span_absent k)].
  destruct o; [|done]. by destruct body.
Qed.

Lemma later_pass_none (k' : tag_kind) (d : deck) (m : model)
    (p s : unicode) (w : world) :
  91 ∉ p ->
  finditer (tag_at (regexps k')) s = [] ->
  munge_kind E build k' d m (p ++ s) w = (Ret (p ++ s), w).
Proof.
  intros Hp Hs. apply munge_kind_none. by rewrite finditer_skip_plain.
Qed.

Lemma mungeQA_single_gen {T F D : Type} (type : T) (fields : F) (data : D)
    (k : tag_kind) (d : deck) (m : model)
    (p o body c r l : unicode) (res : text) (w w' : world) :
  91 ∉ p -> 91 ∉ body -> 91 ∉ r -> body <> [] ->
  map sre_lower o = re_open (regexps k) ->
  map sre_lower c = re_close (regexps k) ->
  _imgLink E build d (wrap_of k body) m w = (Ret res, w') ->
  to_unicode res = Ret l ->
  (forall k', (kind_rank k < kind_rank k')%nat ->
     finditer (tag_at (regexps k')) (l ++ r) = []) ->
  mungeQA E build (p ++ o ++ body ++ c ++ r) type fields m data d w
  = (Ret (p ++ l ++ r), w').
Proof.
  intros Hp Hb Hr Hne Ho Hc Hl Hres Hlate.
  assert (munge_kind E build k d m (p ++ o ++ body ++ c ++ r) w
          = (Ret (p ++ l ++ r), w')) as Hown.
  { rewrite (app_assoc o), (app_assoc (o ++ body)), <- (app_assoc o).
    apply (munge_kind_one k d m p o body c r l res w w'); try done.
    - by apply quiet_plain.
    - by apply finditer_plain. }
  assert (forall k', (kind_rank k < kind_rank k')%nat ->
            munge_kind E build k' d m (p ++ l ++ r) w'
            = (Ret (p ++ l ++ r), w')) as Hafter.
  { intros k' Hk. apply later_pass_none; [done|]. by apply Hlate. }
  unfold mungeQA, bind. destruct k.
  - rewrite Hown. rewrite (Hafter expression) by (simpl; lia).
    apply (Hafter math). simpl. lia.
  - rewrite (munge_kind_none standard)
      by (by apply (finditer_other_kind standard expression)).
    rewrite Hown. apply (Hafter math). simpl. lia.
  - rewrite (munge_kind_none standard)
      by (by apply (finditer_other_kind standard math)).
    rewrite (munge_kind_none expression)
      by (by apply (finditer_other_kind expression math)).
    exact Hown.
Qed.

(** The text left for a tag when building is off is a raw tag around a
    body without brackets: no pattern of a later pass matches in it. *)
Lemma build_off_text_no_later_tag (k k' : tag_kind) (body r : unicode) :
  91 ∉ body -> 91 ∉ r ->
  (kind_rank k < kind_rank k')%nat ->
  finditer (tag_at (regexps k'))
    ((u "[latex]" ++ wrap_of k body ++ u "[/latex]") ++ r) = [].
Proof.
  intros Hb Hr Hk.
  assert (91 ∉ wrap_of k body) as Hw.
  { destruct k; cbn [wrap_of]; [done| |];
      rewrite !not_elem_of_app; (split; [|split]); try done;
      rewrite list_elem_of_In; simpl; intuition discriminate. }
  assert (k' <> standard) as Hne by (intros ->; simpl in Hk; lia).
  rewrite <- !app_assoc.
  apply (finditer_other_kind k' standard [] (u "[latex]") (wrap_of k body)
           (u "[/latex]") r); try done.
  apply not_elem_of_nil.
Qed.

(** X5. A content with one tag of any kind, in any letter case, and no
    other opening bracket.  [mungeQA] calls [_imgLink] once, on the body
    wrapped for the kind, and puts what it gives in the place of the tag;
    the text around the tag is kept.  The proviso: what [_imgLink] gave
    does not form, with the text after it, a tag of a kind whose pass is
    still to come (such a tag would be rewritten by that pass).  In
    particular, with building off and no image of the tag in the working
    directory, the tag of any kind becomes the raw tag around the wrapped
    body, and all that happens in the world is the existence test. *)
Theorem mungeQA_single_tag (k : tag_kind) (d : deck) (m : model)
    (p o body c r : unicode) (w : world) :
  91 ∉ p -> 91 ∉ body -> 91 ∉ r -> body <> [] ->
  map sre_lower o = re_open (regexps k) ->
  map sre_lower c = re_close (regexps k) ->
  (forall l res w',
     _imgLink E build d (wrap_of k body) m w = (Ret res, w') ->
     to_unicode res = Ret l ->
     (forall k', (kind_rank k < kind_rank k')%nat ->
        finditer (tag_at (regexps k')) (l ++ r) = []) ->
     mungeQA E build (p ++ o ++ body ++ c ++ r) tt tt m tt d w
     = (Ret (p ++ l ++ r), w')) /\
  (forall txt,
     build = false ->
     _latexFromHtml E d (wrap_of k body) = Ret txt ->
     files w !! os_path_join (cwd w) (img_fname E txt) = None ->
     mungeQA E build (p ++ o ++ body ++ c ++ r) tt tt m tt d w
     = (Ret (p ++ (u "[latex]" ++ wrap_of k body ++ u "[/latex]") ++ r),
        log_event (EvExists (os_path_join (cwd w) (img_fname E txt))) w)).
Proof.
  intros Hp Hb Hr Hne Ho Hc. split.
  - intros l res w' Hl Hres Hlate. by apply (mungeQA_single_gen tt tt tt k d m p o body c r l res w w').
  - intros txt Hbuild Htxt Hmiss.
    apply (mungeQA_single_gen tt tt tt k d m p o body c r _
             (Uni (u "[latex]" ++ wrap_of k body ++ u "[/latex]")));
      try done.
    + rewrite (_imgLink_run _ _ _ _ _ _ _ Htxt). cbv zeta. rewrite Hmiss.
      rewrite bool_decide_false by (by intros [? ?]).
      by rewrite Hbuild.
    + intros k' Hk'. by apply build_off_text_no_later_tag.
Qed.

(** X6. A cached tag becomes its image link: when the file of the tag's
    name exists in the working directory, [mungeQA] puts the link in the
    place of the tag, and the only thing that happens in the world is the
    existence test; no tool is run, no file is written. *)
Theorem mungeQA_cached_tag (k : tag_kind) (d : deck) (m : model)
    (p o body c r txt l : unicode) (w : world) :
  91 ∉ p -> 91 ∉ body -> 91 ∉ r -> body <> [] ->
  map sre_lower o = re_open (regexps k) ->
  map sre_lower c = re_close (regexps k) ->
  _latexFromHtml E d (wrap_of k body) = Ret txt ->
  is_Some (files w !! os_path_join (cwd w) (img_fname E txt)) ->
  decode_ascii (img_link (img_fname E txt)) = Ret l -> 91 ∉ l ->
  mungeQA E build (p ++ o ++ body ++ c ++ r) tt tt m tt d w
  = (Ret (p ++ l ++ r),
     log_event (EvExists (os_path_join (cwd w) (img_fname E txt))) w).
Proof.
  intros Hp Hb Hr Hne Ho Hc Htxt Hhit Hdec Hl.
  apply (mungeQA_single_run tt tt tt k d m p o body c r l
           (Str (img_link (img_fname E txt))) w
           (log_event
              (EvExists (os_path_join (cwd w) (img_fname E txt))) w));
    try done.
  rewrite (_imgLink_run _ _ _ _ _ _ _ Htxt). cbv zeta.
  by rewrite bool_decide_true.
Qed.

End Contents.

(** ** The read-only mode *)

Lemma only_lookups_refl (w : world) : only_lookups w w.
Proof. repeat split. exists []. by rewrite app_nil_r. Qed.

Lemma only_lookups_trans (w1 w2 w3 : world) :
  only_lookups w1 w2 -> only_lookups w2 w3 -> only_lookups w1 w3.
Proof.
  intros (Hc1 & Hf1 & evs1 & Ht1 & He1) (Hc2 & Hf2 & evs2 & Ht2 & He2).
  split; [congruence|]. split; [congruence|].
  exists (evs1 ++ evs2). split; [by rewrite Ht2, Ht1, app_assoc|].
  by apply Forall_app.
Qed.

Lemma only_lookups_exists (w : world) (p : string) :
  only_lookups w (log_event (EvExists p) w).
Proof.
  repeat split. exists [EvExists p]. split; [done|].
  constructor; [by eexists|done].
Qed.

Section ReadOnly.

Variable E : collaborators.

Lemma _imgLink_build_off (d : deck) (latex : unicode) (m : model)
    (w : world) :
  only_lookups w (_imgLink E false d latex m w).2.
Proof.
  destruct (_latexFromHtml E d latex) as [txt|e] eqn:Htxt.
  - rewrite (_imgLink_run _ _ _ _ _ _ _ Htxt). cbv zeta.
    destruct (bool_decide _); apply only_lookups_exists.
  - unfold _imgLink, bind, lift. rewrite Htxt. apply only_lookups_refl.
Qed.

Lemma munge_matches_build_off (k : tag_kind) (d : deck) (m : model)
    (ms : list re_match) (html : unicode) (w : world) :
  only_lookups w (munge_matches E false k d m ms html w).2.
Proof.
  revert html w. induction ms as [|mt ms IH]; intros html w.
  { apply only_lookups_refl. }
  cbn [munge_matches]. unfold bind.
  pose proof (_imgLink_build_off d (wrap_of k (group1 mt)) m w) as Hl.
  destruct (_imgLink _ _ _ _ _ _) as [[res|e] w1]; [|exact Hl].
  unfold lift. destruct (to_unicode res) as [l|e]; [|exact Hl].
  eapply only_lookups_trans; [exact Hl|apply IH].
Qed.

(** X7. With [build] off, [mungeQA] only reads: whatever the content, the
    files and the working directory are as before, and all it asked of
    the system are existence tests; no tool is run. *)
Theorem mungeQA_build_off_read_only (html : unicode) (m : model) (d : deck)
    (w : world) :
  only_lookups w (mungeQA E false html tt tt m tt d w).2.
Proof.
  unfold mungeQA, munge_kind, bind.
  pose proof (munge_matches_build_off standard d m
                (finditer (tag_at (regexps standard)) html) html w) as H1.
  destruct (munge_matches _ _ standard _ _ _ _ _) as [[h1|e] w1];
    [|exact H1].
  pose proof (munge_matches_build_off expression d m
                (finditer (tag_at (regexps expression)) h1) h1 w1) as H2.
  destruct (munge_matches _ _ expression _ _ _ _ _) as [[h2|e] w2];
    [|by eapply only_lookups_trans].
  eapply only_lookups_trans; [exact H1|].
  eapply only_lookups_trans; [exact H2|].
  apply munge_matches_build_off.
Qed.

End ReadOnly.

(** ** [stripLatex] *)

Lemma strip_pass_plain (k : tag_kind) (text : unicode) :
  finditer (tag_at (regexps k)) text = [] ->
  fold_left (fun t mt => replace t (group0 mt) [])
    (finditer (tag_at (regexps k)) text) text = text.
Proof. by intros ->. Qed.

Lemma strip_pass_single (k : tag_kind) (p o body c r : unicode) :
  91 ∉ p -> 91 ∉ body -> 91 ∉ r -> body <> [] ->
  map sre_lower o = re_open (regexps k) ->
  map sre_lower c = re_close (regexps k) ->
  fold_left (fun t mt => replace t (group0 mt) [])
    (finditer (tag_at (regexps k)) (p ++ o ++ body ++ c ++ r))
    (p ++ o ++ body ++ c ++ r)
  = p ++ r.
Proof.
  intros Hp Hb Hr Hne Ho Hc.
  rewrite finditer_tag_found; try done.
  2:{ intros i [_ Hi]. by apply no_closer_in_plain. }
  rewrite finditer_plain by done. cbn [fold_left group0].
  destruct (span_bracket k o body c Ho) as (t & Ht).
  rewrite (app_assoc o), (app_assoc (o ++ body)), <- (app_assoc o).
  rewrite Ht. by rewrite replace_tag.
Qed.

(** X8. [stripLatex] leaves a text without an opening bracket as it is. *)
Theorem stripLatex_plain (text : unicode) :
  91 ∉ text -> stripLatex text = text.
Proof.
  intros Hp. unfold stripLatex. cbv zeta.
  rewrite (strip_pass_plain standard text) by (by apply finditer_plain).
  rewrite (strip_pass_plain expression text) by (by apply finditer_plain).
  by rewrite (strip_pass_plain math text) by (by apply finditer_plain).
Qed.

(** X9. [stripLatex] takes a tag out: a text with one tag of any kind, in
    any letter case, and no other opening bracket, becomes the text before
    the tag followed by the text after it. *)
Theorem stripLatex_single_tag (k : tag_kind) (p o body c r : unicode) :
  91 ∉ p -> 91 ∉ body -> 91 ∉ r -> body <> [] ->
  map sre_lower o = re_open (regexps k) ->
  map sre_lower c = re_close (regexps k) ->
  stripLatex (p ++ o ++ body ++ c ++ r) = p ++ r.
Proof.
  intros Hp Hb Hr Hne Ho Hc.
  assert (91 ∉ p ++ r) as Hout by (by apply not_elem_of_app).
  unfold stripLatex. cbv zeta. destruct k.
  - rewrite (strip_pass_single standard p o body c r) by done.
    rewrite (strip_pass_plain expression (p ++ r))
      by (by apply finditer_plain).
    by rewrite (strip_pass_plain math (p ++ r)) by (by apply finditer_plain).
  - rewrite (strip_pass_plain standard (p ++ o ++ body ++ c ++ r))
      by (by apply (finditer_other_kind standard expression)).
    rewrite (strip_pass_single expression p o body c r) by done.
    by rewrite (strip_pass_plain math (p ++ r)) by (by apply finditer_plain).
  - rewrite (strip_pass_plain standard (p ++ o ++ body ++ c ++ r))
      by (by apply (finditer_other_kind standard math)).
    rewrite (strip_pass_plain expression (p ++ o ++ body ++ c ++ r))
      by (by apply (finditer_other_kind expression math)).
    by rewrite (strip_pass_single math p o body c r).
Qed.

Lemma replace_from_erase_length {A} `{EqDecision A} (old s : list A)
    (k : nat) :
  (length (replace_from old [] k s) <= length s)%nat.
Proof.
  revert k. induction s as [|x s IH]; intros k; [done|].
  cbn [replace_from]. destruct k as [|k].
  - destruct (starts_with old (x :: s)); simpl.
    + specialize (IH (Nat.pred (length old))). lia.
    + specialize (IH 0%nat). lia.
  - specialize (IH k). simpl. lia.
Qed.

Lemma replace_erase_length {A} `{EqDecision A} (s old : list A) :
  (length (replace s old []) <= length s)%nat.
Proof.
  unfold replace. destruct old as [|a old].
  - simpl. induction s as [|x s IH]; simpl; lia.
  - apply replace_from_erase_length.
Qed.

Lemma strip_pass_length (ms : list re_match) (text : unicode) :
  (length (fold_left (fun t mt => replace t (group0 mt) []) ms text)
   <= length text)%nat.
Proof.
  revert text. induction ms as [|mt ms IH]; intros text; [done|].
  cbn [fold_left].
  specialize (IH (replace text (group0 mt) [])).
  pose proof (replace_erase_length text (group0 mt)). lia.
Qed.

(** X10. [stripLatex] only takes text away: its result is never longer
    than the text it was given. *)
Theorem stripLatex_length (text : unicode) :
  (length (stripLatex text) <= length text)%nat.
Proof.
  unfold stripLatex. cbv zeta.
  etrans; [apply strip_pass_length|].
  etrans; [apply strip_pass_length|]. apply strip_pass_length.
Qed.

(** ** Normalization *)

Lemma finditer_none (m_at : unicode -> option re_match) (c0 : N)
    (p : unicode) :
  (forall x t, x <> c0 -> m_at (x :: t) = None) ->
  c0 ∉ p -> finditer m_at p = [].
Proof.
  intros Hhead Hp. rewrite <- (app_nil_r p).
  by rewrite (finditer_skip m_at c0 p [] Hhead Hp).
Qed.

Lemma re_sub_from_skip (m_at : unicode -> option re_match)
    (repl : unicode) (k : nat) (s : unicode) :
  re_sub_from m_at repl k s = re_sub_from m_at repl 0 (drop k s).
Proof.
  revert k. induction s as [|c s IH]; intros k.
  - by rewrite drop_nil.
  - destruct k as [|k]; [done|]. simpl. apply IH.
Qed.

Lemma re_sub_match (m_at : unicode -> option re_match)
    (repl s r : unicode) (mt : re_match) :
  m_at s = Some mt -> s = group0 mt ++ r -> group0 mt <> [] ->
  re_sub m_at repl s = repl ++ re_sub m_at repl r.
Proof.
  intros Hm Hs Hne. unfold re_sub.
  destruct s as [|c s']. { by destruct (group0 mt). }
  cbn [re_sub_from]. rewrite Hm. f_equal.
  rewrite re_sub_from_skip. f_equal.
  destruct (group0 mt) as [|g0 g]; [done|].
  simpl in Hs. injection Hs as -> ->. simpl. by rewrite drop_app_length.
Qed.

Lemma re_sub_skip (m_at : unicode -> option re_match) (c0 : N)
    (repl p s : unicode) :
  (forall x t, x <> c0 -> m_at (x :: t) = None) ->
  c0 ∉ p ->
  re_sub m_at repl (p ++ s) = p ++ re_sub m_at repl s.
Proof.
  intros Hhead. unfold re_sub. induction p as [|c p IH]; intros Hp; [done|].
  apply not_elem_of_cons in Hp as [Hc Hp].
  change ((c :: p) ++ s) with (c :: (p ++ s)).
  cbn [re_sub_from]. rewrite Hhead by congruence.
  simpl. f_equal. by apply IH.
Qed.

Lemma re_sub_none (m_at : unicode -> option re_match) (c0 : N)
    (repl p : unicode) :
  (forall x t, x <> c0 -> m_at (x :: t) = None) ->
  c0 ∉ p -> re_sub m_at repl p = p.
Proof.
  intros Hhead Hp. rewrite <- (app_nil_r p) at 1.
  rewrite (re_sub_skip m_at c0 repl p [] Hhead Hp).
  by rewrite app_nil_r.
Qed.

Lemma entity_at_other_head (x : N) (t : unicode) :
  x <> 38 -> entity_at (x :: t) = None.
Proof.
  intros Hx. unfold entity_at.
  destruct x as [|q]; [done|].
  repeat (destruct q as [q|q|]; try done).
Qed.

Lemma br_at_other_head (x : N) (t : unicode) :
  x <> 60 -> br_at (x :: t) = None.
Proof.
  intros Hx. unfold br_at.
  change (u "<br") with [60; 98; 114]. cbn [lit].
  destruct (decide (60 = x)) as [Heq|]; [|done]. by destruct Hx.
Qed.

Lemma span_letters_name (name r : unicode) :
  Forall (fun x => is_letter x = true) name ->
  span_letters (name ++ 59 :: r) = (name, 59 :: r).
Proof.
  induction 1 as [|x name Hx _ IH]; [done|].
  cbn [app span_letters]. by rewrite Hx, IH.
Qed.

Lemma entity_at_complete (name r : unicode) :
  name <> [] ->
  Forall (fun x => is_letter x = true) name ->
  entity_at (38 :: name ++ 59 :: r)
  = Some {| group0 := 38 :: name ++ [59]; group1 := name |}.
Proof.
  intros Hne Hl. unfold entity_at. rewrite (span_letters_name _ _ Hl).
  by destruct name.
Qed.

(** The first entity reference of a text is the first match of the
    pattern. *)
Lemma finditer_first_entity (p name r : unicode) :
  38 ∉ p -> name <> [] ->
  Forall (fun x => is_letter x = true) name ->
  finditer entity_at (p ++ 38 :: name ++ 59 :: r)
  = {| group0 := 38 :: name ++ [59]; group1 := name |}
    :: finditer entity_at r.
Proof.
  intros Hp Hne Hl.
  rewrite (finditer_skip entity_at 38) by (done || apply entity_at_other_head).
  apply finditer_match.
  - by apply entity_at_complete.
  - cbn [group0]. simpl. by rewrite <- app_assoc.
  - done.
Qed.

Lemma ascii_str_u (name : string) : ascii_str (u name) = name.
Proof.
  unfold ascii_str. induction name as [|c name IH]; [done|].
  simpl. by rewrite ascii_N_embedding, IH.
Qed.

(** Every name of [name2codepoint] is a key of [entitydefs], with the
    replacement text the standard library gives it. *)
Lemma entitydefs_table (name : string) (c : N) :
  In (name, c) name2codepoint ->
  entitydefs !! name
  = Some (if c <=? 255 then String (ascii_of_N c) EmptyString
          else char_ref c).
Proof.
  assert (Forall (fun nc : string * N =>
                    entitydefs !! nc.1
                    = Some (if nc.2 <=? 255
                            then String (ascii_of_N nc.2) EmptyString
                            else char_ref nc.2)) name2codepoint) as Hall.
  { apply (bool_decide_unpack _). by vm_compute. }
  intros Hin. rewrite Forall_forall in Hall.
  apply list_elem_of_In in Hin. exact (Hall _ Hin).
Qed.

Lemma char_ref_ascii (name : string) (c : N) :
  In (name, c) name2codepoint ->
  decode_ascii (char_ref c) = Ret (u (char_ref c)).
Proof.
  assert (forallb (fun nc : string * N =>
                     match decode_ascii (char_ref nc.2) with
                     | Ret t => bool_decide (t = u (char_ref nc.2))
                     | Raise _ => false
                     end) name2codepoint = true) as Hall
    by by vm_compute.
  intros Hin. rewrite forallb_forall in Hall.
  specialize (Hall _ Hin). cbn [snd] in Hall.
  destruct (decode_ascii (char_ref c)) as [t|e]; [|done].
  apply bool_decide_eq_true in Hall. by rewrite Hall.
Qed.

Lemma decode_ascii_char (c : N) :
  c < 128 -> decode_ascii (String (ascii_of_N c) EmptyString) = Ret [c].
Proof.
  intros Hc. unfold decode_ascii.
  rewrite N_ascii_embedding by lia.
  by rewrite (proj2 (N.ltb_lt _ _) Hc).
Qed.

Lemma decode_ascii_latin1 (c : N) :
  128 <= c -> c <= 255 ->
  decode_ascii (String (ascii_of_N c) EmptyString) = Raise UnicodeDecodeError.
Proof.
  intros H1 H2. unfold decode_ascii.
  rewrite N_ascii_embedding by lia.
  by rewrite (proj2 (N.ltb_ge _ _) H1).
Qed.

Section Normalization.

Variable E : collaborators.
Variable build : bool.

(** X11. Text with no ampersand and no [<] goes to the markup stripper as
    it is: backslashes, braces, dollar signs and every other character are
    left untouched by the entity and line-break steps. *)
Theorem latexFromHtml_plain (d : deck) (latex : unicode) :
  38 ∉ latex -> 60 ∉ latex ->
  _latexFromHtml E d latex = Ret (stripHTML E latex).
Proof.
  intros Hamp Hlt. unfold _latexFromHtml.
  rewrite (finditer_none entity_at 38) by (done || apply entity_at_other_head).
  cbn [convert_entities].
  by rewrite (re_sub_none br_at 60) by (done || apply br_at_other_head).
Qed.

(** The entity step on a text with one reference whose name is in the
    table. *)
Lemma convert_entities_single (name : string) (c : N) (p r : unicode) :
  In (name, c) name2codepoint ->
  u name <> [] ->
  Forall (fun x => is_letter x = true) (u name) ->
  38 ∉ p -> 38 ∉ r ->
  convert_entities
    (finditer entity_at (p ++ u "&" ++ u name ++ u ";" ++ r))
    (p ++ u "&" ++ u name ++ u ";" ++ r)
  = map_outcome (fun t => p ++ t ++ r)
      (decode_ascii (if c <=? 255 then String (ascii_of_N c) EmptyString
                     else char_ref c)).
Proof.
  intros Hin Hne Hl Hp Hr.
  change (p ++ u "&" ++ u name ++ u ";" ++ r)
    with (p ++ 38 :: u name ++ 59 :: r).
  rewrite finditer_first_entity by done.
  rewrite (finditer_none entity_at 38 r)
    by (done || apply entity_at_other_head).
  cbn [convert_entities group0 group1].
  rewrite ascii_str_u, (entitydefs_table _ _ Hin).
  destruct (decode_ascii _) as [t|e]; [|done].
  cbn [map_outcome]. f_equal.
  replace (p ++ 38 :: u name ++ 59 :: r)
    with (p ++ (38 :: u name ++ [59]) ++ r)
    by (simpl; by rewrite <- app_assoc).
  by apply replace_headed.
Qed.

(** X12. An entity of the table whose character is ASCII ([quot], [amp],
    [lt], [gt]) is replaced by that character. *)
Theorem ascii_entity_becomes_character (d : deck) (name : string) (c : N)
    (p r : unicode) :
  In (name, c) name2codepoint -> c < 128 ->
  u name <> [] ->
  Forall (fun x => is_letter x = true) (u name) ->
  38 ∉ p -> 38 ∉ r ->
  _latexFromHtml E d (p ++ u "&" ++ u name ++ u ";" ++ r)
  = Ret (stripHTML E (re_sub br_at [10] (p ++ [c] ++ r))).
Proof.
  intros Hin Hc Hne Hl Hp Hr. unfold _latexFromHtml.
  rewrite (convert_entities_single name c p r) by done.
  rewrite (proj2 (N.leb_le c 255)) by lia.
  by rewrite decode_ascii_char.
Qed.

(** X13. An entity of the table whose character is in Latin-1 above 127
    ([nbsp], [eacute], [uuml], ...) stops everything: the first such
    reference of a tag makes [_imgLink] raise [UnicodeDecodeError] before
    the cache is looked at, whatever follows the reference. *)
Theorem latin1_entity_raises (d : deck) (m : model) (w : world)
    (name : string) (c : N) (p r : unicode) :
  In (name, c) name2codepoint -> 128 <= c -> c <= 255 ->
  u name <> [] ->
  Forall (fun x => is_letter x = true) (u name) ->
  38 ∉ p ->
  _latexFromHtml E d (p ++ u "&" ++ u name ++ u ";" ++ r)
  = Raise UnicodeDecodeError /\
  _imgLink E build d (p ++ u "&" ++ u name ++ u ";" ++ r) m w
  = (Raise UnicodeDecodeError, w).
Proof.
  intros Hin H1 H2 Hne Hl Hp.
  assert (_latexFromHtml E d (p ++ u "&" ++ u name ++ u ";" ++ r)
          = Raise UnicodeDecodeError) as Hraise.
  { unfold _latexFromHtml.
    change (p ++ u "&" ++ u name ++ u ";" ++ r)
      with (p ++ 38 :: u name ++ 59 :: r).
    rewrite finditer_first_entity by done.
    cbn [convert_entities group0 group1].
    rewrite ascii_str_u, (entitydefs_table _ _ Hin).
    rewrite (proj2 (N.leb_le c 255)) by lia.
    by rewrite decode_ascii_latin1. }
  split; [exact Hraise|].
  unfold _imgLink, bind, lift. by rewrite Hraise.
Qed.

(** X14. An entity of the table whose character is outside Latin-1
    ([alpha], [euro], [rarr], ...) is replaced by the decimal character
    reference of the table, not by the character. *)
Theorem wide_entity_becomes_reference (d : deck) (name : string) (c : N)
    (p r : unicode) :
  In (name, c) name2codepoint -> 255 < c ->
  u name <> [] ->
  Forall (fun x => is_letter x = true) (u name) ->
  38 ∉ p -> 38 ∉ r ->
  _latexFromHtml E d (p ++ u "&" ++ u name ++ u ";" ++ r)
  = Ret (stripHTML E (re_sub br_at [10] (p ++ u (char_ref c) ++ r))).
Proof.
  intros Hin Hc Hne Hl Hp Hr. unfold _latexFromHtml.
  rewrite (convert_entities_single name c p r) by done.
  rewrite (proj2 (N.leb_gt c 255)) by lia.
  by rewrite (char_ref_ascii name c Hin).
Qed.

(** X15. A name that is not in the table is left alone: a text whose
    only reference has an unknown name passes the entity step unchanged. *)
Theorem unknown_entity_is_kept (d : deck) (name p r : unicode) :
  entitydefs !! ascii_str name = None ->
  name <> [] ->
  Forall (fun x => is_letter x = true) name ->
  38 ∉ p -> 38 ∉ r ->
  _latexFromHtml E d (p ++ u "&" ++ name ++ u ";" ++ r)
  = Ret (stripHTML E
           (re_sub br_at [10] (p ++ u "&" ++ name ++ u ";" ++ r))).
Proof.
  intros Hnone Hne Hl Hp Hr. unfold _latexFromHtml.
  change (p ++ u "&" ++ name ++ u ";" ++ r)
    with (p ++ 38 :: name ++ 59 :: r).
  rewrite finditer_first_entity by done.
  rewrite (finditer_none entity_at 38 r)
    by (done || apply entity_at_other_head).
  cbn [convert_entities group1]. by rewrite Hnone.
Qed.

(** X16. Both writings of the line break become a newline: in a text
    with no ampersand, the first [<br>] or [<br />] is replaced by the
    character 10, the text before it is kept, and the text after it is
    treated the same way. *)
Theorem line_break_becomes_newline (d : deck) (br p r : unicode) :
  br = u "<br>" \/ br = u "<br />" ->
  38 ∉ p -> 60 ∉ p -> 38 ∉ r ->
  _latexFromHtml E d (p ++ br ++ r)
  = Ret (stripHTML E (p ++ [10] ++ re_sub br_at [10] r)).
Proof.
  intros Hbr Hp Hlt Hr. unfold _latexFromHtml.
  rewrite (finditer_none entity_at 38).
  2: apply entity_at_other_head.
  2:{ rewrite !not_elem_of_app. split; [done|]. split; [|done].
      destruct Hbr as [->| ->]; rewrite list_elem_of_In; simpl;
        intuition discriminate. }
  cbn [convert_entities].
  rewrite (re_sub_skip br_at 60) by (done || apply br_at_other_head).
  destruct Hbr as [->| ->].
  - by rewrite (re_sub_match br_at [10] (u "<br>" ++ r) r
                  {| group0 := u "<br>"; group1 := [] |}).
  - by rewrite (re_sub_match br_at [10] (u "<br />" ++ r) r
                  {| group0 := u "<br />"; group1 := u " /" |}).
Qed.

End Normalization.

(** ** The render pipeline *)


Section Pipeline.

Variable E : collaborators.



(** X18. A failure of the rasterizer: when the typesetter, run in the
    scratch directory on the files of the job, ends with status 0 and the
    rasterizer, run on what the typesetter left, ends with another status,
    [_buildImg] gives the report of the stage [dvipng] and leaves exactly
    this world: the working directory put back, the files as the
    rasterizer left them (nothing is copied into the media directory), and
    a trace that gained the two tool runs, in that order. *)
Theorem buildImg_rasterize_fails (d : deck) (txt : unicode)
    (fname : string) (m : model) (w : world) (c : Z)
    (fs1 fs2 : gmap string string) :
  is_abs (cwd w) = true ->
  is_abs (scratch E) = true ->
  has_bad_token (wrapped m txt) = false ->
  run_tool E (latexCmd ++ ["tmp.tex"%string]) (scratch E)
    (os_path_join (scratch E) "latex_log.txt")
    (job_files E (wrapped m txt) (files w)) = (Exit 0, fs1) ->
  run_tool E (latexDviPngCmd ++ ["tmp.dvi"; "-o"; "tmp.png"]%string)
    (scratch E) (os_path_join (scratch E) "latex_log.txt") fs1
  = (Exit c, fs2) ->
  c <> 0%Z ->
  _buildImg E d txt fname m w
  = (map_outcome Some
       (error_report E "dvipng"
          (fs2 !! os_path_join (scratch E) "latex_log.txt")),
     World (cwd w) fs2
       (trace w ++
        [EvCall (latexCmd ++ ["tmp.tex"%string]) (scratch E);
         EvCall (latexDviPngCmd ++ ["tmp.dvi"; "-o"; "tmp.png"]%string)
           (scratch E)])).
Proof. apply _buildImg_dvipng_exit. Qed.

(** X19. A failure of the typesetter ends the pipeline: when the
    typesetter, run in the scratch directory on the files of the job, ends
    with a status other than 0, [_buildImg] gives the report of the stage
    [latex] and leaves exactly this world: the working directory put back,
    the files as the typesetter left them (nothing is copied), and a trace
    that gained the one run of the typesetter (the rasterizer is not
    run). *)
Theorem typeset_failure_ends_pipeline (d : deck) (txt : unicode)
    (fname : string) (m : model) (w : world) (c : Z)
    (fs1 : gmap string string) :
  is_abs (cwd w) = true ->
  is_abs (scratch E) = true ->
  has_bad_token (wrapped m txt) = false ->
  run_tool E (latexCmd ++ ["tmp.tex"%string]) (scratch E)
    (os_path_join (scratch E) "latex_log.txt")
    (job_files E (wrapped m txt) (files w)) = (Exit c, fs1) ->
  c <> 0%Z ->
  _buildImg E d txt fname m w
  = (map_outcome Some
       (error_report E "latex"
          (fs1 !! os_path_join (scratch E) "latex_log.txt")),
     World (cwd w) fs1
       (trace w ++ [EvCall (latexCmd ++ ["tmp.tex"%string]) (scratch E)])).
Proof. apply _buildImg_latex_exit. Qed.


(** X21. [_errMsg] always has something to show: for a stage name and a
    translation that keeps the [%s], it returns, leaves the world as it
    is, and gives the header, a line break, and then either the log in its
    preformatted block or the hint about the tools. *)
Theorem errMsg_always_reports (type : string) (arg hd : unicode)
    (w : world) :
  decode_ascii type = Ret arg ->
  pyfmt (translate E "Error executing %s.") (Some arg) = Ret hd ->
  exists tail,
    _errMsg E type w = (Ret (hd ++ u "<br>" ++ tail), w) /\
    (tail = translate E "Have you installed latex and dvipng?" \/
     exists log,
       files w !! os_path_join (cwd w) (os_path_join (scratch E) "latex_log.txt")
       = Some log /\
       log <> EmptyString /\
       decode_ascii ("<small><pre>" +:+ cgi_escape log +:+ "</pre></small>")
       = Ret tail).
Proof.
  intros Harg Hfmt. rewrite _errMsg_run. unfold error_report, abspath.
  rewrite Harg, Hfmt.
  exists (log_report E
            (files w !! os_path_join (cwd w)
                          (os_path_join (scratch E) "latex_log.txt"))).
  split; [by rewrite <- app_assoc|].
  unfold log_report.
  destruct (files w !! _) as [log|] eqn:Hlog; [|by left].
  destruct (String.eqb_spec log EmptyString) as [->|Hne]; [by left|].
  destruct (decode_ascii
              ("<small><pre>" +:+ cgi_escape log +:+ "</pre></small>"))
    as [block|e] eqn:Hblock; [|by left].
  right. by exists log.
Qed.

End Pipeline.

(** ** The deny-list, part by part *)

Section Separator.

Context {A : Type} `{EqDecision A}.

Lemma starts_with_separator (p s b : list A) (x : A) :
  x ∉ p -> starts_with p (s ++ x :: b) = starts_with p s.
Proof.
  revert s. induction p as [|p0 p IH]; intros s Hx; [by destruct s|].
  apply not_elem_of_cons in Hx as [Hx0 Hx].
  destruct s as [|y s]; simpl.
  - by rewrite decide_False by congruence.
  - destruct (decide (p0 = y)); [by apply IH|done].
Qed.

(** A pattern that does not hold the separator is found in two texts
    joined by the separator exactly when it is found in one of them. *)
Lemma contains_separator (p a b : list A) (x : A) :
  p <> [] -> x ∉ p ->
  contains p (a ++ x :: b) = contains p a || contains p b.
Proof.
  intros Hne Hx. induction a as [|y a IH].
  - cbn [app contains].
    rewrite (starts_with_separator p [] b x Hx : starts_with p (x :: b) = _).
    by destruct p.
  - change ((y :: a) ++ x :: b) with (y :: (a ++ x :: b)).
    cbn [contains]. rewrite IH.
    rewrite (starts_with_separator p (y :: a) b x Hx
             : starts_with p (y :: a ++ x :: b) = _).
    by rewrite orb_assoc.
Qed.

Lemma existsb_orb (f g h : A -> bool) (l : list A) :
  (forall x, In x l -> f x = g x || h x) ->
  existsb f l = existsb g l || existsb h l.
Proof.
  induction l as [|x l IH]; intros Hf; [done|].
  cbn [existsb]. rewrite IH by (intros y Hy; apply Hf; by right).
  rewrite (Hf x) by by left.
  destruct (g x), (h x), (existsb g l), (existsb h l); done.
Qed.

End Separator.

Lemma encode_utf8_app (a b : unicode) :
  encode_utf8 (a ++ b) = encode_utf8 a +:+ encode_utf8 b.
Proof.
  unfold encode_utf8. by rewrite flat_map_app, string_of_list_ascii_app.
Qed.

Lemma str_contains_newline (bad a b : string) :
  In bad bad_tokens ->
  str_contains bad (a +:+ nl +:+ b) = str_contains bad a || str_contains bad b.
Proof.
  intros Hin. unfold str_contains.
  rewrite !list_ascii_of_string_app.
  change (list_ascii_of_string nl ++ list_ascii_of_string b)
    with (ascii_of_N 10 :: list_ascii_of_string b).
  apply contains_separator.
  - unfold bad_tokens in Hin. simpl in Hin.
    repeat (destruct Hin as [<-|Hin]; [done|]). done.
  - unfold bad_tokens in Hin. simpl in Hin.
    repeat (destruct Hin as [<-|Hin];
            [rewrite list_elem_of_In; simpl; intuition discriminate|]).
    done.
Qed.

(** X22. The deny-list looks at the header, the source and the footer one
    by one: the two newlines [_buildImg] puts between them are in no
    token, so the wrapped source holds a token exactly when one of the
    three parts holds one.  A token cannot be made by the end of one part
    and the beginning of the next. *)
Theorem deny_list_part_by_part (m : model) (latex : unicode) :
  has_bad_token (wrapped m latex)
  = has_bad_token (encode_utf8 (latexPre m))
    || has_bad_token (encode_utf8 latex)
    || has_bad_token (encode_utf8 (latexPost m)).
Proof.
  unfold wrapped, has_bad_token. rewrite !encode_utf8_app.
  change (encode_utf8 [10]) with nl.
  rewrite <- orb_assoc.
  rewrite <- (existsb_orb
                (fun bad => str_contains bad
                              (encode_utf8 latex +:+ nl +:+
                               encode_utf8 (latexPost m)))).
  2:{ intros bad Hin. by apply str_contains_newline. }
  apply existsb_orb. intros bad Hin. by apply str_contains_newline.
Qed.

(** ** UTF-8 and the tokens *)

Lemma land_255 (n : N) : N.land n 255 = n mod 256.
Proof. change 255 with (N.ones 8). by rewrite N.land_ones. Qed.

Lemma byte_of_value (n : N) : N_of_ascii (byte_of n) = n mod 256.
Proof.
  unfold byte_of. rewrite land_255.
  apply N_ascii_embedding. by apply N.mod_upper_bound.
Qed.

Lemma high_byte (K x : N) :
  N.testbit K 7 = true -> 128 <= N_of_ascii (byte_of (N.lor K x)).
Proof.
  intros HK. rewrite byte_of_value, <- land_255.
  set (v := N.land (N.lor K x) 255).
  assert (N.testbit v 7 = true) as Hbit.
  { unfold v. rewrite N.land_spec, N.lor_spec, HK. done. }
  destruct (N.lt_ge_cases v 128) as [Hlt|]; [|done].
  apply N.testbit_true in Hbit.
  change (2 ^ 7) with 128 in Hbit.
  rewrite N.div_small in Hbit by done. done.
Qed.

Lemma utf8_char_low (c : N) : c < 128 -> utf8_char c = [ascii_of_N c].
Proof.
  intros Hc. unfold utf8_char. rewrite (proj2 (N.ltb_lt _ _) Hc).
  unfold byte_of. rewrite land_255, N.mod_small by lia. done.
Qed.

Lemma utf8_char_high (c : N) :
  128 <= c -> Forall (fun b => 128 <= N_of_ascii b) (utf8_char c).
Proof.
  intros Hc. unfold utf8_char. rewrite (proj2 (N.ltb_ge _ _) Hc).
  repeat (destruct (_ <? _));
    repeat constructor; by apply high_byte.
Qed.

Lemma utf8_char_nonempty (c : N) : utf8_char c <> [].
Proof. unfold utf8_char. by repeat (destruct (_ <? _)). Qed.

Lemma starts_with_high_head (b0 h : ascii) (P s : list ascii) :
  N_of_ascii b0 < 128 -> 128 <= N_of_ascii h ->
  starts_with (b0 :: P) (h :: s) = false.
Proof.
  intros Hb Hh. simpl. rewrite decide_False; [done|].
  intros ->. lia.
Qed.

Lemma contains_empty {A} `{EqDecision A} (s : list A) : contains [] s = true.
Proof. by destruct s. Qed.

Lemma contains_skip_high (b0 : ascii) (P hs s : list ascii) :
  N_of_ascii b0 < 128 ->
  Forall (fun b => 128 <= N_of_ascii b) hs ->
  contains (b0 :: P) (hs ++ s) = contains (b0 :: P) s.
Proof.
  intros Hb. induction 1 as [|h hs Hh _ IH]; [done|].
  change ((h :: hs) ++ s) with (h :: (hs ++ s)). cbn [contains].
  by rewrite starts_with_high_head, IH.
Qed.

Lemma starts_with_encoded (P : list ascii) (t : unicode) :
  Forall (fun b => N_of_ascii b < 128) P ->
  starts_with P (flat_map utf8_char t) = starts_with (map N_of_ascii P) t.
Proof.
  intros HP. revert t. induction HP as [|b0 P Hb _ IH]; intros t.
  { by destruct t. }
  destruct t as [|c t]; [done|].
  cbn [flat_map map].
  destruct (N.lt_ge_cases c 128) as [Hc|Hc].
  - rewrite utf8_char_low by done. cbn [app starts_with].
    destruct (decide (N_of_ascii b0 = c)) as [<-|Hne].
    + rewrite ascii_N_embedding. rewrite decide_True by done. apply IH.
    + rewrite decide_False; [done|]. intros ->.
      rewrite N_ascii_embedding in Hne by lia. done.
  - pose proof (utf8_char_high c Hc) as Hhigh.
    pose proof (utf8_char_nonempty c) as Hne.
    destruct (utf8_char c) as [|h hs]; [done|].
    apply Forall_cons in Hhigh as [Hh _].
    change ((h :: hs) ++ flat_map utf8_char t)
      with (h :: (hs ++ flat_map utf8_char t)).
    rewrite starts_with_high_head by done.
    cbn [starts_with]. rewrite decide_False; [done|]. lia.
Qed.

Lemma contains_encoded (P : list ascii) (t : unicode) :
  Forall (fun b => N_of_ascii b < 128) P ->
  contains P (flat_map utf8_char t) = contains (map N_of_ascii P) t.
Proof.
  intros HP. destruct P as [|b0 P].
  { cbn [map]. by rewrite !contains_empty. }
  pose proof HP as HP'. apply Forall_cons in HP' as [Hb _].
  induction t as [|c t IH]; [done|].
  cbn [contains].
  rewrite <- (starts_with_encoded (b0 :: P) (c :: t) HP).
  change (map N_of_ascii (b0 :: P)) with (N_of_ascii b0 :: map N_of_ascii P)
    in *.
  rewrite <- IH. cbn [flat_map].
  destruct (N.lt_ge_cases c 128) as [Hc|Hc].
  - rewrite utf8_char_low by done. done.
  - pose proof (utf8_char_high c Hc) as Hhigh.
    pose proof (utf8_char_nonempty c) as Hne.
    destruct (utf8_char c) as [|h hs] eqn:Hu; [done|].
    change ((h :: hs) ++ flat_map utf8_char t)
      with (h :: (hs ++ flat_map utf8_char t)).
    cbn [contains].
    apply Forall_cons in Hhigh as [Hh Hhs].
    rewrite starts_with_high_head by done.
    by rewrite contains_skip_high.
Qed.

Lemma u_bytes (s : string) : u s = map N_of_ascii (list_ascii_of_string s).
Proof. induction s as [|c s IH]; [done|]. simpl. by rewrite IH. Qed.

(** X23. The tokens are looked for in the bytes of the UTF-8 encoding,
    and that is the same as looking for them in the text: an ASCII token
    is in the encoded bytes exactly when its characters are, in a row, in
    the text.  The bytes of a character above 127 never take part in a
    match. *)
Theorem token_in_bytes_iff_in_text (bad : string) (t : unicode) :
  Forall (fun b => N_of_ascii b < 128) (list_ascii_of_string bad) ->
  str_contains bad (encode_utf8 t) = contains (u bad) t.
Proof.
  intros Hascii. unfold str_contains, encode_utf8.
  rewrite list_ascii_of_string_of_list_ascii, u_bytes.
  by apply contains_encoded.
Qed.

(** ** The same tag twice *)

Lemma replace_headed_first {A} `{EqDecision A} (a : A) (p t s new : list A) :
  a ∉ p ->
  replace (p ++ (a :: t) ++ s) (a :: t) new
  = p ++ new ++ replace s (a :: t) new.
Proof.
  intros Hp. apply replace_first; [done|].
  induction p as [|x p IH]; intros i Hi.
  { simpl in Hi. lia. }
  apply not_elem_of_cons in Hp as [Hx Hp].
  destruct i as [|i].
  - apply starts_with_other_head. congruence.
  - simpl. apply IH; [done|]. simpl in Hi. lia.
Qed.

Section Twice.

Variable E : collaborators.
Variable build : bool.

Lemma munge_matches_step (k : tag_kind) (d : deck) (m : model)
    (mt : re_match) (ms : list re_match) (html l : unicode) (res : text)
    (w w1 : world) :
  _imgLink E build d (wrap_of k (group1 mt)) m w = (Ret res, w1) ->
  to_unicode res = Ret l ->
  munge_matches E build k d m (mt :: ms) html w
  = munge_matches E build k d m ms (replace html (group0 mt) l) w1.
Proof.
  intros Hl Hres. cbn [munge_matches]. unfold bind. rewrite Hl.
  unfold lift. by rewrite Hres.
Qed.

Lemma finditer_two_tags (k : tag_kind) (p q r o body c : unicode) :
  91 ∉ p -> 91 ∉ q -> 91 ∉ r -> 91 ∉ body -> body <> [] ->
  map sre_lower o = re_open (regexps k) ->
  map sre_lower c = re_close (regexps k) ->
  finditer (tag_at (regexps k))
    (p ++ (o ++ body ++ c) ++ q ++ (o ++ body ++ c) ++ r)
  = [ {| group0 := o ++ body ++ c; group1 := body |};
      {| group0 := o ++ body ++ c; group1 := body |} ].
Proof.
  intros Hp Hq Hr Hb Hne Ho Hc.
  rewrite <- !app_assoc.
  rewrite finditer_tag_found; try done.
  2:{ intros i [_ Hi]. by apply no_closer_in_plain. }
  rewrite finditer_tag_found; try done.
  2:{ intros i [_ Hi]. by apply no_closer_in_plain. }
  by rewrite finditer_plain.
Qed.

Lemma finditer_two_other (k' k : tag_kind) (p q r o body c : unicode) :
  k' <> k ->
  91 ∉ p -> 91 ∉ q -> 91 ∉ r -> 91 ∉ body ->
  map sre_lower o = re_open (regexps k) ->
  map sre_lower c = re_close (regexps k) ->
  finditer (tag_at (regexps k'))
    (p ++ (o ++ body ++ c) ++ q ++ (o ++ body ++ c) ++ r) = [].
Proof.
  intros Hk Hp Hq Hr Hb Ho Hc.
  rewrite <- !app_assoc.
  rewrite (finditer_skip_other_tag k' k) by done.
  rewrite (finditer_skip_other_tag k' k) by done.
  by apply finditer_plain.
Qed.

(** X24. The same tag written twice, its image being cached: the pattern
    finds it twice and [_imgLink] is asked twice (two existence tests),
    but the first step already replaces both places, replacement being by
    value; the result has the link in both places. *)
Theorem mungeQA_cached_tag_twice (k : tag_kind) (d : deck) (m : model)
    (p q r o body c txt l : unicode) (w : world) :
  91 ∉ p -> 91 ∉ q -> 91 ∉ r -> 91 ∉ body -> body <> [] ->
  map sre_lower o = re_open (regexps k) ->
  map sre_lower c = re_close (regexps k) ->
  _latexFromHtml E d (wrap_of k body) = Ret txt ->
  is_Some (files w !! os_path_join (cwd w) (img_fname E txt)) ->
  decode_ascii (img_link (img_fname E txt)) = Ret l -> 91 ∉ l ->
  mungeQA E build (p ++ (o ++ body ++ c) ++ q ++ (o ++ body ++ c) ++ r)
    tt tt m tt d w
  = (Ret (p ++ l ++ q ++ l ++ r),
     log_event (EvExists (os_path_join (cwd w) (img_fname E txt)))
       (log_event (EvExists (os_path_join (cwd w) (img_fname E txt))) w)).
Proof.
  intros Hp Hq Hr Hb Hne Ho Hc Htxt Hhit Hdec Hl.
  set (ev := EvExists (os_path_join (cwd w) (img_fname E txt))).
  assert (forall w0, cwd w0 = cwd w -> files w0 = files w ->
            _imgLink E build d (wrap_of k body) m w0
            = (Ret (Str (img_link (img_fname E txt))), log_event ev w0))
    as Hlink.
  { intros w0 Hc0 Hf0. rewrite (_imgLink_run _ _ _ _ _ _ _ Htxt). cbv zeta.
    rewrite Hc0, Hf0. by rewrite bool_decide_true. }
  assert (91 ∉ p ++ l ++ q ++ l ++ r) as Hout
    by (rewrite !not_elem_of_app; by repeat split).
  assert (munge_kind E build k d m
            (p ++ (o ++ body ++ c) ++ q ++ (o ++ body ++ c) ++ r) w
          = (Ret (p ++ l ++ q ++ l ++ r), log_event ev (log_event ev w)))
    as Hown.
  { unfold munge_kind. rewrite finditer_two_tags by done.
    rewrite (munge_matches_step k d m
               {| group0 := o ++ body ++ c; group1 := body |} _ _ l _ w
               (log_event ev w) (Hlink w eq_refl eq_refl) Hdec).
    rewrite (munge_matches_step k d m
               {| group0 := o ++ body ++ c; group1 := body |} _ _ l _
               (log_event ev w) (log_event ev (log_event ev w))
               (Hlink (log_event ev w) eq_refl eq_refl) Hdec).
    cbn [munge_matches group0]. unfold ret. f_equal. f_equal.
    destruct (span_bracket k o body c Ho) as (t & ->).
    rewrite replace_headed_first by done.
    rewrite replace_headed by done.
    apply replace_absent; [done|]. by apply contains_headed. }
  unfold mungeQA, bind. destruct k.
  - rewrite Hown. rewrite munge_kind_plain by done.
    by rewrite munge_kind_plain.
  - rewrite (munge_kind_none E build standard)
      by (by apply (finditer_two_other standard expression)).
    rewrite Hown. by rewrite munge_kind_plain.
  - rewrite (munge_kind_none E build standard)
      by (by apply (finditer_two_other standard math)).
    rewrite (munge_kind_none E build expression)
      by (by apply (finditer_two_other expression math)).
    by rewrite Hown.
Qed.

End Twice.

(** ** The order of the passes, and a failure inside a content *)

Section Order.

Variable E : collaborators.
Variable build : bool.

(** Two tags of different kinds, the one of the later kind first in the
    content. *)
Lemma mungeQA_two_kinds {T F D : Type} (type : T) (fields : F) (data : D)
    (k1 k2 : tag_kind) (d : deck) (m : model)
    (p q r o1 b1 c1 o2 b2 c2 l1 l2 : unicode) (res1 res2 : text)
    (w w1 w2 : world) :
  (kind_rank k1 < kind_rank k2)%nat ->
  91 ∉ p -> 91 ∉ q -> 91 ∉ r -> 91 ∉ b1 -> 91 ∉ b2 ->
  b1 <> [] -> b2 <> [] ->
  map sre_lower o1 = re_open (regexps k1) ->
  map sre_lower c1 = re_close (regexps k1) ->
  map sre_lower o2 = re_open (regexps k2) ->
  map sre_lower c2 = re_close (regexps k2) ->
  _imgLink E build d (wrap_of k1 b1) m w = (Ret res1, w1) ->
  to_unicode res1 = Ret l1 ->
  _imgLink E build d (wrap_of k2 b2) m w1 = (Ret res2, w2) ->
  to_unicode res2 = Ret l2 ->
  (forall k', (kind_rank k1 < kind_rank k')%nat ->
     finditer (tag_at (regexps k')) (l1 ++ r) = []) ->
  (forall k', (kind_rank k2 < kind_rank k')%nat ->
     finditer (tag_at (regexps k')) (l2 ++ q ++ l1 ++ r) = []) ->
  mungeQA E build (p ++ (o2 ++ b2 ++ c2) ++ q ++ (o1 ++ b1 ++ c1) ++ r)
    type fields m data d w
  = (Ret (p ++ l2 ++ q ++ l1 ++ r), w2).
Proof.
  intros Hk Hp Hq Hr Hb1 Hb2 Hne1 Hne2 Ho1 Hc1 Ho2 Hc2 Hl1 Hres1 Hl2 Hres2
    Hlate1 Hlate2.
  assert (k1 <> k2) as Hdiff by (intros ->; lia).
  set (h1 := p ++ (o2 ++ b2 ++ c2) ++ q ++ l1 ++ r).
  set (h2 := p ++ l2 ++ q ++ l1 ++ r).
  (* the pass of the earlier kind takes the second tag *)
  assert (munge_kind E build k1 d m
            (p ++ (o2 ++ b2 ++ c2) ++ q ++ (o1 ++ b1 ++ c1) ++ r) w
          = (Ret h1, w1)) as Hfirst.
  { unfold h1.
    rewrite (app_assoc (o2 ++ b2 ++ c2) q), (app_assoc p).
    rewrite (app_assoc (o2 ++ b2 ++ c2) q (l1 ++ r)), (app_assoc p _ (l1 ++ r)).
    apply (munge_kind_one E build k1 d m _ o1 b1 c1 r l1 res1 w w1);
      try done; [|by apply finditer_plain].
    apply quiet_app; [by apply quiet_plain|].
    apply quiet_app; [by apply (quiet_other_tag k1 k2)|by apply quiet_plain]. }
  (* the pass of the later kind takes the first tag *)
  assert (munge_kind E build k2 d m h1 w1 = (Ret h2, w2)) as Hsecond.
  { unfold h1, h2.
    apply (munge_kind_one E build k2 d m p o2 b2 c2 (q ++ l1 ++ r) l2 res2
             w1 w2); try done; [by apply quiet_plain|].
    rewrite finditer_skip_plain by done. apply Hlate1. lia. }
  (* a pass of another kind before either finds nothing *)
  assert (forall k', k' <> k1 -> k' <> k2 ->
            finditer (tag_at (regexps k'))
              (p ++ (o2 ++ b2 ++ c2) ++ q ++ (o1 ++ b1 ++ c1) ++ r) = [])
    as Hnone0.
  { intros k' H1 H2. rewrite <- !app_assoc.
    rewrite (finditer_skip_other_tag k' k2) by done.
    rewrite (finditer_skip_other_tag k' k1) by done.
    by apply finditer_plain. }
  (* a pass of a kind between the two finds nothing *)
  assert (forall k', k' <> k2 -> (kind_rank k1 < kind_rank k')%nat ->
            finditer (tag_at (regexps k')) h1 = []) as Hnone1.
  { intros k' H2 Hk'. unfold h1. rewrite <- !app_assoc.
    rewrite (finditer_skip_other_tag k' k2) by done.
    rewrite finditer_skip_plain by done. by apply Hlate1. }
  (* a pass of a kind after both finds nothing *)
  assert (forall k', (kind_rank k2 < kind_rank k')%nat ->
            finditer (tag_at (regexps k')) h2 = []) as Hnone2.
  { intros k' Hk'. unfold h2. rewrite finditer_skip_plain by done.
    by apply Hlate2. }
  unfold mungeQA, bind.
  destruct k1, k2; simpl in Hk; try lia.
  - rewrite Hfirst, Hsecond. apply munge_kind_none. apply Hnone2. simpl. lia.
  - rewrite Hfirst.
    rewrite (munge_kind_none E build expression) by (apply Hnone1; [done|simpl; lia]).
    exact Hsecond.
  - rewrite (munge_kind_none E build standard) by (by apply Hnone0).
    rewrite Hfirst. exact Hsecond.
Qed.

(** The same tag twice: one pass. *)
Lemma munge_kind_twice (k : tag_kind) (d : deck) (m : model)
    (p q r o body c l1 l2 : unicode) (res1 res2 : text) (w w1 w2 : world) :
  91 ∉ p -> 91 ∉ q -> 91 ∉ r -> 91 ∉ body -> body <> [] ->
  map sre_lower o = re_open (regexps k) ->
  map sre_lower c = re_close (regexps k) ->
  _imgLink E build d (wrap_of k body) m w = (Ret res1, w1) ->
  to_unicode res1 = Ret l1 ->
  _imgLink E build d (wrap_of k body) m w1 = (Ret res2, w2) ->
  to_unicode res2 = Ret l2 ->
  munge_kind E build k d m
    (p ++ (o ++ body ++ c) ++ q ++ (o ++ body ++ c) ++ r) w
  = (Ret (replace (p ++ l1 ++ q ++ l1 ++ r) (o ++ body ++ c) l2), w2).
Proof.
  intros Hp Hq Hr Hb Hne Ho Hc Hl1 Hres1 Hl2 Hres2.
  unfold munge_kind. rewrite finditer_two_tags by done.
  rewrite (munge_matches_step E build k d m
             {| group0 := o ++ body ++ c; group1 := body |} _ _ l1 _ w w1
             Hl1 Hres1).
  rewrite (munge_matches_step E build k d m
             {| group0 := o ++ body ++ c; group1 := body |} _ _ l2 _ w1 w2
             Hl2 Hres2).
  cbn [munge_matches group0]. unfold ret. f_equal. f_equal. f_equal.
  destruct (span_bracket k o body c Ho) as (t & ->).
  rewrite replace_headed_first by done.
  by rewrite replace_headed by done.
Qed.

Lemma mungeQA_twice {T F D : Type} (type : T) (fields : F) (data : D)
    (k : tag_kind) (d : deck) (m : model)
    (p q r o body c l1 l2 : unicode) (res1 res2 : text) (w w1 w2 : world) :
  91 ∉ p -> 91 ∉ q -> 91 ∉ r -> 91 ∉ body -> body <> [] ->
  map sre_lower o = re_open (regexps k) ->
  map sre_lower c = re_close (regexps k) ->
  _imgLink E build d (wrap_of k body) m w = (Ret res1, w1) ->
  to_unicode res1 = Ret l1 ->
  _imgLink E build d (wrap_of k body) m w1 = (Ret res2, w2) ->
  to_unicode res2 = Ret l2 ->
  (forall k', (kind_rank k <= kind_rank k')%nat ->
     finditer (tag_at (regexps k')) (l1 ++ q ++ l1 ++ r) = []) ->
  mungeQA E build (p ++ (o ++ body ++ c) ++ q ++ (o ++ body ++ c) ++ r)
    type fields m data d w
  = (Ret (p ++ l1 ++ q ++ l1 ++ r), w2).
Proof.
  intros Hp Hq Hr Hb Hne Ho Hc Hl1 Hres1 Hl2 Hres2 Hlate.
  assert (forall k', (kind_rank k <= kind_rank k')%nat ->
            finditer (tag_at (regexps k')) (p ++ l1 ++ q ++ l1 ++ r) = [])
    as Hnone.
  { intros k' Hk'. rewrite finditer_skip_plain by done. by apply Hlate. }
  assert (munge_kind E build k d m
            (p ++ (o ++ body ++ c) ++ q ++ (o ++ body ++ c) ++ r) w
          = (Ret (p ++ l1 ++ q ++ l1 ++ r), w2)) as Hown.
  { rewrite (munge_kind_twice k d m p q r o body c l1 l2 res1 res2 w w1 w2)
      by done.
    rewrite replace_absent; [done| |].
    - destruct o; [|done]. by destruct body.
    - apply (span_absent k); try done. by apply Hnone. }
  unfold mungeQA, bind. destruct k.
  - rewrite Hown.
    rewrite (munge_kind_none E build expression) by (apply Hnone; simpl; lia).
    apply munge_kind_none. apply Hnone. simpl. lia.
  - rewrite (munge_kind_none E build standard)
      by (by apply (finditer_two_other standard expression)).
    rewrite Hown. apply munge_kind_none. apply Hnone. simpl. lia.
  - rewrite (munge_kind_none E build standard)
      by (by apply (finditer_two_other standard math)).
    rewrite (munge_kind_none E build expression)
      by (by apply (finditer_two_other expression math)).
    exact Hown.
Qed.

(** C9. The passes follow the kinds, raw, then inline, then display, and
    not the places of the tags; and a step of a pass replaces by value.
    First part, the order: a content with two tags of different kinds, the
    tag of the later kind standing first.  [_imgLink] is called first, in
    the initial world [w], for the tag of the earlier kind, and then, in
    the world [w1] which that call left, for the tag of the later kind;
    each result stands where its tag stood.  Second part, the
    replacement: a content with the same tag written twice.  The pattern
    finds two matches; the first step of the loop replaces both
    occurrences by the first result [l1]; the second step acts, again by
    value, on that content with the second result [l2]; and when [l1]
    forms no tag of the same or of a later kind, [mungeQA] returns the
    content with [l1] in both places.  The bodies and the text around the
    tags hold no opening bracket, and, in the first part, the texts put in
    the place of the tags form no tag of a kind still to be processed.
    Last, for any number of occurrences, what replacing by value is: a
    content without the span is left as it is, and a content whose first
    occurrence of the span is after [p] becomes [p], the new text, and the
    rest treated the same way. *)
Theorem C9_fixed_order_and_replace_all (d : deck) (m : model) :
  (forall k1 k2 p q r o1 b1 c1 o2 b2 c2 l1 l2 res1 res2 w w1 w2,
     (kind_rank k1 < kind_rank k2)%nat ->
     91 ∉ p -> 91 ∉ q -> 91 ∉ r -> 91 ∉ b1 -> 91 ∉ b2 ->
     b1 <> [] -> b2 <> [] ->
     map sre_lower o1 = re_open (regexps k1) ->
     map sre_lower c1 = re_close (regexps k1) ->
     map sre_lower o2 = re_open (regexps k2) ->
     map sre_lower c2 = re_close (regexps k2) ->
     _imgLink E build d (wrap_of k1 b1) m w = (Ret res1, w1) ->
     to_unicode res1 = Ret l1 ->
     _imgLink E build d (wrap_of k2 b2) m w1 = (Ret res2, w2) ->
     to_unicode res2 = Ret l2 ->
     (forall k', (kind_rank k1 < kind_rank k')%nat ->
        finditer (tag_at (regexps k')) (l1 ++ r) = []) ->
     (forall k', (kind_rank k2 < kind_rank k')%nat ->
        finditer (tag_at (regexps k')) (l2 ++ q ++ l1 ++ r) = []) ->
     mungeQA E build (p ++ (o2 ++ b2 ++ c2) ++ q ++ (o1 ++ b1 ++ c1) ++ r)
       tt tt m tt d w
     = (Ret (p ++ l2 ++ q ++ l1 ++ r), w2)) /\
  (forall k p q r o body c l1 l2 res1 res2 w w1 w2,
     91 ∉ p -> 91 ∉ q -> 91 ∉ r -> 91 ∉ body -> body <> [] ->
     map sre_lower o = re_open (regexps k) ->
     map sre_lower c = re_close (regexps k) ->
     _imgLink E build d (wrap_of k body) m w = (Ret res1, w1) ->
     to_unicode res1 = Ret l1 ->
     _imgLink E build d (wrap_of k body) m w1 = (Ret res2, w2) ->
     to_unicode res2 = Ret l2 ->
     finditer (tag_at (regexps k))
       (p ++ (o ++ body ++ c) ++ q ++ (o ++ body ++ c) ++ r)
     = [ {| group0 := o ++ body ++ c; group1 := body |};
         {| group0 := o ++ body ++ c; group1 := body |} ] /\
     replace (p ++ (o ++ body ++ c) ++ q ++ (o ++ body ++ c) ++ r)
       (o ++ body ++ c) l1
     = p ++ l1 ++ q ++ l1 ++ r /\
     munge_kind E build k d m
       (p ++ (o ++ body ++ c) ++ q ++ (o ++ body ++ c) ++ r) w
     = (Ret (replace (p ++ l1 ++ q ++ l1 ++ r) (o ++ body ++ c) l2), w2) /\
     ((forall k', (kind_rank k <= kind_rank k')%nat ->
         finditer (tag_at (regexps k')) (l1 ++ q ++ l1 ++ r) = []) ->
      mungeQA E build (p ++ (o ++ body ++ c) ++ q ++ (o ++ body ++ c) ++ r)
        tt tt m tt d w
      = (Ret (p ++ l1 ++ q ++ l1 ++ r), w2))) /\
  (forall s old new : unicode,
     old <> [] -> contains old s = false -> replace s old new = s) /\
  (forall p r old new : unicode,
     old <> [] ->
     (forall i, (i < length p)%nat ->
        starts_with old (drop i (p ++ old ++ r)) = false) ->
     replace (p ++ old ++ r) old new = p ++ new ++ replace r old new).
Proof.
  split; [|split; [|split]].
  - intros. by eapply (mungeQA_two_kinds tt tt tt k1 k2).
  - intros k p q r o body c l1 l2 res1 res2 w w1 w2
      Hp Hq Hr Hb Hne Ho Hc Hl1 Hres1 Hl2 Hres2.
    split; [by apply finditer_two_tags|]. split; [|split].
    + destruct (span_bracket k o body c Ho) as (t & ->).
      rewrite replace_headed_first by done.
      by rewrite replace_headed by done.
    + by eapply munge_kind_twice.
    + intros Hlate. by eapply (mungeQA_twice tt tt tt k).
  - intros s old new. apply replace_absent.
  - intros p r old new. apply replace_first.
Qed.


End Order.

(** ** The log in the report *)

(** X25. The log shown by [_errMsg] is escaped character by character:
    an ampersand becomes [&amp;], [<] becomes [&lt;], [>] becomes [&gt;],
    every other byte is kept; so no [<] and no [>] of the log reaches the
    page. *)
Theorem log_is_escaped (log : string) :
  list_ascii_of_string (cgi_escape log)
  = flat_map escape_char (list_ascii_of_string log) /\
  forall c, In c (list_ascii_of_string (cgi_escape log)) ->
            c <> "<"%char /\ c <> ">"%char.
Proof.
  split; [apply cgi_escape_chars|]. intros c. apply cgi_escape_no_markup.
Qed.

(** ** The further properties at concrete inputs *)

Ltac by_computation := apply (bool_decide_unpack _); by vm_compute.

Lemma finditer_finds_tag_witness :
  finditer (tag_at (regexps standard))
    (u "see " ++ u "[LaTeX]" ++ u "x^2" ++ u "[/latex]" ++ u " or [$]y[/$]")
  = {| group0 := u "[LaTeX]" ++ u "x^2" ++ u "[/latex]"; group1 := u "x^2" |}
    :: finditer (tag_at (regexps standard)) (u " or [$]y[/$]").
Proof.
  apply finditer_finds_tag; [by_computation|reflexivity|reflexivity|done|].
  intros i Hi. destruct i as [|[|[|i]]]; [lia|reflexivity|reflexivity|].
  simpl in Hi. lia.
Defined.

Lemma mungeQA_plain_content_witness :
(91 ∉ u "plain text, 2 < 3 & $x$") /\
  mungeQA working true (u "plain text, 2 < 3 & $x$") tt tt plain_model tt
    demo_deck cold
  = (Ret (u "plain text, 2 < 3 & $x$"), cold).
Proof.
  assert (91 ∉ u "plain text, 2 < 3 & $x$") as Hp by by_computation.
  split; [exact Hp|].
  exact (mungeQA_plain_content working true _ plain_model demo_deck cold Hp).
Defined.

Lemma mungeQA_single_tag_witness :
  mungeQA choosy true
    (u "a " ++ u "[$]" ++ u "\oops" ++ u "[/$]" ++ u " b")
    tt tt plain_model tt demo_deck cold
  = (Ret (u "a " ++ u "Error executing latex.<br><small><pre>! Undefined control sequence.</pre></small>" ++ u " b"),
     World "/home/u/deck.media"
       {[ "/tmp/anki_temp/latex_log.txt"%string
            := "! Undefined control sequence."%string;
          "/tmp/anki_temp/tmp.tex"%string
            := (nl +:+ "$\oops$" +:+ nl)%string ]}
       [EvExists "/home/u/deck.media/latex-245c6f6f707324.png";
        EvCall (latexCmd ++ ["tmp.tex"%string]) "/tmp/anki_temp"]) /\
  mungeQA working false
    (u "a " ++ u "[$]" ++ u "x" ++ u "[/$]" ++ u " b")
    tt tt plain_model tt demo_deck cold
  = (Ret (u "a " ++ (u "[latex]" ++ u "$x$" ++ u "[/latex]") ++ u " b"),
     log_event (EvExists "/home/u/deck.media/latex-247824.png") cold).
Proof.
  split.
  - destruct (mungeQA_single_tag choosy true expression demo_deck plain_model
                (u "a ") (u "[$]") (u "\oops") (u "[/$]") (u " b") cold)
      as [Hgen _]; [by_computation|by_computation|by_computation|done
                   |reflexivity|reflexivity|].
    apply (Hgen _ (Uni (u "Error executing latex.<br><small><pre>! Undefined control sequence.</pre></small>")));
      [by vm_compute|reflexivity|].
    intros k' Hk'. destruct k'; simpl in Hk'; [lia|lia|reflexivity].
  - destruct (mungeQA_single_tag working false expression demo_deck plain_model
                (u "a ") (u "[$]") (u "x") (u "[/$]") (u " b") cold)
      as [_ Hoff]; [by_computation|by_computation|by_computation|done
                   |reflexivity|reflexivity|].
    exact (Hoff (u "$x$") eq_refl eq_refl eq_refl).
Defined.

Lemma mungeQA_cached_tag_witness :
  mungeQA working false (u "a " ++ u "[LATEX]" ++ u "x^2" ++ u "[/Latex]" ++ u " b")
    tt tt plain_model tt demo_deck cached
  = (Ret (u "a " ++ u "<img src=" ++ [34] ++ u "latex-785e32.png" ++ [34]
          ++ u ">" ++ u " b"),
     log_event (EvExists "/home/u/deck.media/latex-785e32.png") cached).
Proof.
  apply (mungeQA_cached_tag working false standard demo_deck plain_model
           (u "a ") (u "[LATEX]") (u "x^2") (u "[/Latex]") (u " b")
           (u "x^2")
           (u "<img src=" ++ [34] ++ u "latex-785e32.png" ++ [34] ++ u ">")
           cached);
    try by_computation; try done; try (by vm_compute).
Defined.

Lemma stripLatex_plain_witness :
  stripLatex (u "no tag, only $x$ and <b>") = u "no tag, only $x$ and <b>".
Proof. apply stripLatex_plain. by_computation. Defined.

Lemma stripLatex_single_tag_witness :
  stripLatex (u "a " ++ u "[$$]" ++ u "x=1" ++ u "[/$$]" ++ u " b")
  = u "a " ++ u " b".
Proof.
  apply (stripLatex_single_tag math); try by_computation; done.
Defined.

Lemma latexFromHtml_plain_witness :
  _latexFromHtml working demo_deck (u "\frac{1}{2} + $x$")
  = Ret (stripHTML working (u "\frac{1}{2} + $x$")).
Proof. apply latexFromHtml_plain; by_computation. Defined.

Lemma ascii_entity_becomes_character_witness :
  In ("amp"%string, 38) name2codepoint /\
  _latexFromHtml working demo_deck (u "a " ++ u "&" ++ u "amp" ++ u ";" ++ u " b")
  = Ret (stripHTML working (re_sub br_at [10] (u "a " ++ [38] ++ u " b"))).
Proof.
  assert (In ("amp"%string, 38) name2codepoint) as Hin
    by (apply list_elem_of_In; by_computation).
  split; [exact Hin|].
  apply (ascii_entity_becomes_character working demo_deck "amp" 38);
    [exact Hin|lia|done|repeat constructor|by_computation|by_computation].
Defined.

Lemma latin1_entity_raises_witness :
  In ("eacute"%string, 233) name2codepoint /\
  _imgLink working true demo_deck
    (u "caf" ++ u "&" ++ u "eacute" ++ u ";" ++ u " &amp; more")
    plain_model cold
  = (Raise UnicodeDecodeError, cold).
Proof.
  assert (In ("eacute"%string, 233) name2codepoint) as Hin
    by (apply list_elem_of_In; by_computation).
  split; [exact Hin|].
  apply (latin1_entity_raises working true demo_deck plain_model cold
           "eacute" 233);
    [exact Hin|lia|lia|done|repeat constructor|by_computation].
Defined.

Lemma wide_entity_becomes_reference_witness :
  In ("alpha"%string, 945) name2codepoint /\
  _latexFromHtml working demo_deck (u "$" ++ u "&" ++ u "alpha" ++ u ";" ++ u "$")
  = Ret (stripHTML working
           (re_sub br_at [10] (u "$" ++ u (char_ref 945) ++ u "$"))).
Proof.
  assert (In ("alpha"%string, 945) name2codepoint) as Hin
    by (apply list_elem_of_In; by_computation).
  split; [exact Hin|].
  apply (wide_entity_becomes_reference working demo_deck "alpha" 945);
    [exact Hin|lia|done|repeat constructor|by_computation|by_computation].
Defined.

Lemma unknown_entity_is_kept_witness :
  entitydefs !! ascii_str (u "foo") = None /\
  _latexFromHtml working demo_deck (u "a " ++ u "&" ++ u "foo" ++ u ";" ++ u " b")
  = Ret (stripHTML working
           (re_sub br_at [10]
              (u "a " ++ u "&" ++ u "foo" ++ u ";" ++ u " b"))).
Proof.
  assert (entitydefs !! ascii_str (u "foo") = None) as Hnone by by vm_compute.
  split; [exact Hnone|].
  apply (unknown_entity_is_kept working demo_deck (u "foo"));
    [exact Hnone|done|repeat constructor|by_computation|by_computation].
Defined.

Lemma line_break_becomes_newline_witness :
  _latexFromHtml working demo_deck (u "a" ++ u "<br />" ++ u "b<br>c")
  = Ret (stripHTML working (u "a" ++ [10] ++ re_sub br_at [10] (u "b<br>c"))).
Proof.
  apply line_break_becomes_newline;
    [by right|by_computation|by_computation|by_computation].
Defined.




Lemma buildImg_rasterize_fails_witness :
  has_bad_token (wrapped plain_model (u "x^2")) = false /\
  _buildImg (demo 0 2 "dvipng: no font") demo_deck (u "x^2")
    "latex-785e32.png" plain_model cold
  = (Ret (Some (u "Error executing dvipng.<br><small><pre>dvipng: no font</pre></small>")),
     World "/home/u/deck.media"
       {[ "/tmp/anki_temp/latex_log.txt"%string := "dvipng: no font"%string;
          "/tmp/anki_temp/tmp.tex"%string := (nl +:+ "x^2" +:+ nl)%string;
          "/tmp/anki_temp/tmp.dvi"%string := "dvi"%string ]}
       [EvCall (latexCmd ++ ["tmp.tex"%string]) "/tmp/anki_temp";
        EvCall (latexDviPngCmd ++ ["tmp.dvi"; "-o"; "tmp.png"]%string)
          "/tmp/anki_temp"]).
Proof.
  split; [reflexivity|].
  rewrite (buildImg_rasterize_fails (demo 0 2 "dvipng: no font") demo_deck
             (u "x^2") "latex-785e32.png" plain_model cold 2
             (<["/tmp/anki_temp/latex_log.txt"%string := "dvipng: no font"%string]>
                (<["/tmp/anki_temp/tmp.dvi"%string := "dvi"%string]>
                   (job_files (demo 0 2 "dvipng: no font")
                      (wrapped plain_model (u "x^2")) (files cold))))
             (<["/tmp/anki_temp/latex_log.txt"%string := "dvipng: no font"%string]>
                (<["/tmp/anki_temp/latex_log.txt"%string := "dvipng: no font"%string]>
                   (<["/tmp/anki_temp/tmp.dvi"%string := "dvi"%string]>
                      (job_files (demo 0 2 "dvipng: no font")
                         (wrapped plain_model (u "x^2")) (files cold)))))
             eq_refl eq_refl eq_refl eq_refl eq_refl ltac:(lia)).
  by vm_compute.
Defined.

Lemma typeset_failure_ends_pipeline_witness :
  has_bad_token (wrapped plain_model (u "x^2")) = false /\
  _buildImg typeset_fails demo_deck (u "x^2") "latex-785e32.png"
    plain_model cold
  = (Ret (Some (u "Error executing latex.<br><small><pre>! Undefined control sequence.</pre></small>")),
     World "/home/u/deck.media"
       {[ "/tmp/anki_temp/latex_log.txt"%string
            := "! Undefined control sequence."%string;
          "/tmp/anki_temp/tmp.tex"%string := (nl +:+ "x^2" +:+ nl)%string ]}
       [EvCall (latexCmd ++ ["tmp.tex"%string]) "/tmp/anki_temp"]).
Proof.
  split; [reflexivity|].
  rewrite (typeset_failure_ends_pipeline typeset_fails demo_deck (u "x^2")
             "latex-785e32.png" plain_model cold 1
             (<["/tmp/anki_temp/latex_log.txt"%string
                  := "! Undefined control sequence."%string]>
                (job_files typeset_fails
                   (wrapped plain_model (u "x^2")) (files cold)))
             eq_refl eq_refl eq_refl eq_refl ltac:(lia)).
  by vm_compute.
Defined.


Lemma errMsg_always_reports_witness :
  exists tail,
    _errMsg working "latex" cold
    = (Ret (u "Error executing latex." ++ u "<br>" ++ tail), cold).
Proof.
  destruct (errMsg_always_reports working "latex" (u "latex")
              (u "Error executing latex.") cold eq_refl eq_refl)
    as (tail & H & _).
  by exists tail.
Defined.

Lemma token_in_bytes_iff_in_text_witness :
  str_contains "\input" (encode_utf8 ([233; 8364] ++ u "\input{x}"))
  = contains (u "\input") ([233; 8364] ++ u "\input{x}").
Proof.
  apply token_in_bytes_iff_in_text. repeat constructor; by vm_compute.
Defined.

Lemma mungeQA_cached_tag_twice_witness :
  mungeQA working true
    (u "a " ++ (u "[latex]" ++ u "x^2" ++ u "[/latex]") ++ u " and "
     ++ (u "[latex]" ++ u "x^2" ++ u "[/latex]") ++ u " b")
    tt tt plain_model tt demo_deck cached
  = (Ret (u "a " ++ (u "<img src=" ++ [34] ++ u "latex-785e32.png" ++ [34]
                     ++ u ">") ++ u " and "
          ++ (u "<img src=" ++ [34] ++ u "latex-785e32.png" ++ [34] ++ u ">")
          ++ u " b"),
     log_event (EvExists "/home/u/deck.media/latex-785e32.png")
       (log_event (EvExists "/home/u/deck.media/latex-785e32.png") cached)).
Proof.
  apply (mungeQA_cached_tag_twice working true standard demo_deck plain_model
           (u "a ") (u " and ") (u " b") (u "[latex]") (u "x^2")
           (u "[/latex]") (u "x^2")
           (u "<img src=" ++ [34] ++ u "latex-785e32.png" ++ [34] ++ u ">")
           cached);
    try by_computation; try done; try (by vm_compute).
Defined.

Lemma log_is_escaped_witness :
  In "&"%char (list_ascii_of_string (cgi_escape "a<b")) /\
  "&"%char <> "<"%char /\ "&"%char <> ">"%char.
Proof.
  assert (In "&"%char (list_ascii_of_string (cgi_escape "a<b"))) as Hin
    by (vm_compute; tauto).
  split; [exact Hin|]. exact (proj2 (log_is_escaped "a<b") "&"%char Hin).
Defined.

(** ** The order of the passes and the failure of a tool, at concrete inputs *)

Lemma C9_witness :
  (kind_rank standard < kind_rank expression)%nat /\
  mungeQA working false
    (u "see " ++ (u "[$]" ++ u "b" ++ u "[/$]") ++ u " and "
     ++ (u "[LaTeX]" ++ u "a" ++ u "[/latex]") ++ u ".")
    tt tt plain_model tt demo_deck cold
  = (Ret (u "see " ++ u "[latex]$b$[/latex]" ++ u " and "
          ++ u "[latex]a[/latex]" ++ u "."),
     log_event (EvExists "/home/u/deck.media/latex-246224.png")
       (log_event (EvExists "/home/u/deck.media/latex-61.png") cold)) /\
  finditer (tag_at (regexps expression))
    (u "a " ++ (u "[$]" ++ u "x" ++ u "[/$]") ++ u " and "
     ++ (u "[$]" ++ u "x" ++ u "[/$]") ++ u " b")
  = [ {| group0 := u "[$]" ++ u "x" ++ u "[/$]"; group1 := u "x" |};
      {| group0 := u "[$]" ++ u "x" ++ u "[/$]"; group1 := u "x" |} ] /\
  (mungeQA working true
     (u "a " ++ (u "[$]" ++ u "x" ++ u "[/$]") ++ u " and "
      ++ (u "[$]" ++ u "x" ++ u "[/$]") ++ u " b")
     tt tt plain_model tt demo_deck cold).1
  = Ret (u "a " ++ u (img_link "latex-247824.png") ++ u " and "
         ++ u (img_link "latex-247824.png") ++ u " b").
Proof.
  destruct (C9_fixed_order_and_replace_all working false demo_deck
              plain_model) as (Horder & _).
  destruct (C9_fixed_order_and_replace_all working true demo_deck
              plain_model) as (_ & Hall & _).
  assert (kind_rank standard < kind_rank expression)%nat as Hk
    by (simpl; lia).
  split; [exact Hk|]. split; [|].
  - apply (Horder standard expression
             (u "see ") (u " and ") (u ".")
             (u "[LaTeX]") (u "a") (u "[/latex]")
             (u "[$]") (u "b") (u "[/$]")
             (u "[latex]a[/latex]") (u "[latex]$b$[/latex]")
             (Uni (u "[latex]a[/latex]")) (Uni (u "[latex]$b$[/latex]"))
             cold
             (log_event (EvExists "/home/u/deck.media/latex-61.png") cold));
      [try by_computation; try (by vm_compute) ..
      |intros k' Hk'; destruct k'; simpl in Hk';
         [lia|reflexivity|reflexivity]
      |intros k' Hk'; destruct k'; simpl in Hk'; [lia|lia|reflexivity]].
  - set (w1 := (_imgLink working true demo_deck
                  (wrap_of expression (u "x")) plain_model cold).2).
    set (w2 := (_imgLink working true demo_deck
                  (wrap_of expression (u "x")) plain_model w1).2).
    assert (_imgLink working true demo_deck (wrap_of expression (u "x"))
              plain_model cold
            = (Ret (Str (img_link "latex-247824.png")), w1)) as Hl1
      by (by vm_compute).
    assert (_imgLink working true demo_deck (wrap_of expression (u "x"))
              plain_model w1
            = (Ret (Str (img_link "latex-247824.png")), w2)) as Hl2
      by (by vm_compute).
    destruct (Hall expression (u "a ") (u " and ") (u " b")
                (u "[$]") (u "x") (u "[/$]")
                (u (img_link "latex-247824.png"))
                (u (img_link "latex-247824.png"))
                (Str (img_link "latex-247824.png"))
                (Str (img_link "latex-247824.png"))
                cold w1 w2)
      as (Hscan & _ & _ & Hrun);
      [by_computation|by_computation|by_computation|by_computation
      |done|reflexivity|reflexivity|exact Hl1|reflexivity|exact Hl2
      |reflexivity|].
    split; [exact Hscan|].
    rewrite Hrun; [reflexivity|].
    intros k' Hk'. destruct k'; simpl in Hk'; [lia|reflexivity|reflexivity].
Defined.

